(** * foam_gl_renderer: an offscreen OpenGL mesh renderer

    A shallow embedding of [native/src/foam_gl_renderer.cpp] and of the
    C interface declared in [native/include/foam_gl_renderer.h].

    - [float] is kept abstract: a type [F] with the operations the program
      uses ([Float32]).  Everything that only stores, copies or forwards
      floats is proved for every such [F]; the geometric reading of the
      matrices is proved for every [F] whose arithmetic is exact
      ([ExactArith]), the real numbers being one such model.
    - [int32_t], [uint32_t], [GLuint], [size_t] and pointers are [Z]; signed
      overflow, reads past the end of a caller's array and uses of a
      dangling handle are undefined behaviour and make an operation return
      [None].
    - OpenGL, GLFW and GLEW are the outside world: every call is appended
      to a log and returns, object names handed out by [glGen*] and
      [glCreate*] are chosen by a [Driver], and the set of names in use is
      tracked. *)

From Stdlib Require Import ZArith QArith Reals List String Lia Lra Ring.
From stdpp Require Import base gmap.
Import ListNotations.

Local Open Scope Z_scope.

(** ** Scalars *)

Class Float32 (F : Type) : Type := {
  f_lit : Q -> F;               (* a literal such as [0.7f] *)
  f_of_int : Z -> F;            (* [(float)i] *)
  f_neg : F -> F;
  f_add : F -> F -> F;
  f_sub : F -> F -> F;
  f_mul : F -> F -> F;
  f_div : F -> F -> F;
  f_sin : F -> F;
  f_cos : F -> F;
  f_tan : F -> F;
  f_inversesqrt : F -> F
}.

Declare Scope f32_scope.
Delimit Scope f32_scope with f32.
Notation "- a" := (f_neg a) : f32_scope.
Infix "+" := f_add : f32_scope.
Infix "-" := f_sub : f32_scope.
Infix "*" := f_mul : f32_scope.
Infix "/" := f_div : f32_scope.

(** Exact arithmetic: the literals [0] and [1] with [+], [*], [-] form a
    commutative ring, a literal only depends on the rational it denotes,
    and the inverse square root of one is one. *)
Class ExactArith (F : Type) `{Float32 F} : Prop := {
  exact_ring : ring_theory (f_lit 0) (f_lit 1) f_add f_mul f_sub f_neg (@eq F);
  exact_lit : forall p q : Q, Qeq p q -> f_lit p = f_lit q;
  exact_inversesqrt_1 : f_inversesqrt (f_lit 1) = f_lit 1
}.

(** The real numbers as a model of [Float32]. *)
#[export] Instance R_Float32 : Float32 R := {|
  f_lit := Q2R;
  f_of_int := IZR;
  f_neg := Ropp;
  f_add := Rplus;
  f_sub := Rminus;
  f_mul := Rmult;
  f_div := Rdiv;
  f_sin := sin;
  f_cos := cos;
  f_tan := tan;
  f_inversesqrt := fun x => Rinv (sqrt x)
|}.

(** ** glm vectors and matrices

    glm is a library the program calls; the functions used are written out
    here as the library computes them (matrix_transform and
    matrix_clip_space, right-handed with depth from -1 to 1, the
    library's default). *)

Module glm.
Section Glm.
Context {F : Type} `{Float32 F}.
Local Open Scope f32_scope.

Record vec3 : Type := Vec3 { x3 : F; y3 : F; z3 : F }.
Record vec4 : Type := Vec4 { x4 : F; y4 : F; z4 : F; w4 : F }.
(* column-major: [col0 m] is [m[0]] *)
Record mat4 : Type := Mat4 { col0 : vec4; col1 : vec4; col2 : vec4; col3 : vec4 }.

(* glm::vec3(s) *)
Definition vec3_splat (s : F) : vec3 := Vec3 s s s.
(* -v *)
Definition vec3_neg (v : vec3) : vec3 := Vec3 (- x3 v) (- y3 v) (- z3 v).
(* v * s *)
Definition vec3_scale (v : vec3) (s : F) : vec3 := Vec3 (x3 v * s) (y3 v * s) (z3 v * s).
(* s * v *)
Definition scale_vec3 (s : F) (v : vec3) : vec3 := Vec3 (s * x3 v) (s * y3 v) (s * z3 v).
(* v * s and u + v on vec4 *)
Definition vec4_scale (v : vec4) (s : F) : vec4 :=
  Vec4 (x4 v * s) (y4 v * s) (z4 v * s) (w4 v * s).
Definition vec4_add (u v : vec4) : vec4 :=
  Vec4 (x4 u + x4 v) (y4 u + y4 v) (z4 u + z4 v) (w4 u + w4 v).

(* glm::mat4(s): [s] on the diagonal, zero elsewhere *)
Definition mat4_diag (s : F) : mat4 :=
  let o := f_lit 0 in
  Mat4 (Vec4 s o o o) (Vec4 o s o o) (Vec4 o o s o) (Vec4 o o o s).

(* glm::dot, glm::normalize on vec3 *)
Definition dot (a b : vec3) : F :=
  x3 a * x3 b + y3 a * y3 b + z3 a * z3 b.
Definition normalize (v : vec3) : vec3 := vec3_scale v (f_inversesqrt (dot v v)).

(* glm::radians *)
Definition radians (degrees : F) : F :=
  degrees * f_lit 0.01745329251994329576923690768489.

(* glm::translate(m, v):
     Result = m; Result[3] = m[0]*v[0] + m[1]*v[1] + m[2]*v[2] + m[3]; *)
Definition translate (m : mat4) (v : vec3) : mat4 :=
  Mat4 (col0 m) (col1 m) (col2 m)
    (vec4_add
       (vec4_add (vec4_add (vec4_scale (col0 m) (x3 v)) (vec4_scale (col1 m) (y3 v)))
                 (vec4_scale (col2 m) (z3 v)))
       (col3 m)).

(* glm::rotate(m, angle, v) *)
Definition rotate (m : mat4) (angle : F) (v : vec3) : mat4 :=
  let a := angle in
  let c := f_cos a in
  let s := f_sin a in
  let axis := normalize v in
  let temp := scale_vec3 (f_lit 1 - c) axis in
  let r00 := c + x3 temp * x3 axis in
  let r01 := x3 temp * y3 axis + s * z3 axis in
  let r02 := x3 temp * z3 axis - s * y3 axis in
  let r10 := y3 temp * x3 axis - s * z3 axis in
  let r11 := c + y3 temp * y3 axis in
  let r12 := y3 temp * z3 axis + s * x3 axis in
  let r20 := z3 temp * x3 axis + s * y3 axis in
  let r21 := z3 temp * y3 axis - s * x3 axis in
  let r22 := c + z3 temp * z3 axis in
  let lin a0 a1 a2 :=
    vec4_add (vec4_add (vec4_scale (col0 m) a0) (vec4_scale (col1 m) a1))
             (vec4_scale (col2 m) a2) in
  Mat4 (lin r00 r01 r02) (lin r10 r11 r12) (lin r20 r21 r22) (col3 m).

(* glm::perspective(fovy, aspect, zNear, zFar), right-handed, depth -1..1
   (the library default); its debug-build assertion on [aspect] is not
   part of the value computed *)
Definition perspective (fovy aspect zNear zFar : F) : mat4 :=
  let o := f_lit 0 in
  let tanHalfFovy := f_tan (fovy / f_lit 2) in
  Mat4 (Vec4 (f_lit 1 / (aspect * tanHalfFovy)) o o o)
       (Vec4 o (f_lit 1 / tanHalfFovy) o o)
       (Vec4 o o (- (zFar + zNear) / (zFar - zNear)) (- f_lit 1))
       (Vec4 o o (- (f_lit 2 * zFar * zNear) / (zFar - zNear)) o).

(** The matrix-vector product the shaders compute,
    [m * vec4(p, 1.0)], and the textbook maps it is compared with. *)
Definition mat4_mul_vec4 (m : mat4) (v : vec4) : vec4 :=
  vec4_add
    (vec4_add (vec4_add (vec4_scale (col0 m) (x4 v)) (vec4_scale (col1 m) (y4 v)))
              (vec4_scale (col2 m) (z4 v)))
    (vec4_scale (col3 m) (w4 v)).

Definition point (p : vec3) : vec4 := Vec4 (x3 p) (y3 p) (z3 p) (f_lit 1).

Definition rot_x (a : F) (p : vec3) : vec3 :=
  Vec3 (x3 p)
       (f_cos a * y3 p - f_sin a * z3 p)
       (f_sin a * y3 p + f_cos a * z3 p).

Definition rot_y (a : F) (p : vec3) : vec3 :=
  Vec3 (f_cos a * x3 p + f_sin a * z3 p)
       (y3 p)
       (f_cos a * z3 p - f_sin a * x3 p).

Definition shift (t p : vec3) : vec3 :=
  Vec3 (x3 p + x3 t) (y3 p + y3 t) (z3 p + z3 t).
End Glm.
Arguments vec3 F : clear implicits.
Arguments vec4 F : clear implicits.
Arguments mat4 F : clear implicits.
End glm.

(** ** The C interface types (foam_gl_renderer.h) *)

(** What an argument or member of an enumeration type can hold: one of
    the enumerators or, since nothing checks what a caller passes across
    the C boundary, another value of the underlying integer type (3 is
    even a value of [MeshRepresentation] itself in C++).  The program
    stores such a value as it is and only ever compares it with the
    enumerators; [REPRESENTATION_other v] and [DATA_MODE_other v] stand
    for a value [v] that is none of the enumerators'. *)
Inductive MeshRepresentation : Type :=
| REPRESENTATION_WIREFRAME            (* = 0 *)
| REPRESENTATION_SURFACE              (* = 1 *)
| REPRESENTATION_SURFACE_WITH_EDGES   (* = 2 *)
| REPRESENTATION_other (value : Z).   (* none of 0, 1, 2 *)

Inductive DataMode : Type :=
| DATA_MODE_CELL             (* = 0 *)
| DATA_MODE_POINT            (* = 1 *)
| DATA_MODE_other (value : Z).   (* neither 0 nor 1 *)

#[export] Instance MeshRepresentation_eq_dec : EqDecision MeshRepresentation.
Proof. solve_decision. Defined.

#[export] Instance DataMode_eq_dec : EqDecision DataMode.
Proof. solve_decision. Defined.

(** ** OpenGL, GLFW and GLEW as seen by the program *)

Abbreviation GLuint := Z (only parsing).
Abbreviation GLint := Z (only parsing).
Abbreviation GLsizei := Z (only parsing).
(* a pointer; [nullptr] is 0 *)
Abbreviation pointer := Z (only parsing).
Definition nullptr : pointer := 0.

Inductive GLenum : Type :=
| GL_FALSE | GL_TRUE
| GL_FRAMEBUFFER | GL_RENDERBUFFER | GL_TEXTURE_2D
| GL_RGBA | GL_UNSIGNED_BYTE | GL_UNSIGNED_INT | GL_FLOAT
| GL_TEXTURE_MIN_FILTER | GL_TEXTURE_MAG_FILTER | GL_LINEAR
| GL_COLOR_ATTACHMENT0 | GL_DEPTH_STENCIL_ATTACHMENT | GL_DEPTH24_STENCIL8
| GL_DEPTH_TEST | GL_LESS | GL_BLEND | GL_SRC_ALPHA | GL_ONE_MINUS_SRC_ALPHA
| GL_VERTEX_SHADER | GL_FRAGMENT_SHADER | GL_COMPILE_STATUS | GL_LINK_STATUS
| GL_ARRAY_BUFFER | GL_ELEMENT_ARRAY_BUFFER | GL_STATIC_DRAW
| GL_COLOR_BUFFER_BIT | GL_DEPTH_BUFFER_BIT
| GL_TRIANGLES | GL_FRONT_AND_BACK | GL_LINE | GL_FILL.

Inductive GLFWenum : Type :=
| GLFW_CONTEXT_VERSION_MAJOR | GLFW_CONTEXT_VERSION_MINOR
| GLFW_OPENGL_PROFILE | GLFW_OPENGL_CORE_PROFILE
| GLFW_VISIBLE | GLFW_FALSE
| GLFW_number (n : Z).

(** The kinds of named objects the program creates and deletes. *)
Inductive ObjKind : Type :=
| Framebuffer | Texture | Renderbuffer | Buffer | VertexArray | Shader | Program.

#[export] Instance ObjKind_eq_dec : EqDecision ObjKind.
Proof. solve_decision. Defined.

#[export] Instance ObjKind_countable : Countable ObjKind.
Proof.
  refine (inj_countable'
    (fun k => match k with
              | Framebuffer => 0 | Texture => 1 | Renderbuffer => 2 | Buffer => 3
              | VertexArray => 4 | Shader => 5 | Program => 6 end)
    (fun n => match n with
              | 0 => Framebuffer | 1 => Texture | 2 => Renderbuffer | 3 => Buffer
              | 4 => VertexArray | 5 => Shader | _ => Program end) _).
  intros []; reflexivity.
Defined.

Section Calls.
Context {F : Type}.

(** What a buffer upload reads from the program's memory. *)
Inductive BufferData : Type :=
| FloatData (data : list F)
| UIntData (data : list Z).

(** One call into GLFW, GLEW or OpenGL, with its arguments; a call that
    hands a value back to the program carries that value last. *)
Inductive GLCall : Type :=
| glfwInit (ok : bool)
| glfwWindowHint (hint value : GLFWenum)
| glfwCreateWindow (width height : Z) (title : string) (window : pointer)
| glfwMakeContextCurrent (window : pointer)
| glfwDestroyWindow (window : pointer)
| glfwTerminate
| set_glewExperimental (value : GLenum)
| glewInit (ok : bool)
| glGen (kind : ObjKind) (n : GLsizei) (name : GLuint)
| glDelete (kind : ObjKind) (n : GLsizei) (name : GLuint)
| glCreateShader (type : GLenum) (shader : GLuint)
| glShaderSource (shader : GLuint) (count : GLsizei) (source : string)
| glCompileShader (shader : GLuint)
| glGetShaderiv (shader : GLuint) (pname : GLenum) (success : bool)
| glGetShaderInfoLog (shader : GLuint) (maxLength : GLsizei) (info_log : string)
| glCreateProgram (program : GLuint)
| glAttachShader (program shader : GLuint)
| glLinkProgram (program : GLuint)
| glGetProgramiv (program : GLuint) (pname : GLenum) (success : bool)
| glGetProgramInfoLog (program : GLuint) (maxLength : GLsizei) (info_log : string)
| glDeleteShader (shader : GLuint)
| glDeleteProgram (program : GLuint)
| glEnable (cap : GLenum)
| glDepthFunc (func : GLenum)
| glBlendFunc (sfactor dfactor : GLenum)
| glBindFramebuffer (target : GLenum) (framebuffer : GLuint)
| glBindTexture (target : GLenum) (texture : GLuint)
| glTexImage2D (target : GLenum) (level : GLint) (internalformat : GLenum)
    (width height : GLsizei) (border : GLint) (format type : GLenum) (pixels : pointer)
| glTexParameteri (target pname param : GLenum)
| glFramebufferTexture2D (target attachment textarget : GLenum) (texture : GLuint)
    (level : GLint)
| glBindRenderbuffer (target : GLenum) (renderbuffer : GLuint)
| glRenderbufferStorage (target internalformat : GLenum) (width height : GLsizei)
| glFramebufferRenderbuffer (target attachment renderbuffertarget : GLenum)
    (renderbuffer : GLuint)
| glCheckFramebufferStatus (target : GLenum) (complete : bool)
| glBindVertexArray (array : GLuint)
| glBindBuffer (target : GLenum) (buffer : GLuint)
| glBufferData (target : GLenum) (size : Z) (data : BufferData) (usage : GLenum)
| glVertexAttribPointer (index : GLuint) (size : GLint) (type normalized : GLenum)
    (stride : GLsizei) (offset : pointer)
| glEnableVertexAttribArray (index : GLuint)
| glViewport (x y : GLint) (width height : GLsizei)
| glClearColor (red green blue alpha : F)
| glClear (mask : list GLenum)
| glUseProgram (program : GLuint)
| glGetUniformLocation (program : GLuint) (name : string) (location : GLint)
| glUniformMatrix4fv (location : GLint) (count : GLsizei) (transpose : GLenum)
    (value : glm.mat4 F)
| glUniform4f (location : GLint) (v0 v1 v2 v3 : F)
| glDrawElements (mode : GLenum) (count : GLsizei) (type : GLenum) (indices : pointer)
| glPolygonMode (face mode : GLenum).

(** The world outside the program: the object names in use, every call
    made so far (oldest first) and the lines written to [std::cerr]. *)
Record World : Type := {
  gl_objects : gset (ObjKind * GLuint);
  gl_calls : list GLCall;
  cerr : list string
}.

(** What the platform decides: whether initialisation succeeds, which
    window pointer and object names it hands out given the names in use,
    compile and link results, uniform locations (fixed per program and
    uniform name) and framebuffer completeness. *)
Record Driver : Type := {
  drv_glfwInit : bool;
  drv_glfwCreateWindow : Z -> Z -> pointer;
  drv_glewInit : bool;
  drv_name : ObjKind -> gset (ObjKind * GLuint) -> GLuint;
  drv_compile_status : GLuint -> bool;
  drv_shader_info_log : GLuint -> string;
  drv_link_status : GLuint -> bool;
  drv_program_info_log : GLuint -> string;
  drv_uniform_location : GLuint -> string -> GLint;
  drv_framebuffer_complete : gset (ObjKind * GLuint) -> bool
}.

(** A driver meets the OpenGL contract for names when a name it hands out
    is non-zero and not in use at the time of the call. *)
Definition driver_names_fresh (drv : Driver) : Prop :=
  forall (k : ObjKind) (live : gset (ObjKind * GLuint)),
    drv_name drv k live <> 0 /\ (k, drv_name drv k live) ∉ live.
End Calls.
Arguments BufferData F : clear implicits.
Arguments GLCall F : clear implicits.
Arguments World F : clear implicits.

(** ** A state monad with undefined behaviour *)

Definition Op (S A : Type) : Type := S -> option (A * S).

Definition ret {S A} (a : A) : Op S A := fun s => Some (a, s).

Definition bind {S A B} (m : Op S A) (k : A -> Op S B) : Op S B :=
  fun s => match m s with
           | Some (a, s') => k a s'
           | None => None
           end.

(* undefined behaviour, or an exception leaving an [extern "C"] function *)
Definition undefined {S A} : Op S A := fun _ => None.

Definition get {S} : Op S S := fun s => Some (s, s).
Definition put {S} (s : S) : Op S unit := fun _ => Some (tt, s).

Declare Scope op_scope.
Delimit Scope op_scope with op.
Notation "x <- m ;; k" := (bind m (fun x => k))
  (at level 100, m at next level, right associativity) : op_scope.
Notation "m ;; k" := (bind m (fun _ => k))
  (at level 100, right associativity) : op_scope.

(** ** The renderer object *)

Section Object.
Context {F : Type}.

Record FoamRenderer : Type := {
  window : pointer;
  width : Z;
  height : Z;
  (* Shader programs *)
  surface_shader : GLuint;
  edge_shader : GLuint;
  (* Vertex Array Objects and Buffers *)
  surface_vao : GLuint;
  surface_vbo : GLuint;
  surface_ebo : GLuint;
  surface_color_vbo : GLuint;
  edge_vao : GLuint;
  edge_vbo : GLuint;
  edge_ebo : GLuint;
  (* Framebuffer for offscreen rendering *)
  fbo : GLuint;
  texture : GLuint;
  rbo : GLuint;
  (* Mesh data *)
  vertices : list F;
  indices : list Z;
  vertex_colors : list F;
  cell_colors : list F;
  vertex_count : Z;
  index_count : Z;
  cell_count : Z;
  (* View parameters *)
  rotation_x : F;
  rotation_y : F;
  zoom : F;
  mesh_center : glm.vec3 F;
  (* Rendering mode *)
  representation : MeshRepresentation;
  data_mode : DataMode
}.

(** Assignment to one member. *)
Definition set_window (v : pointer) (r : FoamRenderer) : FoamRenderer :=
  {| window := v; width := width r; height := height r;
     surface_shader := surface_shader r; edge_shader := edge_shader r;
     surface_vao := surface_vao r; surface_vbo := surface_vbo r;
     surface_ebo := surface_ebo r; surface_color_vbo := surface_color_vbo r;
     edge_vao := edge_vao r; edge_vbo := edge_vbo r; edge_ebo := edge_ebo r;
     fbo := fbo r; texture := texture r; rbo := rbo r; vertices := vertices r;
     indices := indices r; vertex_colors := vertex_colors r;
     cell_colors := cell_colors r; vertex_count := vertex_count r;
     index_count := index_count r; cell_count := cell_count r;
     rotation_x := rotation_x r; rotation_y := rotation_y r; zoom := zoom r;
     mesh_center := mesh_center r; representation := representation r;
     data_mode := data_mode r |}.

Definition set_width (v : Z) (r : FoamRenderer) : FoamRenderer :=
  {| window := window r; width := v; height := height r;
     surface_shader := surface_shader r; edge_shader := edge_shader r;
     surface_vao := surface_vao r; surface_vbo := surface_vbo r;
     surface_ebo := surface_ebo r; surface_color_vbo := surface_color_vbo r;
     edge_vao := edge_vao r; edge_vbo := edge_vbo r; edge_ebo := edge_ebo r;
     fbo := fbo r; texture := texture r; rbo := rbo r; vertices := vertices r;
     indices := indices r; vertex_colors := vertex_colors r;
     cell_colors := cell_colors r; vertex_count := vertex_count r;
     index_count := index_count r; cell_count := cell_count r;
     rotation_x := rotation_x r; rotation_y := rotation_y r; zoom := zoom r;
     mesh_center := mesh_center r; representation := representation r;
     data_mode := data_mode r |}.

Definition set_height (v : Z) (r : FoamRenderer) : FoamRenderer :=
  {| window := window r; width := width r; height := v;
     surface_shader := surface_shader r; edge_shader := edge_shader r;
     surface_vao := surface_vao r; surface_vbo := surface_vbo r;
     surface_ebo := surface_ebo r; surface_color_vbo := surface_color_vbo r;
     edge_vao := edge_vao r; edge_vbo := edge_vbo r; edge_ebo := edge_ebo r;
     fbo := fbo r; texture := texture r; rbo := rbo r; vertices := vertices r;
     indices := indices r; vertex_colors := vertex_colors r;
     cell_colors := cell_colors r; vertex_count := vertex_count r;
     index_count := index_count r; cell_count := cell_count r;
     rotation_x := rotation_x r; rotation_y := rotation_y r; zoom := zoom r;
     mesh_center := mesh_center r; representation := representation r;
     data_mode := data_mode r |}.

Definition set_surface_shader (v : GLuint) (r : FoamRenderer) : FoamRenderer :=
  {| window := window r; width := width r; height := height r; surface_shader := v;
     edge_shader := edge_shader r; surface_vao := surface_vao r;
     surface_vbo := surface_vbo r; surface_ebo := surface_ebo r;
     surface_color_vbo := surface_color_vbo r; edge_vao := edge_vao r;
     edge_vbo := edge_vbo r; edge_ebo := edge_ebo r; fbo := fbo r; texture := texture r;
     rbo := rbo r; vertices := vertices r; indices := indices r;
     vertex_colors := vertex_colors r; cell_colors := cell_colors r;
     vertex_count := vertex_count r; index_count := index_count r;
     cell_count := cell_count r; rotation_x := rotation_x r; rotation_y := rotation_y r;
     zoom := zoom r; mesh_center := mesh_center r; representation := representation r;
     data_mode := data_mode r |}.

Definition set_edge_shader (v : GLuint) (r : FoamRenderer) : FoamRenderer :=
  {| window := window r; width := width r; height := height r;
     surface_shader := surface_shader r; edge_shader := v; surface_vao := surface_vao r;
     surface_vbo := surface_vbo r; surface_ebo := surface_ebo r;
     surface_color_vbo := surface_color_vbo r; edge_vao := edge_vao r;
     edge_vbo := edge_vbo r; edge_ebo := edge_ebo r; fbo := fbo r; texture := texture r;
     rbo := rbo r; vertices := vertices r; indices := indices r;
     vertex_colors := vertex_colors r; cell_colors := cell_colors r;
     vertex_count := vertex_count r; index_count := index_count r;
     cell_count := cell_count r; rotation_x := rotation_x r; rotation_y := rotation_y r;
     zoom := zoom r; mesh_center := mesh_center r; representation := representation r;
     data_mode := data_mode r |}.

Definition set_surface_vao (v : GLuint) (r : FoamRenderer) : FoamRenderer :=
  {| window := window r; width := width r; height := height r;
     surface_shader := surface_shader r; edge_shader := edge_shader r; surface_vao := v;
     surface_vbo := surface_vbo r; surface_ebo := surface_ebo r;
     surface_color_vbo := surface_color_vbo r; edge_vao := edge_vao r;
     edge_vbo := edge_vbo r; edge_ebo := edge_ebo r; fbo := fbo r; texture := texture r;
     rbo := rbo r; vertices := vertices r; indices := indices r;
     vertex_colors := vertex_colors r; cell_colors := cell_colors r;
     vertex_count := vertex_count r; index_count := index_count r;
     cell_count := cell_count r; rotation_x := rotation_x r; rotation_y := rotation_y r;
     zoom := zoom r; mesh_center := mesh_center r; representation := representation r;
     data_mode := data_mode r |}.

Definition set_surface_vbo (v : GLuint) (r : FoamRenderer) : FoamRenderer :=
  {| window := window r; width := width r; height := height r;
     surface_shader := surface_shader r; edge_shader := edge_shader r;
     surface_vao := surface_vao r; surface_vbo := v; surface_ebo := surface_ebo r;
     surface_color_vbo := surface_color_vbo r; edge_vao := edge_vao r;
     edge_vbo := edge_vbo r; edge_ebo := edge_ebo r; fbo := fbo r; texture := texture r;
     rbo := rbo r; vertices := vertices r; indices := indices r;
     vertex_colors := vertex_colors r; cell_colors := cell_colors r;
     vertex_count := vertex_count r; index_count := index_count r;
     cell_count := cell_count r; rotation_x := rotation_x r; rotation_y := rotation_y r;
     zoom := zoom r; mesh_center := mesh_center r; representation := representation r;
     data_mode := data_mode r |}.

Definition set_surface_ebo (v : GLuint) (r : FoamRenderer) : FoamRenderer :=
  {| window := window r; width := width r; height := height r;
     surface_shader := surface_shader r; edge_shader := edge_shader r;
     surface_vao := surface_vao r; surface_vbo := surface_vbo r; surface_ebo := v;
     surface_color_vbo := surface_color_vbo r; edge_vao := edge_vao r;
     edge_vbo := edge_vbo r; edge_ebo := edge_ebo r; fbo := fbo r; texture := texture r;
     rbo := rbo r; vertices := vertices r; indices := indices r;
     vertex_colors := vertex_colors r; cell_colors := cell_colors r;
     vertex_count := vertex_count r; index_count := index_count r;
     cell_count := cell_count r; rotation_x := rotation_x r; rotation_y := rotation_y r;
     zoom := zoom r; mesh_center := mesh_center r; representation := representation r;
     data_mode := data_mode r |}.

Definition set_surface_color_vbo (v : GLuint) (r : FoamRenderer) : FoamRenderer :=
  {| window := window r; width := width r; height := height r;
     surface_shader := surface_shader r; edge_shader := edge_shader r;
     surface_vao := surface_vao r; surface_vbo := surface_vbo r;
     surface_ebo := surface_ebo r; surface_color_vbo := v; edge_vao := edge_vao r;
     edge_vbo := edge_vbo r; edge_ebo := edge_ebo r; fbo := fbo r; texture := texture r;
     rbo := rbo r; vertices := vertices r; indices := indices r;
     vertex_colors := vertex_colors r; cell_colors := cell_colors r;
     vertex_count := vertex_count r; index_count := index_count r;
     cell_count := cell_count r; rotation_x := rotation_x r; rotation_y := rotation_y r;
     zoom := zoom r; mesh_center := mesh_center r; representation := representation r;
     data_mode := data_mode r |}.

Definition set_edge_vao (v : GLuint) (r : FoamRenderer) : FoamRenderer :=
  {| window := window r; width := width r; height := height r;
     surface_shader := surface_shader r; edge_shader := edge_shader r;
     surface_vao := surface_vao r; surface_vbo := surface_vbo r;
     surface_ebo := surface_ebo r; surface_color_vbo := surface_color_vbo r;
     edge_vao := v; edge_vbo := edge_vbo r; edge_ebo := edge_ebo r; fbo := fbo r;
     texture := texture r; rbo := rbo r; vertices := vertices r; indices := indices r;
     vertex_colors := vertex_colors r; cell_colors := cell_colors r;
     vertex_count := vertex_count r; index_count := index_count r;
     cell_count := cell_count r; rotation_x := rotation_x r; rotation_y := rotation_y r;
     zoom := zoom r; mesh_center := mesh_center r; representation := representation r;
     data_mode := data_mode r |}.

Definition set_edge_vbo (v : GLuint) (r : FoamRenderer) : FoamRenderer :=
  {| window := window r; width := width r; height := height r;
     surface_shader := surface_shader r; edge_shader := edge_shader r;
     surface_vao := surface_vao r; surface_vbo := surface_vbo r;
     surface_ebo := surface_ebo r; surface_color_vbo := surface_color_vbo r;
     edge_vao := edge_vao r; edge_vbo := v; edge_ebo := edge_ebo r; fbo := fbo r;
     texture := texture r; rbo := rbo r; vertices := vertices r; indices := indices r;
     vertex_colors := vertex_colors r; cell_colors := cell_colors r;
     vertex_count := vertex_count r; index_count := index_count r;
     cell_count := cell_count r; rotation_x := rotation_x r; rotation_y := rotation_y r;
     zoom := zoom r; mesh_center := mesh_center r; representation := representation r;
     data_mode := data_mode r |}.

Definition set_edge_ebo (v : GLuint) (r : FoamRenderer) : FoamRenderer :=
  {| window := window r; width := width r; height := height r;
     surface_shader := surface_shader r; edge_shader := edge_shader r;
     surface_vao := surface_vao r; surface_vbo := surface_vbo r;
     surface_ebo := surface_ebo r; surface_color_vbo := surface_color_vbo r;
     edge_vao := edge_vao r; edge_vbo := edge_vbo r; edge_ebo := v; fbo := fbo r;
     texture := texture r; rbo := rbo r; vertices := vertices r; indices := indices r;
     vertex_colors := vertex_colors r; cell_colors := cell_colors r;
     vertex_count := vertex_count r; index_count := index_count r;
     cell_count := cell_count r; rotation_x := rotation_x r; rotation_y := rotation_y r;
     zoom := zoom r; mesh_center := mesh_center r; representation := representation r;
     data_mode := data_mode r |}.

Definition set_fbo (v : GLuint) (r : FoamRenderer) : FoamRenderer :=
  {| window := window r; width := width r; height := height r;
     surface_shader := surface_shader r; edge_shader := edge_shader r;
     surface_vao := surface_vao r; surface_vbo := surface_vbo r;
     surface_ebo := surface_ebo r; surface_color_vbo := surface_color_vbo r;
     edge_vao := edge_vao r; edge_vbo := edge_vbo r; edge_ebo := edge_ebo r; fbo := v;
     texture := texture r; rbo := rbo r; vertices := vertices r; indices := indices r;
     vertex_colors := vertex_colors r; cell_colors := cell_colors r;
     vertex_count := vertex_count r; index_count := index_count r;
     cell_count := cell_count r; rotation_x := rotation_x r; rotation_y := rotation_y r;
     zoom := zoom r; mesh_center := mesh_center r; representation := representation r;
     data_mode := data_mode r |}.

Definition set_texture (v : GLuint) (r : FoamRenderer) : FoamRenderer :=
  {| window := window r; width := width r; height := height r;
     surface_shader := surface_shader r; edge_shader := edge_shader r;
     surface_vao := surface_vao r; surface_vbo := surface_vbo r;
     surface_ebo := surface_ebo r; surface_color_vbo := surface_color_vbo r;
     edge_vao := edge_vao r; edge_vbo := edge_vbo r; edge_ebo := edge_ebo r;
     fbo := fbo r; texture := v; rbo := rbo r; vertices := vertices r;
     indices := indices r; vertex_colors := vertex_colors r;
     cell_colors := cell_colors r; vertex_count := vertex_count r;
     index_count := index_count r; cell_count := cell_count r;
     rotation_x := rotation_x r; rotation_y := rotation_y r; zoom := zoom r;
     mesh_center := mesh_center r; representation := representation r;
     data_mode := data_mode r |}.

Definition set_rbo (v : GLuint) (r : FoamRenderer) : FoamRenderer :=
  {| window := window r; width := width r; height := height r;
     surface_shader := surface_shader r; edge_shader := edge_shader r;
     surface_vao := surface_vao r; surface_vbo := surface_vbo r;
     surface_ebo := surface_ebo r; surface_color_vbo := surface_color_vbo r;
     edge_vao := edge_vao r; edge_vbo := edge_vbo r; edge_ebo := edge_ebo r;
     fbo := fbo r; texture := texture r; rbo := v; vertices := vertices r;
     indices := indices r; vertex_colors := vertex_colors r;
     cell_colors := cell_colors r; vertex_count := vertex_count r;
     index_count := index_count r; cell_count := cell_count r;
     rotation_x := rotation_x r; rotation_y := rotation_y r; zoom := zoom r;
     mesh_center := mesh_center r; representation := representation r;
     data_mode := data_mode r |}.

Definition set_vertices (v : list F) (r : FoamRenderer) : FoamRenderer :=
  {| window := window r; width := width r; height := height r;
     surface_shader := surface_shader r; edge_shader := edge_shader r;
     surface_vao := surface_vao r; surface_vbo := surface_vbo r;
     surface_ebo := surface_ebo r; surface_color_vbo := surface_color_vbo r;
     edge_vao := edge_vao r; edge_vbo := edge_vbo r; edge_ebo := edge_ebo r;
     fbo := fbo r; texture := texture r; rbo := rbo r; vertices := v;
     indices := indices r; vertex_colors := vertex_colors r;
     cell_colors := cell_colors r; vertex_count := vertex_count r;
     index_count := index_count r; cell_count := cell_count r;
     rotation_x := rotation_x r; rotation_y := rotation_y r; zoom := zoom r;
     mesh_center := mesh_center r; representation := representation r;
     data_mode := data_mode r |}.

Definition set_indices (v : list Z) (r : FoamRenderer) : FoamRenderer :=
  {| window := window r; width := width r; height := height r;
     surface_shader := surface_shader r; edge_shader := edge_shader r;
     surface_vao := surface_vao r; surface_vbo := surface_vbo r;
     surface_ebo := surface_ebo r; surface_color_vbo := surface_color_vbo r;
     edge_vao := edge_vao r; edge_vbo := edge_vbo r; edge_ebo := edge_ebo r;
     fbo := fbo r; texture := texture r; rbo := rbo r; vertices := vertices r;
     indices := v; vertex_colors := vertex_colors r; cell_colors := cell_colors r;
     vertex_count := vertex_count r; index_count := index_count r;
     cell_count := cell_count r; rotation_x := rotation_x r; rotation_y := rotation_y r;
     zoom := zoom r; mesh_center := mesh_center r; representation := representation r;
     data_mode := data_mode r |}.

Definition set_vertex_colors (v : list F) (r : FoamRenderer) : FoamRenderer :=
  {| window := window r; width := width r; height := height r;
     surface_shader := surface_shader r; edge_shader := edge_shader r;
     surface_vao := surface_vao r; surface_vbo := surface_vbo r;
     surface_ebo := surface_ebo r; surface_color_vbo := surface_color_vbo r;
     edge_vao := edge_vao r; edge_vbo := edge_vbo r; edge_ebo := edge_ebo r;
     fbo := fbo r; texture := texture r; rbo := rbo r; vertices := vertices r;
     indices := indices r; vertex_colors := v; cell_colors := cell_colors r;
     vertex_count := vertex_count r; index_count := index_count r;
     cell_count := cell_count r; rotation_x := rotation_x r; rotation_y := rotation_y r;
     zoom := zoom r; mesh_center := mesh_center r; representation := representation r;
     data_mode := data_mode r |}.

Definition set_cell_colors (v : list F) (r : FoamRenderer) : FoamRenderer :=
  {| window := window r; width := width r; height := height r;
     surface_shader := surface_shader r; edge_shader := edge_shader r;
     surface_vao := surface_vao r; surface_vbo := surface_vbo r;
     surface_ebo := surface_ebo r; surface_color_vbo := surface_color_vbo r;
     edge_vao := edge_vao r; edge_vbo := edge_vbo r; edge_ebo := edge_ebo r;
     fbo := fbo r; texture := texture r; rbo := rbo r; vertices := vertices r;
     indices := indices r; vertex_colors := vertex_colors r; cell_colors := v;
     vertex_count := vertex_count r; index_count := index_count r;
     cell_count := cell_count r; rotation_x := rotation_x r; rotation_y := rotation_y r;
     zoom := zoom r; mesh_center := mesh_center r; representation := representation r;
     data_mode := data_mode r |}.

Definition set_vertex_count (v : Z) (r : FoamRenderer) : FoamRenderer :=
  {| window := window r; width := width r; height := height r;
     surface_shader := surface_shader r; edge_shader := edge_shader r;
     surface_vao := surface_vao r; surface_vbo := surface_vbo r;
     surface_ebo := surface_ebo r; surface_color_vbo := surface_color_vbo r;
     edge_vao := edge_vao r; edge_vbo := edge_vbo r; edge_ebo := edge_ebo r;
     fbo := fbo r; texture := texture r; rbo := rbo r; vertices := vertices r;
     indices := indices r; vertex_colors := vertex_colors r;
     cell_colors := cell_colors r; vertex_count := v; index_count := index_count r;
     cell_count := cell_count r; rotation_x := rotation_x r; rotation_y := rotation_y r;
     zoom := zoom r; mesh_center := mesh_center r; representation := representation r;
     data_mode := data_mode r |}.

Definition set_index_count (v : Z) (r : FoamRenderer) : FoamRenderer :=
  {| window := window r; width := width r; height := height r;
     surface_shader := surface_shader r; edge_shader := edge_shader r;
     surface_vao := surface_vao r; surface_vbo := surface_vbo r;
     surface_ebo := surface_ebo r; surface_color_vbo := surface_color_vbo r;
     edge_vao := edge_vao r; edge_vbo := edge_vbo r; edge_ebo := edge_ebo r;
     fbo := fbo r; texture := texture r; rbo := rbo r; vertices := vertices r;
     indices := indices r; vertex_colors := vertex_colors r;
     cell_colors := cell_colors r; vertex_count := vertex_count r; index_count := v;
     cell_count := cell_count r; rotation_x := rotation_x r; rotation_y := rotation_y r;
     zoom := zoom r; mesh_center := mesh_center r; representation := representation r;
     data_mode := data_mode r |}.

Definition set_cell_count (v : Z) (r : FoamRenderer) : FoamRenderer :=
  {| window := window r; width := width r; height := height r;
     surface_shader := surface_shader r; edge_shader := edge_shader r;
     surface_vao := surface_vao r; surface_vbo := surface_vbo r;
     surface_ebo := surface_ebo r; surface_color_vbo := surface_color_vbo r;
     edge_vao := edge_vao r; edge_vbo := edge_vbo r; edge_ebo := edge_ebo r;
     fbo := fbo r; texture := texture r; rbo := rbo r; vertices := vertices r;
     indices := indices r; vertex_colors := vertex_colors r;
     cell_colors := cell_colors r; vertex_count := vertex_count r;
     index_count := index_count r; cell_count := v; rotation_x := rotation_x r;
     rotation_y := rotation_y r; zoom := zoom r; mesh_center := mesh_center r;
     representation := representation r; data_mode := data_mode r |}.

Definition set_rotation_x (v : F) (r : FoamRenderer) : FoamRenderer :=
  {| window := window r; width := width r; height := height r;
     surface_shader := surface_shader r; edge_shader := edge_shader r;
     surface_vao := surface_vao r; surface_vbo := surface_vbo r;
     surface_ebo := surface_ebo r; surface_color_vbo := surface_color_vbo r;
     edge_vao := edge_vao r; edge_vbo := edge_vbo r; edge_ebo := edge_ebo r;
     fbo := fbo r; texture := texture r; rbo := rbo r; vertices := vertices r;
     indices := indices r; vertex_colors := vertex_colors r;
     cell_colors := cell_colors r; vertex_count := vertex_count r;
     index_count := index_count r; cell_count := cell_count r; rotation_x := v;
     rotation_y := rotation_y r; zoom := zoom r; mesh_center := mesh_center r;
     representation := representation r; data_mode := data_mode r |}.

Definition set_rotation_y (v : F) (r : FoamRenderer) : FoamRenderer :=
  {| window := window r; width := width r; height := height r;
     surface_shader := surface_shader r; edge_shader := edge_shader r;
     surface_vao := surface_vao r; surface_vbo := surface_vbo r;
     surface_ebo := surface_ebo r; surface_color_vbo := surface_color_vbo r;
     edge_vao := edge_vao r; edge_vbo := edge_vbo r; edge_ebo := edge_ebo r;
     fbo := fbo r; texture := texture r; rbo := rbo r; vertices := vertices r;
     indices := indices r; vertex_colors := vertex_colors r;
     cell_colors := cell_colors r; vertex_count := vertex_count r;
     index_count := index_count r; cell_count := cell_count r;
     rotation_x := rotation_x r; rotation_y := v; zoom := zoom r;
     mesh_center := mesh_center r; representation := representation r;
     data_mode := data_mode r |}.

Definition set_zoom (v : F) (r : FoamRenderer) : FoamRenderer :=
  {| window := window r; width := width r; height := height r;
     surface_shader := surface_shader r; edge_shader := edge_shader r;
     surface_vao := surface_vao r; surface_vbo := surface_vbo r;
     surface_ebo := surface_ebo r; surface_color_vbo := surface_color_vbo r;
     edge_vao := edge_vao r; edge_vbo := edge_vbo r; edge_ebo := edge_ebo r;
     fbo := fbo r; texture := texture r; rbo := rbo r; vertices := vertices r;
     indices := indices r; vertex_colors := vertex_colors r;
     cell_colors := cell_colors r; vertex_count := vertex_count r;
     index_count := index_count r; cell_count := cell_count r;
     rotation_x := rotation_x r; rotation_y := rotation_y r; zoom := v;
     mesh_center := mesh_center r; representation := representation r;
     data_mode := data_mode r |}.

Definition set_mesh_center (v : glm.vec3 F) (r : FoamRenderer) : FoamRenderer :=
  {| window := window r; width := width r; height := height r;
     surface_shader := surface_shader r; edge_shader := edge_shader r;
     surface_vao := surface_vao r; surface_vbo := surface_vbo r;
     surface_ebo := surface_ebo r; surface_color_vbo := surface_color_vbo r;
     edge_vao := edge_vao r; edge_vbo := edge_vbo r; edge_ebo := edge_ebo r;
     fbo := fbo r; texture := texture r; rbo := rbo r; vertices := vertices r;
     indices := indices r; vertex_colors := vertex_colors r;
     cell_colors := cell_colors r; vertex_count := vertex_count r;
     index_count := index_count r; cell_count := cell_count r;
     rotation_x := rotation_x r; rotation_y := rotation_y r; zoom := zoom r;
     mesh_center := v; representation := representation r; data_mode := data_mode r |}.

Definition set_representation (v : MeshRepresentation) (r : FoamRenderer) : FoamRenderer :=
  {| window := window r; width := width r; height := height r;
     surface_shader := surface_shader r; edge_shader := edge_shader r;
     surface_vao := surface_vao r; surface_vbo := surface_vbo r;
     surface_ebo := surface_ebo r; surface_color_vbo := surface_color_vbo r;
     edge_vao := edge_vao r; edge_vbo := edge_vbo r; edge_ebo := edge_ebo r;
     fbo := fbo r; texture := texture r; rbo := rbo r; vertices := vertices r;
     indices := indices r; vertex_colors := vertex_colors r;
     cell_colors := cell_colors r; vertex_count := vertex_count r;
     index_count := index_count r; cell_count := cell_count r;
     rotation_x := rotation_x r; rotation_y := rotation_y r; zoom := zoom r;
     mesh_center := mesh_center r; representation := v; data_mode := data_mode r |}.

Definition set_data_mode (v : DataMode) (r : FoamRenderer) : FoamRenderer :=
  {| window := window r; width := width r; height := height r;
     surface_shader := surface_shader r; edge_shader := edge_shader r;
     surface_vao := surface_vao r; surface_vbo := surface_vbo r;
     surface_ebo := surface_ebo r; surface_color_vbo := surface_color_vbo r;
     edge_vao := edge_vao r; edge_vbo := edge_vbo r; edge_ebo := edge_ebo r;
     fbo := fbo r; texture := texture r; rbo := rbo r; vertices := vertices r;
     indices := indices r; vertex_colors := vertex_colors r;
     cell_colors := cell_colors r; vertex_count := vertex_count r;
     index_count := index_count r; cell_count := cell_count r;
     rotation_x := rotation_x r; rotation_y := rotation_y r; zoom := zoom r;
     mesh_center := mesh_center r; representation := representation r; data_mode := v |}.

End Object.
Arguments FoamRenderer F : clear implicits.

(** ** Shader sources *)

Definition vertex_shader_source : string := "
#version 330 core
layout (location = 0) in vec3 aPos;
layout (location = 1) in vec4 aColor;

out vec4 vertexColor;

uniform mat4 model;
uniform mat4 view;
uniform mat4 projection;

void main() {
    gl_Position = projection * view * model * vec4(aPos, 1.0);
    vertexColor = aColor;
}
".

Definition fragment_shader_source : string := "
#version 330 core
in vec4 vertexColor;
out vec4 FragColor;

void main() {
    FragColor = vertexColor;
}
".

Definition edge_vertex_shader : string := "
#version 330 core
layout (location = 0) in vec3 aPos;

uniform mat4 model;
uniform mat4 view;
uniform mat4 projection;

void main() {
    gl_Position = projection * view * model * vec4(aPos, 1.0);
}
".

Definition edge_fragment_shader : string := "
#version 330 core
out vec4 FragColor;

uniform vec4 edgeColor;

void main() {
    FragColor = edgeColor;
}
".

(** ** Machine integers, caller arrays and std::vector *)

Definition INT32_MIN : Z := - 2 ^ 31.
Definition INT32_MAX : Z := 2 ^ 31 - 1.

(* an [int] result; overflow is undefined *)
Definition int_result (r : Z) : option Z :=
  if (INT32_MIN <=? r) && (r <=? INT32_MAX) then Some r else None.

Definition int_mul (a b : Z) : option Z := int_result (a * b).
Definition int_add (a b : Z) : option Z := int_result (a + b).

(** A pointer argument is [None] when null and otherwise the array it
    points to.  [read_range p n] is the range [[p, p + n)]: reading before
    the pointer, through a null pointer or past the end of the array is
    undefined. *)
Definition read_range {A} (p : option (list A)) (n : Z) : option (list A) :=
  if n <? 0 then None
  else if n =? 0 then Some []
  else match p with
       | None => None
       | Some a => if n <=? Z.of_nat (length a) then Some (take (Z.to_nat n) a) else None
       end.

(* [v.resize(n)] with [n] converted to [size_t]: a negative [n] becomes a
   size beyond [max_size()] and throws; new elements are value-initialised *)
Definition vector_resize {A} (zero : A) (n : Z) (v : list A) : option (list A) :=
  if n <? 0 then None
  else Some (take (Z.to_nat n) v ++ replicate (Z.to_nat n - length v)%nat zero).

(* [v[i] = x]; an index outside the vector is undefined *)
Definition vector_store {A} (v : list A) (i : Z) (x : A) : option (list A) :=
  if (0 <=? i) && (i <? Z.of_nat (length v)) then Some (<[Z.to_nat i := x]> v) else None.

(* sizeof(float), sizeof(uint32_t) *)
Definition sizeof_float : Z := 4.
Definition sizeof_uint32_t : Z := 4.

(** ** FoamRenderer *)

Section Renderer.
Context {F : Type} `{Float32 F}.
Variable drv : Driver.

Local Open Scope op_scope.

(** A method runs on the object it is called on and on the outside world. *)
Record Machine : Type := { this : FoamRenderer F; world : World F }.

Definition Method (A : Type) : Type := Op Machine A.

Definition get_this : Method (FoamRenderer F) := fun m => Some (this m, m).

Definition assign (f : FoamRenderer F -> FoamRenderer F) : Method unit :=
  fun m => Some (tt, {| this := f (this m); world := world m |}).

Definition lift {A} (o : option A) : Method A :=
  fun m => match o with Some a => Some (a, m) | None => None end.

(** *** Calls into the outside world *)

Definition log_call (c : GLCall F) (w : World F) : World F :=
  {| gl_objects := gl_objects w; gl_calls := gl_calls w ++ [c]; cerr := cerr w |}.

Definition call (c : GLCall F) : Method unit :=
  fun m => Some (tt, {| this := this m; world := log_call c (world m) |}).

(* std::cerr << ... << std::endl *)
Definition log_cerr (line : string) : Method unit :=
  fun m => Some (tt, {| this := this m;
                        world := {| gl_objects := gl_objects (world m);
                                    gl_calls := gl_calls (world m);
                                    cerr := cerr (world m) ++ [line] |} |}).

Definition create_object (k : ObjKind) (c : GLuint -> GLCall F) : Method GLuint :=
  fun m =>
    let name := drv_name drv k (gl_objects (world m)) in
    Some (name, {| this := this m;
                   world := {| gl_objects := {[ (k, name) ]} ∪ gl_objects (world m);
                               gl_calls := gl_calls (world m) ++ [c name];
                               cerr := cerr (world m) |} |}).

Definition delete_object (k : ObjKind) (c : GLCall F) (name : GLuint) : Method unit :=
  fun m =>
    Some (tt, {| this := this m;
                 world := {| gl_objects := gl_objects (world m) ∖ {[ (k, name) ]};
                             gl_calls := gl_calls (world m) ++ [c];
                             cerr := cerr (world m) |} |}).

(* glGenFramebuffers(1, &name), glGenTextures(1, &name), ... *)
Definition gl_gen (k : ObjKind) : Method GLuint := create_object k (glGen k 1).
(* glDeleteFramebuffers(1, &name), glDeleteTextures(1, &name), ... *)
Definition gl_delete (k : ObjKind) (name : GLuint) : Method unit :=
  delete_object k (glDelete k 1 name) name.

Definition createShader (type : GLenum) : Method GLuint :=
  create_object Shader (glCreateShader type).
Definition createProgram : Method GLuint := create_object Program glCreateProgram.
Definition deleteShader (shader : GLuint) : Method unit :=
  delete_object Shader (glDeleteShader shader) shader.
Definition deleteProgram (program : GLuint) : Method unit :=
  delete_object Program (glDeleteProgram program) program.

Definition getShaderiv (shader : GLuint) (pname : GLenum) : Method bool :=
  let success := drv_compile_status drv shader in
  call (glGetShaderiv shader pname success) ;; ret success.

Definition getShaderInfoLog (shader : GLuint) (maxLength : GLsizei) : Method string :=
  let info_log := drv_shader_info_log drv shader in
  call (glGetShaderInfoLog shader maxLength info_log) ;; ret info_log.

Definition getProgramiv (program : GLuint) (pname : GLenum) : Method bool :=
  let success := drv_link_status drv program in
  call (glGetProgramiv program pname success) ;; ret success.

Definition getProgramInfoLog (program : GLuint) (maxLength : GLsizei) : Method string :=
  let info_log := drv_program_info_log drv program in
  call (glGetProgramInfoLog program maxLength info_log) ;; ret info_log.

Definition getUniformLocation (program : GLuint) (name : string) : Method GLint :=
  let location := drv_uniform_location drv program name in
  call (glGetUniformLocation program name location) ;; ret location.

Definition checkFramebufferStatus (target : GLenum) : Method bool :=
  fun m =>
    let complete := drv_framebuffer_complete drv (gl_objects (world m)) in
    Some (complete, {| this := this m;
                       world := log_call (glCheckFramebufferStatus target complete) (world m) |}).

(* the value of a member *)
Definition read {A} (member : FoamRenderer F -> A) : Method A :=
  fun m => Some (member (this m), m).

(* glGen...(1, &member) *)
Definition gen_into (k : ObjKind) (set_member : GLuint -> FoamRenderer F -> FoamRenderer F)
  : Method unit :=
  name <- gl_gen k ;; assign (set_member name).

(** *** create_framebuffer *)

Definition create_framebuffer (w h : Z) : Method unit :=
  (* Delete old framebuffer if exists *)
  old_fbo <- read fbo ;;
  (if negb (old_fbo =? 0) then
     (old_texture <- read texture ;;
      old_rbo <- read rbo ;;
      gl_delete Framebuffer old_fbo ;;
      gl_delete Texture old_texture ;;
      gl_delete Renderbuffer old_rbo)
   else ret tt) ;;
  (* Create framebuffer *)
  gen_into Framebuffer set_fbo ;;
  fbo' <- read fbo ;;
  call (glBindFramebuffer GL_FRAMEBUFFER fbo') ;;
  (* Create texture for color attachment *)
  gen_into Texture set_texture ;;
  texture' <- read texture ;;
  call (glBindTexture GL_TEXTURE_2D texture') ;;
  call (glTexImage2D GL_TEXTURE_2D 0 GL_RGBA w h 0 GL_RGBA GL_UNSIGNED_BYTE nullptr) ;;
  call (glTexParameteri GL_TEXTURE_2D GL_TEXTURE_MIN_FILTER GL_LINEAR) ;;
  call (glTexParameteri GL_TEXTURE_2D GL_TEXTURE_MAG_FILTER GL_LINEAR) ;;
  call (glFramebufferTexture2D GL_FRAMEBUFFER GL_COLOR_ATTACHMENT0 GL_TEXTURE_2D texture' 0) ;;
  (* Create renderbuffer for depth and stencil *)
  gen_into Renderbuffer set_rbo ;;
  rbo' <- read rbo ;;
  call (glBindRenderbuffer GL_RENDERBUFFER rbo') ;;
  call (glRenderbufferStorage GL_RENDERBUFFER GL_DEPTH24_STENCIL8 w h) ;;
  call (glFramebufferRenderbuffer GL_FRAMEBUFFER GL_DEPTH_STENCIL_ATTACHMENT
          GL_RENDERBUFFER rbo') ;;
  complete <- checkFramebufferStatus GL_FRAMEBUFFER ;;
  (if negb complete then log_cerr "Framebuffer is not complete!" else ret tt) ;;
  call (glBindFramebuffer GL_FRAMEBUFFER 0).

(** *** Shader programs *)

Definition check_shader_compile (shader : GLuint) (type : string) : Method unit :=
  success <- getShaderiv shader GL_COMPILE_STATUS ;;
  if negb success then
    (info_log <- getShaderInfoLog shader 1024 ;;
     log_cerr ("Shader compilation error (" ++ type ++ "): " ++ info_log)%string)
  else ret tt.

Definition check_program_link (program : GLuint) : Method unit :=
  success <- getProgramiv program GL_LINK_STATUS ;;
  if negb success then
    (info_log <- getProgramInfoLog program 1024 ;;
     log_cerr ("Program linking error: " ++ info_log)%string)
  else ret tt.

Definition create_shader_program (vs_source fs_source : string) : Method GLuint :=
  (* Compile vertex shader *)
  vertex_shader <- createShader GL_VERTEX_SHADER ;;
  call (glShaderSource vertex_shader 1 vs_source) ;;
  call (glCompileShader vertex_shader) ;;
  check_shader_compile vertex_shader "VERTEX" ;;
  (* Compile fragment shader *)
  fragment_shader <- createShader GL_FRAGMENT_SHADER ;;
  call (glShaderSource fragment_shader 1 fs_source) ;;
  call (glCompileShader fragment_shader) ;;
  check_shader_compile fragment_shader "FRAGMENT" ;;
  (* Link program *)
  program <- createProgram ;;
  call (glAttachShader program vertex_shader) ;;
  call (glAttachShader program fragment_shader) ;;
  call (glLinkProgram program) ;;
  check_program_link program ;;
  deleteShader vertex_shader ;;
  deleteShader fragment_shader ;;
  ret program.

(** *** Construction and destruction *)

(** The object before the constructor body runs: [width(w), height(h)] and
    the default member initialisers; the members without an initialiser
    keep whatever the storage [mem] held. *)
Definition member_init (mem : FoamRenderer F) (w h : Z) : FoamRenderer F :=
  {| window := window mem;
     width := w; height := h;
     surface_shader := surface_shader mem; edge_shader := edge_shader mem;
     surface_vao := surface_vao mem; surface_vbo := surface_vbo mem;
     surface_ebo := surface_ebo mem; surface_color_vbo := surface_color_vbo mem;
     edge_vao := edge_vao mem; edge_vbo := edge_vbo mem; edge_ebo := edge_ebo mem;
     fbo := fbo mem; texture := texture mem; rbo := rbo mem;
     vertices := []; indices := []; vertex_colors := []; cell_colors := [];
     vertex_count := 0; index_count := 0; cell_count := 0;
     rotation_x := f_lit 0.3; rotation_y := f_lit 0.3; zoom := f_lit 500.0;
     mesh_center := glm.vec3_splat (f_lit 0.0);
     representation := REPRESENTATION_SURFACE;
     data_mode := DATA_MODE_POINT |}.

(* FoamRenderer(int32_t w, int32_t h), the constructor body *)
Definition constructor : Method unit :=
  (* Initialize GLFW (hidden window for offscreen rendering) *)
  call (glfwInit (drv_glfwInit drv)) ;;
  if negb (drv_glfwInit drv) then log_cerr "Failed to initialize GLFW"
  else
    call (glfwWindowHint GLFW_CONTEXT_VERSION_MAJOR (GLFW_number 3)) ;;
    call (glfwWindowHint GLFW_CONTEXT_VERSION_MINOR (GLFW_number 3)) ;;
    call (glfwWindowHint GLFW_OPENGL_PROFILE GLFW_OPENGL_CORE_PROFILE) ;;
    call (glfwWindowHint GLFW_VISIBLE GLFW_FALSE) ;;
    w <- read width ;;
    h <- read height ;;
    assign (set_window (drv_glfwCreateWindow drv w h)) ;;
    win <- read window ;;
    call (glfwCreateWindow w h "FoamRenderer" win) ;;
    if win =? nullptr then
      (log_cerr "Failed to create GLFW window" ;;
       call glfwTerminate)
    else
      call (glfwMakeContextCurrent win) ;;
      (* Initialize GLEW *)
      call (set_glewExperimental GL_TRUE) ;;
      call (glewInit (drv_glewInit drv)) ;;
      if negb (drv_glewInit drv) then log_cerr "Failed to initialize GLEW"
      else
        (* Create shaders *)
        surface <- create_shader_program vertex_shader_source fragment_shader_source ;;
        assign (set_surface_shader surface) ;;
        edge <- create_shader_program edge_vertex_shader edge_fragment_shader ;;
        assign (set_edge_shader edge) ;;
        (* Create VAOs and VBOs *)
        gen_into VertexArray set_surface_vao ;;
        gen_into Buffer set_surface_vbo ;;
        gen_into Buffer set_surface_ebo ;;
        gen_into Buffer set_surface_color_vbo ;;
        gen_into VertexArray set_edge_vao ;;
        gen_into Buffer set_edge_vbo ;;
        gen_into Buffer set_edge_ebo ;;
        (* Create framebuffer for offscreen rendering *)
        create_framebuffer w h ;;
        (* Enable depth test *)
        call (glEnable GL_DEPTH_TEST) ;;
        call (glDepthFunc GL_LESS) ;;
        (* Enable blending *)
        call (glEnable GL_BLEND) ;;
        call (glBlendFunc GL_SRC_ALPHA GL_ONE_MINUS_SRC_ALPHA).

(* ~FoamRenderer() *)
Definition destructor : Method unit :=
  self <- get_this ;;
  gl_delete VertexArray (surface_vao self) ;;
  gl_delete Buffer (surface_vbo self) ;;
  gl_delete Buffer (surface_ebo self) ;;
  gl_delete Buffer (surface_color_vbo self) ;;
  gl_delete VertexArray (edge_vao self) ;;
  gl_delete Buffer (edge_vbo self) ;;
  gl_delete Buffer (edge_ebo self) ;;
  gl_delete Framebuffer (fbo self) ;;
  gl_delete Texture (texture self) ;;
  gl_delete Renderbuffer (rbo self) ;;
  deleteProgram (surface_shader self) ;;
  deleteProgram (edge_shader self) ;;
  (if negb (window self =? nullptr) then call (glfwDestroyWindow (window self)) else ret tt) ;;
  call glfwTerminate.

(** *** Mesh upload *)

Definition upload_mesh_to_gpu : Method unit :=
  self <- get_this ;;
  (* Bind surface VAO *)
  call (glBindVertexArray (surface_vao self)) ;;
  (* Upload vertex positions *)
  call (glBindBuffer GL_ARRAY_BUFFER (surface_vbo self)) ;;
  call (glBufferData GL_ARRAY_BUFFER (Z.of_nat (length (vertices self)) * sizeof_float)
          (FloatData (vertices self)) GL_STATIC_DRAW) ;;
  call (glVertexAttribPointer 0 3 GL_FLOAT GL_FALSE (3 * sizeof_float) 0) ;;
  call (glEnableVertexAttribArray 0) ;;
  (* Upload vertex colors *)
  call (glBindBuffer GL_ARRAY_BUFFER (surface_color_vbo self)) ;;
  call (glBufferData GL_ARRAY_BUFFER (Z.of_nat (length (vertex_colors self)) * sizeof_float)
          (FloatData (vertex_colors self)) GL_STATIC_DRAW) ;;
  call (glVertexAttribPointer 1 4 GL_FLOAT GL_FALSE (4 * sizeof_float) 0) ;;
  call (glEnableVertexAttribArray 1) ;;
  (* Upload indices *)
  call (glBindBuffer GL_ELEMENT_ARRAY_BUFFER (surface_ebo self)) ;;
  call (glBufferData GL_ELEMENT_ARRAY_BUFFER (Z.of_nat (length (indices self)) * sizeof_uint32_t)
          (UIntData (indices self)) GL_STATIC_DRAW) ;;
  call (glBindVertexArray 0) ;;
  (* Edge rendering setup (same geometry) *)
  call (glBindVertexArray (edge_vao self)) ;;
  call (glBindBuffer GL_ARRAY_BUFFER (edge_vbo self)) ;;
  call (glBufferData GL_ARRAY_BUFFER (Z.of_nat (length (vertices self)) * sizeof_float)
          (FloatData (vertices self)) GL_STATIC_DRAW) ;;
  call (glVertexAttribPointer 0 3 GL_FLOAT GL_FALSE (3 * sizeof_float) 0) ;;
  call (glEnableVertexAttribArray 0) ;;
  call (glBindBuffer GL_ELEMENT_ARRAY_BUFFER (edge_ebo self)) ;;
  call (glBufferData GL_ELEMENT_ARRAY_BUFFER (Z.of_nat (length (indices self)) * sizeof_uint32_t)
          (UIntData (indices self)) GL_STATIC_DRAW) ;;
  call (glBindVertexArray 0).

(* vertex_colors[i * 4 + c] = x *)
Definition store_vertex_color (i c : Z) (x : F) : Method unit :=
  i4 <- lift (int_mul i 4) ;;
  j <- lift (int_add i4 c) ;;
  old <- read vertex_colors ;;
  v <- lift (vector_store old j x) ;;
  assign (set_vertex_colors v).

(* [n] rounds of [for (int i = ...; ...; i++) body], starting at [i] *)
Fixpoint for_int (n : nat) (i : Z) (body : Z -> Method unit) : Method unit :=
  match n with
  | O => ret tt
  | S n' => body i ;; for_int n' (i + 1) body
  end.

Definition update_mesh_data
    (verts : option (list F)) (vert_count : Z)
    (inds : option (list Z)) (ind_count : Z)
    (colors c_colors : option (list F)) (c_count : Z) : Method unit :=
  assign (set_vertex_count vert_count) ;;
  assign (set_index_count ind_count) ;;
  assign (set_cell_count c_count) ;;
  (* Copy vertex data *)
  n3 <- lift (int_mul vert_count 3) ;;
  vs <- lift (read_range verts n3) ;;
  assign (set_vertices vs) ;;
  ixs <- lift (read_range inds ind_count) ;;
  assign (set_indices ixs) ;;
  n4 <- lift (int_mul vert_count 4) ;;
  match colors with
  | Some _ =>
      cs <- lift (read_range colors n4) ;;
      assign (set_vertex_colors cs)
  | None =>
      (* Default white color *)
      old <- read vertex_colors ;;
      v <- lift (vector_resize (f_lit 0) n4 old) ;;
      assign (set_vertex_colors v) ;;
      (* for (int i = 0; i < vert_count; i++) *)
      for_int (Z.to_nat vert_count) 0 (fun i =>
        store_vertex_color i 0 (f_lit 0.5) ;;
        store_vertex_color i 1 (f_lit 0.7) ;;
        store_vertex_color i 2 (f_lit 1.0) ;;
        store_vertex_color i 3 (f_lit 1.0))
  end ;;
  match c_colors with
  | Some _ =>
      c4 <- lift (int_mul c_count 4) ;;
      ccs <- lift (read_range c_colors c4) ;;
      assign (set_cell_colors ccs)
  | None => ret tt
  end ;;
  (* Upload to GPU *)
  upload_mesh_to_gpu.

(** *** render *)

Definition render : Method GLuint :=
  self <- get_this ;;
  call (glfwMakeContextCurrent (window self)) ;;
  (* Bind framebuffer *)
  call (glBindFramebuffer GL_FRAMEBUFFER (fbo self)) ;;
  call (glViewport 0 0 (width self) (height self)) ;;
  (* Clear *)
  call (glClearColor (f_lit 0.117) (f_lit 0.117) (f_lit 0.117) (f_lit 1.0)) ;;
  call (glClear [GL_COLOR_BUFFER_BIT; GL_DEPTH_BUFFER_BIT]) ;;
  if (vertex_count self =? 0) || (index_count self =? 0) then
    (call (glBindFramebuffer GL_FRAMEBUFFER 0) ;;
     read texture)
  else
    (* Setup matrices *)
    let model := glm.mat4_diag (f_lit 1.0) in
    let model := glm.translate model (glm.vec3_neg (mesh_center self)) in
    let model := glm.rotate model (rotation_y self)
                   (glm.Vec3 (f_lit 0.0) (f_lit 1.0) (f_lit 0.0)) in
    let model := glm.rotate model (rotation_x self)
                   (glm.Vec3 (f_lit 1.0) (f_lit 0.0) (f_lit 0.0)) in
    let view := glm.mat4_diag (f_lit 1.0) in
    let view := glm.translate view
                  (glm.Vec3 (f_lit 0.0) (f_lit 0.0) (f_neg (zoom self))) in
    let aspect := f_div (f_of_int (width self)) (f_of_int (height self)) in
    let projection :=
      glm.perspective (glm.radians (f_lit 45.0)) aspect (f_lit 0.1) (f_lit 10000.0) in
    (* Render surface *)
    (if bool_decide (representation self = REPRESENTATION_SURFACE)
        || bool_decide (representation self = REPRESENTATION_SURFACE_WITH_EDGES) then
       (call (glUseProgram (surface_shader self)) ;;
        model_loc <- getUniformLocation (surface_shader self) "model" ;;
        view_loc <- getUniformLocation (surface_shader self) "view" ;;
        proj_loc <- getUniformLocation (surface_shader self) "projection" ;;
        call (glUniformMatrix4fv model_loc 1 GL_FALSE model) ;;
        call (glUniformMatrix4fv view_loc 1 GL_FALSE view) ;;
        call (glUniformMatrix4fv proj_loc 1 GL_FALSE projection) ;;
        call (glBindVertexArray (surface_vao self)) ;;
        call (glDrawElements GL_TRIANGLES (index_count self) GL_UNSIGNED_INT 0))
     else ret tt) ;;
    (* Render edges *)
    (if bool_decide (representation self = REPRESENTATION_WIREFRAME)
        || bool_decide (representation self = REPRESENTATION_SURFACE_WITH_EDGES) then
       (call (glUseProgram (edge_shader self)) ;;
        model_loc <- getUniformLocation (edge_shader self) "model" ;;
        view_loc <- getUniformLocation (edge_shader self) "view" ;;
        proj_loc <- getUniformLocation (edge_shader self) "projection" ;;
        color_loc <- getUniformLocation (edge_shader self) "edgeColor" ;;
        call (glUniformMatrix4fv model_loc 1 GL_FALSE model) ;;
        call (glUniformMatrix4fv view_loc 1 GL_FALSE view) ;;
        call (glUniformMatrix4fv proj_loc 1 GL_FALSE projection) ;;
        (if bool_decide (representation self = REPRESENTATION_WIREFRAME) then
           call (glUniform4f color_loc (f_lit 0.25) (f_lit 0.5) (f_lit 1.0) (f_lit 1.0))
         else
           call (glUniform4f color_loc (f_lit 0.0) (f_lit 0.0) (f_lit 0.0) (f_lit 0.3))) ;;
        call (glBindVertexArray (edge_vao self)) ;;
        call (glPolygonMode GL_FRONT_AND_BACK GL_LINE) ;;
        call (glDrawElements GL_TRIANGLES (index_count self) GL_UNSIGNED_INT 0) ;;
        call (glPolygonMode GL_FRONT_AND_BACK GL_FILL))
     else ret tt) ;;
    call (glBindVertexArray 0) ;;
    call (glBindFramebuffer GL_FRAMEBUFFER 0) ;;
    read texture.

(** *** resize *)

Definition resize (w h : Z) : Method unit :=
  assign (set_width w) ;;
  assign (set_height h) ;;
  create_framebuffer w h.

(** ** The C API *)

(** The process: the renderer objects alive on the heap, by address, and
    the outside world. *)
Record Process : Type := { heap : gmap Z (FoamRenderer F); outside : World F }.

Definition Api (A : Type) : Type := Op Process A.

(** [operator new]: the address of the storage obtained and its
    indeterminate content, given the addresses in use. *)
Variable operator_new : gset Z -> pointer * FoamRenderer F.

(* run a method on [static_cast<FoamRenderer*>(handle)]; a handle that is
   not the address of a live object is undefined *)
Definition on_object {A} (handle : pointer) (method : Method A) : Api A :=
  fun p =>
    match heap p !! handle with
    | None => None
    | Some obj =>
        match method {| this := obj; world := outside p |} with
        | None => None
        | Some (a, m) =>
            Some (a, {| heap := <[handle := this m]> (heap p); outside := world m |})
        end
    end.

Definition foam_renderer_create (width height : Z) : Api pointer :=
  fun p =>
    let '(address, mem) := operator_new (dom (heap p)) in
    if bool_decide (address = nullptr \/ address ∈ dom (heap p)) then None
    else
      match constructor {| this := member_init mem width height; world := outside p |} with
      | None => None
      | Some (_, m) =>
          Some (address, {| heap := <[address := this m]> (heap p); outside := world m |})
      end.

Definition foam_renderer_destroy (handle : pointer) : Api unit :=
  if negb (handle =? nullptr) then
    (on_object handle destructor ;;
     fun p => Some (tt, {| heap := delete handle (heap p); outside := outside p |}))
  else ret tt.

Definition foam_renderer_update_mesh (handle : pointer)
    (vertices : option (list F)) (vertex_count : Z)
    (indices : option (list Z)) (index_count : Z)
    (colors cell_colors : option (list F)) (cell_count : Z) : Api unit :=
  if negb (handle =? nullptr) then
    on_object handle
      (update_mesh_data vertices vertex_count indices index_count colors cell_colors cell_count)
  else ret tt.

Definition foam_renderer_set_view (handle : pointer)
    (rotation_x rotation_y zoom center_x center_y center_z : F) : Api unit :=
  if negb (handle =? nullptr) then
    on_object handle
      (assign (set_rotation_x rotation_x) ;;
       assign (set_rotation_y rotation_y) ;;
       assign (set_zoom zoom) ;;
       assign (set_mesh_center (glm.Vec3 center_x center_y center_z)))
  else ret tt.

Definition foam_renderer_set_mode (handle : pointer)
    (representation : MeshRepresentation) (data_mode : DataMode) : Api unit :=
  if negb (handle =? nullptr) then
    on_object handle
      (assign (set_representation representation) ;;
       assign (set_data_mode data_mode))
  else ret tt.

Definition foam_renderer_render (handle : pointer) : Api Z :=
  if negb (handle =? nullptr) then on_object handle render
  else ret 0.

Definition foam_renderer_resize (handle : pointer) (width height : Z) : Api unit :=
  if negb (handle =? nullptr) then on_object handle (resize width height)
  else ret tt.

Definition foam_renderer_get_texture (handle : pointer) : Api Z :=
  if negb (handle =? nullptr) then on_object handle (read texture)
  else ret 0.

(** ** Sequences of calls on one handle *)

Inductive ApiCall : Type :=
| call_update_mesh (vertices : option (list F)) (vertex_count : Z)
    (indices : option (list Z)) (index_count : Z)
    (colors cell_colors : option (list F)) (cell_count : Z)
| call_set_view (rotation_x rotation_y zoom center_x center_y center_z : F)
| call_set_mode (representation : MeshRepresentation) (data_mode : DataMode)
| call_render
| call_resize (width height : Z)
| call_get_texture.

(* the value a call returns, when it returns one *)
Definition run_call (handle : pointer) (c : ApiCall) : Api (option Z) :=
  match c with
  | call_update_mesh v vc i ic cs ccs cc =>
      foam_renderer_update_mesh handle v vc i ic cs ccs cc ;; ret None
  | call_set_view rx ry z cx cy cz =>
      foam_renderer_set_view handle rx ry z cx cy cz ;; ret None
  | call_set_mode r d => foam_renderer_set_mode handle r d ;; ret None
  | call_render => t <- foam_renderer_render handle ;; ret (Some t)
  | call_resize w h => foam_renderer_resize handle w h ;; ret None
  | call_get_texture => t <- foam_renderer_get_texture handle ;; ret (Some t)
  end.

Fixpoint run_calls (handle : pointer) (cs : list ApiCall) : Api unit :=
  match cs with
  | [] => ret tt
  | c :: cs' => run_call handle c ;; run_calls handle cs'
  end.

Definition is_resize (c : ApiCall) : bool :=
  match c with call_resize _ _ => true | _ => false end.

Definition changes_defaults (c : ApiCall) : bool :=
  match c with
  | call_update_mesh _ _ _ _ _ _ _ | call_set_view _ _ _ _ _ _ | call_set_mode _ _ => true
  | _ => false
  end.

End Renderer.

(** ** The state the specification names, and the caller's contract *)

Section Views.
Context {F : Type} `{Float32 F}.

Definition MeshSnapshot (r : FoamRenderer F)
  : list F * list Z * list F * list F * Z * Z * Z :=
  (vertices r, indices r, vertex_colors r, cell_colors r,
   vertex_count r, index_count r, cell_count r).

Definition ViewState (r : FoamRenderer F) : F * F * F * glm.vec3 F :=
  (rotation_x r, rotation_y r, zoom r, mesh_center r).

Definition DisplayMode (r : FoamRenderer F) : MeshRepresentation * DataMode :=
  (representation r, data_mode r).

(* the members only the mesh upload and the view and mode setters assign *)
Definition scene (r : FoamRenderer F) := (MeshSnapshot r, ViewState r, DisplayMode r).

(* the state of a renderer on which nothing has been uploaded or set *)
Definition has_defaults (r : FoamRenderer F) : Prop :=
  MeshSnapshot r = ([], [], [], [], 0, 0, 0) /\
  ViewState r = (f_lit 0.3, f_lit 0.3, f_lit 500.0,
                 glm.Vec3 (f_lit 0.0) (f_lit 0.0) (f_lit 0.0)) /\
  DisplayMode r = (REPRESENTATION_SURFACE, DATA_MODE_POINT).

(* the colour given to a vertex when the caller supplies none *)
Definition default_color : list F := [f_lit 0.5; f_lit 0.7; f_lit 1.0; f_lit 1.0].

(* [p] points to an array of exactly [n] elements *)
Definition array_of {A} (p : option (list A)) (n : Z) : Prop :=
  exists a, p = Some a /\ Z.of_nat (length a) = n.

(** The arguments of a call to update_mesh that keeps to the contract:
    counts are not negative, every array has count times components
    elements, and the element counts fit in an [int]. *)
Definition valid_mesh_args
    (verts : option (list F)) (vert_count : Z)
    (inds : option (list Z)) (ind_count : Z)
    (colors c_colors : option (list F)) (c_count : Z) : Prop :=
  0 <= vert_count /\ vert_count * 4 <= INT32_MAX /\
  array_of verts (vert_count * 3) /\
  array_of inds ind_count /\
  (colors = None \/ array_of colors (vert_count * 4)) /\
  (c_colors = None \/
   (0 <= c_count /\ c_count * 4 <= INT32_MAX /\ array_of c_colors (c_count * 4))).

(* what a non-null pointer holds; a null pointer holds nothing *)
Definition contents {A} (p : option (list A)) : list A :=
  match p with Some a => a | None => [] end.

Definition empty_world : World F := {| gl_objects := ∅; gl_calls := []; cerr := [] |}.

(* the calls one [render] makes *)
Definition render_calls (drv : Driver) (self : FoamRenderer F) : list (GLCall F) :=
  match render drv {| this := self; world := empty_world |} with
  | Some (_, m) => gl_calls (world m)
  | None => []
  end.

Definition is_draw (c : GLCall F) : bool :=
  match c with glDrawElements _ _ _ _ => true | _ => false end.

(* a call that replaces the geometry held by the graphics library *)
Definition is_upload (c : GLCall F) : bool :=
  match c with glBufferData _ _ _ _ => true | _ => false end.

(* the matrices handed to the shaders, with their uniform locations *)
Definition matrix_uploads (cs : list (GLCall F)) : list (GLint * glm.mat4 F) :=
  flat_map (fun c => match c with
                     | glUniformMatrix4fv location _ _ value => [(location, value)]
                     | _ => []
                     end) cs.

(** The matrices as the specification words them. *)
Definition model_matrix (r : FoamRenderer F) : glm.mat4 F :=
  glm.rotate
    (glm.rotate
       (glm.translate (glm.mat4_diag (f_lit 1.0)) (glm.vec3_neg (mesh_center r)))
       (rotation_y r) (glm.Vec3 (f_lit 0.0) (f_lit 1.0) (f_lit 0.0)))
    (rotation_x r) (glm.Vec3 (f_lit 1.0) (f_lit 0.0) (f_lit 0.0)).

Definition view_matrix (r : FoamRenderer F) : glm.mat4 F :=
  glm.translate (glm.mat4_diag (f_lit 1.0))
    (glm.Vec3 (f_lit 0.0) (f_lit 0.0) (f_neg (zoom r))).

Definition projection_matrix (r : FoamRenderer F) : glm.mat4 F :=
  glm.perspective (glm.radians (f_lit 45.0))
    (f_div (f_of_int (width r)) (f_of_int (height r))) (f_lit 0.1) (f_lit 10000.0).

(* the calls of the two passes of a frame *)
Definition surface_pass (drv : Driver) (r : FoamRenderer F) : list (GLCall F) :=
  let loc : string -> GLint := drv_uniform_location drv (surface_shader r) in
  [ glUseProgram (surface_shader r);
    glGetUniformLocation (surface_shader r) "model" (loc "model"%string);
    glGetUniformLocation (surface_shader r) "view" (loc "view"%string);
    glGetUniformLocation (surface_shader r) "projection" (loc "projection"%string);
    glUniformMatrix4fv (loc "model"%string) 1 GL_FALSE (model_matrix r);
    glUniformMatrix4fv (loc "view"%string) 1 GL_FALSE (view_matrix r);
    glUniformMatrix4fv (loc "projection"%string) 1 GL_FALSE (projection_matrix r);
    glBindVertexArray (surface_vao r);
    glDrawElements GL_TRIANGLES (index_count r) GL_UNSIGNED_INT 0 ].

Definition edge_pass (drv : Driver) (r : FoamRenderer F) : list (GLCall F) :=
  let loc : string -> GLint := drv_uniform_location drv (edge_shader r) in
  [ glUseProgram (edge_shader r);
    glGetUniformLocation (edge_shader r) "model" (loc "model"%string);
    glGetUniformLocation (edge_shader r) "view" (loc "view"%string);
    glGetUniformLocation (edge_shader r) "projection" (loc "projection"%string);
    glGetUniformLocation (edge_shader r) "edgeColor" (loc "edgeColor"%string);
    glUniformMatrix4fv (loc "model"%string) 1 GL_FALSE (model_matrix r);
    glUniformMatrix4fv (loc "view"%string) 1 GL_FALSE (view_matrix r);
    glUniformMatrix4fv (loc "projection"%string) 1 GL_FALSE (projection_matrix r);
    (if bool_decide (representation r = REPRESENTATION_WIREFRAME)
     then glUniform4f (loc "edgeColor"%string) (f_lit 0.25) (f_lit 0.5) (f_lit 1.0) (f_lit 1.0)
     else glUniform4f (loc "edgeColor"%string) (f_lit 0.0) (f_lit 0.0) (f_lit 0.0) (f_lit 0.3));
    glBindVertexArray (edge_vao r);
    glPolygonMode GL_FRONT_AND_BACK GL_LINE;
    glDrawElements GL_TRIANGLES (index_count r) GL_UNSIGNED_INT 0;
    glPolygonMode GL_FRONT_AND_BACK GL_FILL ].

(* the three matrix uploads of one pass, for the program [shader] *)
Definition pass_uploads (drv : Driver) (shader : GLuint) (r : FoamRenderer F)
  : list (GLint * glm.mat4 F) :=
  [ (drv_uniform_location drv shader "model", model_matrix r);
    (drv_uniform_location drv shader "view", view_matrix r);
    (drv_uniform_location drv shader "projection", projection_matrix r) ].

Definition draws_surface (r : FoamRenderer F) : bool :=
  bool_decide (representation r = REPRESENTATION_SURFACE)
  || bool_decide (representation r = REPRESENTATION_SURFACE_WITH_EDGES).

Definition draws_edges (r : FoamRenderer F) : bool :=
  bool_decide (representation r = REPRESENTATION_WIREFRAME)
  || bool_decide (representation r = REPRESENTATION_SURFACE_WITH_EDGES).

(** ** A concrete platform *)

(* one more than the largest name of kind [k] in use: a name freed last
   is handed out again *)
Definition next_name (k : ObjKind) (live : gset (ObjKind * Z)) : Z :=
  1 + set_fold (fun kn acc => if decide (kn.1 = k) then Z.max kn.2 acc else acc) 0 live.

Definition uniform_slot (name : string) : Z :=
  if String.eqb name "model" then 0
  else if String.eqb name "view" then 1
  else if String.eqb name "projection" then 2
  else if String.eqb name "edgeColor" then 3
  else -1.

Definition compact_driver : Driver :=
  {| drv_glfwInit := true;
     drv_glfwCreateWindow := fun _ _ => 4096;
     drv_glewInit := true;
     drv_name := next_name;
     drv_compile_status := fun _ => true;
     drv_shader_info_log := fun _ => ""%string;
     drv_link_status := fun _ => true;
     drv_program_info_log := fun _ => ""%string;
     drv_uniform_location := fun _ name => uniform_slot name;
     drv_framebuffer_complete := fun _ => true |}.

(* storage that happens to be zeroed *)
Definition zeroed_storage : FoamRenderer F :=
  {| window := 0; width := 0; height := 0;
     surface_shader := 0; edge_shader := 0;
     surface_vao := 0; surface_vbo := 0; surface_ebo := 0; surface_color_vbo := 0;
     edge_vao := 0; edge_vbo := 0; edge_ebo := 0;
     fbo := 0; texture := 0; rbo := 0;
     vertices := []; indices := []; vertex_colors := []; cell_colors := [];
     vertex_count := 0; index_count := 0; cell_count := 0;
     rotation_x := f_lit 0; rotation_y := f_lit 0; zoom := f_lit 0;
     mesh_center := glm.vec3_splat (f_lit 0);
     representation := REPRESENTATION_WIREFRAME; data_mode := DATA_MODE_CELL |}.

Definition bump_allocator (used : gset Z) : pointer * FoamRenderer F :=
  (4096 + 256 * Z.of_nat (size used), zeroed_storage).

Definition empty_process : Process := {| heap := ∅; outside := empty_world |}.

(* a triangle with one red cell colour, as a caller would pass it *)
Definition triangle_verts : list F :=
  [f_lit 0; f_lit 0; f_lit 0; f_lit 1; f_lit 0; f_lit 0; f_lit 0; f_lit 1; f_lit 0].
Definition red : list F := [f_lit 1; f_lit 0; f_lit 0; f_lit 1].

(* a renderer object holding three vertices and three indices *)
Definition triangle_object : FoamRenderer F :=
  set_index_count 3 (set_vertex_count 3 (member_init zeroed_storage 800 600)).

(* a process with that object at address 4096 *)
Definition triangle_process : Process :=
  {| heap := {[ 4096 := triangle_object ]}; outside := empty_world |}.

Definition fresh_machine : Machine :=
  {| this := member_init zeroed_storage 800 600; world := empty_world |}.

(* create a renderer, ask for its texture identifier, resize, ask again *)
Definition texture_ids_around_resize : option (Z * Z) :=
  fst <$>
    (handle <- foam_renderer_create compact_driver bump_allocator 800 600 ;;
     before <- foam_renderer_get_texture handle ;;
     foam_renderer_resize compact_driver handle 1024 768 ;;
     after <- foam_renderer_get_texture handle ;;
     ret (before, after))%op empty_process.

End Views.

(** ** What recreating the render target does *)

Section RenderTarget.
Context {F : Type}.
Variable drv : Driver.

(* the calls deleting the old render target, made when [fbo] is not zero *)
Definition release_calls (r : FoamRenderer F) : list (GLCall F) :=
  if fbo r =? 0 then []
  else [ glDelete Framebuffer 1 (fbo r);
         glDelete Texture 1 (texture r);
         glDelete Renderbuffer 1 (rbo r) ].

(* the names in use after those calls *)
Definition after_release (r : FoamRenderer F) (live : gset (ObjKind * Z))
  : gset (ObjKind * Z) :=
  if fbo r =? 0 then live
  else live ∖ {[ (Framebuffer, fbo r) ]} ∖ {[ (Texture, texture r) ]}
            ∖ {[ (Renderbuffer, rbo r) ]}.

(* the names the driver hands out for the new render target *)
Definition new_fbo (r : FoamRenderer F) (live : gset (ObjKind * Z)) : GLuint :=
  drv_name drv Framebuffer (after_release r live).

Definition new_texture (r : FoamRenderer F) (live : gset (ObjKind * Z)) : GLuint :=
  drv_name drv Texture ({[ (Framebuffer, new_fbo r live) ]} ∪ after_release r live).

Definition new_rbo (r : FoamRenderer F) (live : gset (ObjKind * Z)) : GLuint :=
  drv_name drv Renderbuffer
    ({[ (Texture, new_texture r live) ]}
     ∪ ({[ (Framebuffer, new_fbo r live) ]} ∪ after_release r live)).

Definition names_after_create (r : FoamRenderer F) (live : gset (ObjKind * Z))
  : gset (ObjKind * Z) :=
  {[ (Renderbuffer, new_rbo r live) ]}
  ∪ ({[ (Texture, new_texture r live) ]}
     ∪ ({[ (Framebuffer, new_fbo r live) ]} ∪ after_release r live)).

(* the calls building a render target of [w] by [h] pixels *)
Definition build_calls (w h : Z) (fbo' texture' rbo' : GLuint) (complete : bool)
  : list (GLCall F) :=
  [ glGen Framebuffer 1 fbo';
    glBindFramebuffer GL_FRAMEBUFFER fbo';
    glGen Texture 1 texture';
    glBindTexture GL_TEXTURE_2D texture';
    glTexImage2D GL_TEXTURE_2D 0 GL_RGBA w h 0 GL_RGBA GL_UNSIGNED_BYTE nullptr;
    glTexParameteri GL_TEXTURE_2D GL_TEXTURE_MIN_FILTER GL_LINEAR;
    glTexParameteri GL_TEXTURE_2D GL_TEXTURE_MAG_FILTER GL_LINEAR;
    glFramebufferTexture2D GL_FRAMEBUFFER GL_COLOR_ATTACHMENT0 GL_TEXTURE_2D texture' 0;
    glGen Renderbuffer 1 rbo';
    glBindRenderbuffer GL_RENDERBUFFER rbo';
    glRenderbufferStorage GL_RENDERBUFFER GL_DEPTH24_STENCIL8 w h;
    glFramebufferRenderbuffer GL_FRAMEBUFFER GL_DEPTH_STENCIL_ATTACHMENT
      GL_RENDERBUFFER rbo';
    glCheckFramebufferStatus GL_FRAMEBUFFER complete;
    glBindFramebuffer GL_FRAMEBUFFER 0 ].

End RenderTarget.

(** ** Properties of operations *)

(* the operation returns whatever the state it starts in *)
Definition total {S A} (op : Op S A) : Prop :=
  forall s, exists a s', op s = Some (a, s').

(* when the method returns, [member] of the object is what it was *)
Definition preserves {F A B} (member : FoamRenderer F -> B) (op : Op (@Machine F) A) : Prop :=
  forall m a m', op m = Some (a, m') -> member (this m') = member (this m).

(* the calls made between two worlds *)
Definition calls_between {F} (w w' : World F) (cs : list (GLCall F)) : Prop :=
  gl_calls w' = gl_calls w ++ cs.

(* the world after the calls [cs] *)
Definition add_calls {F} (cs : list (GLCall F)) (w : World F) : World F :=
  {| gl_objects := gl_objects w; gl_calls := gl_calls w ++ cs; cerr := cerr w |}.

(* on the object [self] the method returns [a], makes the calls [cs] and
   changes nothing else *)
Definition makes_calls {F A} (self : FoamRenderer F) (op : Op (@Machine F) A) (a : A)
    (cs : list (GLCall F)) : Prop :=
  forall w, op {| this := self; world := w |}
            = Some (a, {| this := self; world := add_calls cs w |}).

(* the renderer object a live handle points to *)
Definition object_at {F} (p : @Process F) (handle : pointer) : option (FoamRenderer F) :=
  heap p !! handle.

(** ** What a mesh upload hands to the graphics library *)

Section Uploads.
Context {F : Type}.

(* the calls of one [upload_mesh_to_gpu] on the object [r] *)
Definition upload_calls (r : FoamRenderer F) : list (GLCall F) :=
  [ glBindVertexArray (surface_vao r);
    glBindBuffer GL_ARRAY_BUFFER (surface_vbo r);
    glBufferData GL_ARRAY_BUFFER (Z.of_nat (length (vertices r)) * sizeof_float)
      (FloatData (vertices r)) GL_STATIC_DRAW;
    glVertexAttribPointer 0 3 GL_FLOAT GL_FALSE (3 * sizeof_float) 0;
    glEnableVertexAttribArray 0;
    glBindBuffer GL_ARRAY_BUFFER (surface_color_vbo r);
    glBufferData GL_ARRAY_BUFFER (Z.of_nat (length (vertex_colors r)) * sizeof_float)
      (FloatData (vertex_colors r)) GL_STATIC_DRAW;
    glVertexAttribPointer 1 4 GL_FLOAT GL_FALSE (4 * sizeof_float) 0;
    glEnableVertexAttribArray 1;
    glBindBuffer GL_ELEMENT_ARRAY_BUFFER (surface_ebo r);
    glBufferData GL_ELEMENT_ARRAY_BUFFER (Z.of_nat (length (indices r)) * sizeof_uint32_t)
      (UIntData (indices r)) GL_STATIC_DRAW;
    glBindVertexArray 0;
    glBindVertexArray (edge_vao r);
    glBindBuffer GL_ARRAY_BUFFER (edge_vbo r);
    glBufferData GL_ARRAY_BUFFER (Z.of_nat (length (vertices r)) * sizeof_float)
      (FloatData (vertices r)) GL_STATIC_DRAW;
    glVertexAttribPointer 0 3 GL_FLOAT GL_FALSE (3 * sizeof_float) 0;
    glEnableVertexAttribArray 0;
    glBindBuffer GL_ELEMENT_ARRAY_BUFFER (edge_ebo r);
    glBufferData GL_ELEMENT_ARRAY_BUFFER (Z.of_nat (length (indices r)) * sizeof_uint32_t)
      (UIntData (indices r)) GL_STATIC_DRAW;
    glBindVertexArray 0 ].

(* the buffer a data upload goes to: the one bound last to its target *)
Fixpoint uploads_by_buffer (bound : GLenum -> GLuint) (cs : list (GLCall F))
  : list (GLuint * Z * BufferData F) :=
  match cs with
  | [] => []
  | glBindBuffer target buffer :: cs' =>
      uploads_by_buffer
        (fun t => match t, target with
                  | GL_ARRAY_BUFFER, GL_ARRAY_BUFFER => buffer
                  | GL_ELEMENT_ARRAY_BUFFER, GL_ELEMENT_ARRAY_BUFFER => buffer
                  | _, _ => bound t
                  end) cs'
  | glBufferData target size data _ :: cs' =>
      (bound target, size, data) :: uploads_by_buffer bound cs'
  | _ :: cs' => uploads_by_buffer bound cs'
  end.

(* the window and the programs, vertex arrays and buffers the two passes use *)
Definition pipeline (r : FoamRenderer F) :=
  (window r,
   (surface_shader r, edge_shader r),
   (surface_vao r, surface_vbo r, surface_ebo r, surface_color_vbo r),
   (edge_vao r, edge_vbo r, edge_ebo r)).

(* the pipeline, the size and the render target *)
Definition resources (r : FoamRenderer F) :=
  (pipeline r, (width r, height r), (fbo r, texture r, rbo r)).

End Uploads.

(* when the method returns, the outside world is what it was *)
Definition keeps_world {F A} (op : Op (@Machine F) A) : Prop :=
  forall m a m', op m = Some (a, m') -> world m' = world m.

(* when the method returns, all it did to the outside world is make the
   calls [f] gives for the object it leaves *)
Definition emits {F A} (op : Op (@Machine F) A) (f : FoamRenderer F -> list (GLCall F))
  : Prop :=
  forall m a m', op m = Some (a, m') -> world m' = add_calls (f (this m')) (world m).


(** ** When a mesh upload is defined *)

Section Ranges.
Context {F : Type} `{Float32 F}.

(* the range [[p, p + n)] can be read: [n] is not negative, and unless it
   is zero [p] points to an array of at least [n] elements *)
Definition readable {A} (p : option (list A)) (n : Z) : Prop :=
  0 <= n /\ (n = 0 \/ exists a, p = Some a /\ n <= Z.of_nat (length a)).

(* what the range [[p, p + n)] holds *)
Definition range {A} (p : option (list A)) (n : Z) : list A :=
  take (Z.to_nat n) (contents p).

(** The arguments on which [update_mesh_data] has defined behaviour. *)
Definition defined_mesh_args
    (verts : option (list F)) (vert_count : Z)
    (inds : option (list Z)) (ind_count : Z)
    (colors c_colors : option (list F)) (c_count : Z) : Prop :=
  readable verts (vert_count * 3) /\
  vert_count * 4 <= INT32_MAX /\
  readable inds ind_count /\
  (colors <> None -> readable colors (vert_count * 4)) /\
  (c_colors <> None -> c_count * 4 <= INT32_MAX /\ readable c_colors (c_count * 4)).

(* the object a defined [update_mesh_data] leaves *)
Definition with_mesh
    (verts : option (list F)) (vert_count : Z)
    (inds : option (list Z)) (ind_count : Z)
    (colors c_colors : option (list F)) (c_count : Z)
    (r : FoamRenderer F) : FoamRenderer F :=
  set_cell_colors
    (match c_colors with
     | Some _ => range c_colors (c_count * 4)
     | None => cell_colors r
     end)
    (set_vertex_colors
       (match colors with
        | Some _ => range colors (vert_count * 4)
        | None => concat (replicate (Z.to_nat vert_count) default_color)
        end)
       (set_indices (range inds ind_count)
          (set_vertices (range verts (vert_count * 3))
             (set_cell_count c_count
                (set_index_count ind_count
                   (set_vertex_count vert_count r)))))).

End Ranges.

(** ** What a frame is made of *)

Section Frames.
Context {F : Type} `{Float32 F}.

(* the members a mesh upload has no business with *)
Definition surroundings (r : FoamRenderer F) := (ViewState r, DisplayMode r, resources r).

(* the colours handed to the shaders, with their uniform locations *)
Definition color_uploads (cs : list (GLCall F)) : list (GLint * (F * F * F * F)) :=
  flat_map (fun c => match c with
                     | glUniform4f location v0 v1 v2 v3 => [(location, (v0, v1, v2, v3))]
                     | _ => []
                     end) cs.

(* the polygon modes set, in order *)
Definition polygon_modes (cs : list (GLCall F)) : list GLenum :=
  flat_map (fun c => match c with glPolygonMode _ mode => [mode] | _ => [] end) cs.

(* the render target of [r] exists: [fbo] is not zero and the three names
   are in use *)
Definition target_live (r : FoamRenderer F) (objs : gset (ObjKind * Z)) : Prop :=
  fbo r <> 0 /\ (Framebuffer, fbo r) ∈ objs /\ (Texture, texture r) ∈ objs /\
  (Renderbuffer, rbo r) ∈ objs.

(* the window whose context the calls [cs] leave current: the one of the
   last [glfwMakeContextCurrent] among them, and [cur] when there is none *)
Fixpoint made_current (cur : option pointer) (cs : list (GLCall F)) : option pointer :=
  match cs with
  | [] => cur
  | glfwMakeContextCurrent window :: cs' => made_current (Some window) cs'
  | _ :: cs' => made_current cur cs'
  end.

(* the members [render] reads *)
Definition render_inputs (r : FoamRenderer F) :=
  ((window r, fbo r, texture r, width r, height r),
   (vertex_count r, index_count r),
   ViewState r, representation r,
   (surface_shader r, surface_vao r, edge_shader r, edge_vao r)).

End Frames.

(** ** Shader programs, construction and destruction, call by call *)

Section Lifecycle.
Context {F : Type} `{Float32 F}.
Variable drv : Driver.

(* the names [create_shader_program] is handed, given the names in use *)
Definition vertex_shader_name (live : gset (ObjKind * Z)) : GLuint :=
  drv_name drv Shader live.

Definition fragment_shader_name (live : gset (ObjKind * Z)) : GLuint :=
  drv_name drv Shader ({[ (Shader, vertex_shader_name live) ]} ∪ live).

Definition program_name (live : gset (ObjKind * Z)) : GLuint :=
  drv_name drv Program
    ({[ (Shader, fragment_shader_name live) ]}
     ∪ ({[ (Shader, vertex_shader_name live) ]} ∪ live)).

(* the names in use when [create_shader_program] returns *)
Definition names_after_program (live : gset (ObjKind * Z)) : gset (ObjKind * Z) :=
  ({[ (Program, program_name live) ]}
   ∪ ({[ (Shader, fragment_shader_name live) ]}
      ∪ ({[ (Shader, vertex_shader_name live) ]} ∪ live)))
  ∖ {[ (Shader, vertex_shader_name live) ]}
  ∖ {[ (Shader, fragment_shader_name live) ]}.

(* the calls of [check_shader_compile] and [check_program_link] *)
Definition check_compile_calls (shader : GLuint) : list (GLCall F) :=
  glGetShaderiv shader GL_COMPILE_STATUS (drv_compile_status drv shader)
  :: (if drv_compile_status drv shader then []
      else [glGetShaderInfoLog shader 1024 (drv_shader_info_log drv shader)]).

Definition check_link_calls (program : GLuint) : list (GLCall F) :=
  glGetProgramiv program GL_LINK_STATUS (drv_link_status drv program)
  :: (if drv_link_status drv program then []
      else [glGetProgramInfoLog program 1024 (drv_program_info_log drv program)]).

(* the calls of [create_shader_program] *)
Definition shader_program_calls (vs_source fs_source : string) (live : gset (ObjKind * Z))
  : list (GLCall F) :=
  let vs := vertex_shader_name live in
  let fs := fragment_shader_name live in
  let program := program_name live in
  [ glCreateShader GL_VERTEX_SHADER vs; glShaderSource vs 1 vs_source; glCompileShader vs ]
  ++ check_compile_calls vs
  ++ [ glCreateShader GL_FRAGMENT_SHADER fs; glShaderSource fs 1 fs_source;
       glCompileShader fs ]
  ++ check_compile_calls fs
  ++ [ glCreateProgram program; glAttachShader program vs; glAttachShader program fs;
       glLinkProgram program ]
  ++ check_link_calls program
  ++ [ glDeleteShader vs; glDeleteShader fs ].

(* the lines [create_shader_program] writes to [std::cerr] *)
Definition shader_errors (live : gset (ObjKind * Z)) : list string :=
  let vs := vertex_shader_name live in
  let fs := fragment_shader_name live in
  let program := program_name live in
  (if drv_compile_status drv vs then []
   else [("Shader compilation error (VERTEX): " ++ drv_shader_info_log drv vs)%string])
  ++ (if drv_compile_status drv fs then []
      else [("Shader compilation error (FRAGMENT): " ++ drv_shader_info_log drv fs)%string])
  ++ (if drv_link_status drv program then []
      else [("Program linking error: " ++ drv_program_info_log drv program)%string]).

(* the step of the constructor that fails, by the line it writes *)
Definition init_failure (w h : Z) : option string :=
  if negb (drv_glfwInit drv) then Some "Failed to initialize GLFW"%string
  else if drv_glfwCreateWindow drv w h =? nullptr
       then Some "Failed to create GLFW window"%string
       else if negb (drv_glewInit drv) then Some "Failed to initialize GLEW"%string
            else None.

(* the calls of the constructor up to the creation of the shaders *)
Definition init_calls (w h : Z) : list (GLCall F) :=
  let win := drv_glfwCreateWindow drv w h in
  glfwInit (drv_glfwInit drv)
  :: (if negb (drv_glfwInit drv) then []
      else [ glfwWindowHint GLFW_CONTEXT_VERSION_MAJOR (GLFW_number 3);
             glfwWindowHint GLFW_CONTEXT_VERSION_MINOR (GLFW_number 3);
             glfwWindowHint GLFW_OPENGL_PROFILE GLFW_OPENGL_CORE_PROFILE;
             glfwWindowHint GLFW_VISIBLE GLFW_FALSE;
             glfwCreateWindow w h "FoamRenderer" win ]
           ++ (if win =? nullptr then [ glfwTerminate ]
               else [ glfwMakeContextCurrent win;
                      set_glewExperimental GL_TRUE;
                      glewInit (drv_glewInit drv) ])).

(* the object names a renderer holds, in the order the destructor deletes them *)
Definition held_list (r : FoamRenderer F) : list (ObjKind * Z) :=
  [ (VertexArray, surface_vao r); (Buffer, surface_vbo r); (Buffer, surface_ebo r);
    (Buffer, surface_color_vbo r);
    (VertexArray, edge_vao r); (Buffer, edge_vbo r); (Buffer, edge_ebo r);
    (Framebuffer, fbo r); (Texture, texture r); (Renderbuffer, rbo r);
    (Program, surface_shader r); (Program, edge_shader r) ].

Definition held (r : FoamRenderer F) : gset (ObjKind * Z) := list_to_set (held_list r).

(* the calls of the destructor *)
Definition destructor_calls (r : FoamRenderer F) : list (GLCall F) :=
  [ glDelete VertexArray 1 (surface_vao r);
    glDelete Buffer 1 (surface_vbo r);
    glDelete Buffer 1 (surface_ebo r);
    glDelete Buffer 1 (surface_color_vbo r);
    glDelete VertexArray 1 (edge_vao r);
    glDelete Buffer 1 (edge_vbo r);
    glDelete Buffer 1 (edge_ebo r);
    glDelete Framebuffer 1 (fbo r);
    glDelete Texture 1 (texture r);
    glDelete Renderbuffer 1 (rbo r);
    glDeleteProgram (surface_shader r);
    glDeleteProgram (edge_shader r) ]
  ++ (if window r =? nullptr then [] else [ glfwDestroyWindow (window r) ])
  ++ [ glfwTerminate ].

End Lifecycle.

(** ** More of the concrete platform *)

Section Platforms.
Context {F : Type} `{Float32 F}.

(* a platform without a display: GLFW does not initialise *)
Definition headless_driver : Driver :=
  {| drv_glfwInit := false;
     drv_glfwCreateWindow := fun _ _ => 0;
     drv_glewInit := false;
     drv_name := next_name;
     drv_compile_status := fun _ => false;
     drv_shader_info_log := fun _ => "no context"%string;
     drv_link_status := fun _ => false;
     drv_program_info_log := fun _ => "no context"%string;
     drv_uniform_location := fun _ _ => -1;
     drv_framebuffer_complete := fun _ => false |}.

(* storage left behind by an object whose render target had the names 7, 8, 9 *)
Definition stale_storage : FoamRenderer F :=
  set_rbo 9 (set_texture 8 (set_fbo 7 zeroed_storage)).

Definition recycling_allocator (used : gset Z) : pointer * FoamRenderer F :=
  (4096 + 256 * Z.of_nat (size used), stale_storage).

(* two renderers side by side, each with a window of its own: the
   triangle at address 4096 and an empty renderer at address 8192 *)
Definition left_object : FoamRenderer F := set_window 11 triangle_object.
Definition right_object : FoamRenderer F :=
  set_window 22 (member_init zeroed_storage 640 480).

Definition two_renderers : Process :=
  {| heap := <[8192 := right_object]> {[ 4096 := left_object ]};
     outside := empty_world |}.

(* the triangle with a render target of its own, and a process holding it *)
Definition ready_object : FoamRenderer F :=
  set_rbo 1 (set_texture 1 (set_fbo 1 triangle_object)).

Definition ready_process : Process :=
  {| heap := {[ 4096 := ready_object ]};
     outside := {| gl_objects := {[ (Framebuffer, 1); (Texture, 1); (Renderbuffer, 1) ]};
                   gl_calls := []; cerr := [] |} |}.

End Platforms.

(* the method returns from [m], with a result and a state that satisfy [Q] *)
Definition wp {F A} (op : Op (@Machine F) A) (m : @Machine F)
    (Q : A -> @Machine F -> Prop) : Prop :=
  exists a m', op m = Some (a, m') /\ Q a m'.

(** * Proofs *)

(** ** Rules for [total] and [preserves] *)

Section Rules.
Context {F : Type} `{Float32 F}.
Variable drv : Driver.

Lemma total_ret {S A} (a : A) : total (ret (S:=S) a).
Proof. intros s. by exists a, s. Qed.

Lemma total_bind {S A B} (op : Op S A) (k : A -> Op S B) :
  total op -> (forall a, total (k a)) -> total (bind op k).
Proof.
  intros Hop Hk s. destruct (Hop s) as (a & s1 & E1).
  destruct (Hk a s1) as (b & s2 & E2).
  exists b, s2. unfold bind. by rewrite E1.
Qed.

Lemma total_if {S A} (b : bool) (op1 op2 : Op S A) :
  total op1 -> total op2 -> total (if b then op1 else op2).
Proof. by destruct b. Qed.

Lemma total_get_this : total (get_this (F:=F)).
Proof. intros m. by eexists _, _. Qed.

Lemma total_read {A} (member : FoamRenderer F -> A) : total (read member).
Proof. intros m. by eexists _, _. Qed.

Lemma total_assign f : total (assign (F:=F) f).
Proof. intros m. by eexists _, _. Qed.

Lemma total_call c : total (call (F:=F) c).
Proof. intros m. by eexists _, _. Qed.

Lemma total_log_cerr line : total (log_cerr (F:=F) line).
Proof. intros m. by eexists _, _. Qed.

Lemma total_create_object k c : total (create_object (F:=F) drv k c).
Proof. intros m. by eexists _, _. Qed.

Lemma total_delete_object k c name : total (delete_object (F:=F) k c name).
Proof. intros m. by eexists _, _. Qed.

Lemma total_checkFramebufferStatus target : total (checkFramebufferStatus (F:=F) drv target).
Proof. intros m. by eexists _, _. Qed.

Lemma preserves_ret {A B} (member : FoamRenderer F -> B) (a : A) :
  preserves member (ret a).
Proof. intros m a' m' [= _ <-]. done. Qed.

Lemma preserves_bind {A B C} (member : FoamRenderer F -> C)
    (op : Method A) (k : A -> Method B) :
  preserves member op -> (forall a, preserves member (k a)) ->
  preserves member (bind op k).
Proof.
  intros Hop Hk m b m2. unfold bind.
  destruct (op m) as [[a m1]|] eqn:E1; [|done].
  intros E2. rewrite (Hk a m1 b m2 E2). by apply (Hop m a m1).
Qed.

Lemma preserves_if {A B} (member : FoamRenderer F -> B) (b : bool) (op1 op2 : Method A) :
  preserves member op1 -> preserves member op2 ->
  preserves member (if b then op1 else op2).
Proof. by destruct b. Qed.

Lemma preserves_lift {A B} (member : FoamRenderer F -> B) (o : option A) :
  preserves member (lift o).
Proof. intros m a m'. unfold lift. destruct o; [|done]. by intros [= _ <-]. Qed.

Lemma preserves_get_this {B} (member : FoamRenderer F -> B) : preserves member get_this.
Proof. by intros m a m' [= _ <-]. Qed.

Lemma preserves_read {A B} (member : FoamRenderer F -> B) (other : FoamRenderer F -> A) :
  preserves member (read other).
Proof. by intros m a m' [= _ <-]. Qed.

Lemma preserves_assign {B} (member : FoamRenderer F -> B) f :
  (forall r, member (f r) = member r) -> preserves member (assign f).
Proof. intros Hf m a m' [= _ <-]. apply Hf. Qed.

Lemma preserves_call {B} (member : FoamRenderer F -> B) c : preserves member (call c).
Proof. by intros m a m' [= _ <-]. Qed.

Lemma preserves_log_cerr {B} (member : FoamRenderer F -> B) line :
  preserves member (log_cerr line).
Proof. by intros m a m' [= _ <-]. Qed.

Lemma preserves_create_object {B} (member : FoamRenderer F -> B) k c :
  preserves member (create_object drv k c).
Proof. by intros m a m' [= _ <-]. Qed.

Lemma preserves_delete_object {B} (member : FoamRenderer F -> B) k c name :
  preserves member (delete_object k c name).
Proof. by intros m a m' [= _ <-]. Qed.

Lemma preserves_checkFramebufferStatus {B} (member : FoamRenderer F -> B) target :
  preserves member (checkFramebufferStatus drv target).
Proof. by intros m a m' [= _ <-]. Qed.

Lemma preserves_for_int {B} (member : FoamRenderer F -> B) n i body :
  (forall j, preserves member (body j)) -> preserves member (for_int n i body).
Proof.
  intros Hbody. revert i. induction n as [|n IH]; intros i; simpl.
  - apply preserves_ret.
  - apply preserves_bind; [apply Hbody | intros _; apply IH].
Qed.

End Rules.

Create HintDb total.
Create HintDb preserves.

#[local] Hint Resolve total_ret total_get_this total_read total_assign total_call
  total_log_cerr total_create_object total_delete_object
  total_checkFramebufferStatus : total.
#[local] Hint Resolve preserves_ret preserves_lift preserves_get_this preserves_read
  preserves_call preserves_log_cerr preserves_create_object preserves_delete_object
  preserves_checkFramebufferStatus : preserves.

Ltac unfold_calls :=
  unfold gen_into, gl_gen, gl_delete, createShader, createProgram, deleteShader,
    deleteProgram, getShaderiv, getShaderInfoLog, getProgramiv, getProgramInfoLog,
    getUniformLocation.

(* evaluate member reads of assignments and initialisers *)
Ltac eval_members :=
  cbv [this world window width height surface_shader edge_shader surface_vao
       surface_vbo surface_ebo surface_color_vbo edge_vao edge_vbo edge_ebo
       fbo texture rbo vertices indices vertex_colors cell_colors
       vertex_count index_count cell_count rotation_x rotation_y zoom
       mesh_center representation data_mode set_window set_width set_height
       set_surface_shader set_edge_shader set_surface_vao set_surface_vbo
       set_surface_ebo set_surface_color_vbo set_edge_vao set_edge_vbo
       set_edge_ebo set_fbo set_texture set_rbo set_vertices set_indices
       set_vertex_colors set_cell_colors set_vertex_count set_index_count
       set_cell_count set_rotation_x set_rotation_y set_zoom set_mesh_center
       set_representation set_data_mode member_init zeroed_storage
       triangle_object fresh_machine].

Ltac eval_decisions :=
  repeat match goal with
         | |- context [bool_decide ?P] =>
             let b := eval vm_compute in (bool_decide P) in
             change (bool_decide P) with b
         end.

(* split an operation along its binds and conditionals *)
Ltac step_total :=
  repeat first
    [ apply total_bind; [|intros ?]
    | apply total_if
    | progress auto with total
    | progress unfold_calls ].

Ltac step_preserves :=
  repeat first
    [ apply preserves_bind; [|intros ?]
    | apply preserves_if
    | apply preserves_for_int; intros ?
    | apply preserves_assign; intros ?; reflexivity
    | progress auto with preserves
    | progress unfold_calls ].

(** ** The methods *)

Section Methods.
Context {F : Type} `{Float32 F}.
Variable drv : Driver.

Lemma total_create_framebuffer w h : total (create_framebuffer (F:=F) drv w h).
Proof. unfold create_framebuffer. step_total. Qed.

Lemma total_create_shader_program vs fs : total (create_shader_program (F:=F) drv vs fs).
Proof. unfold create_shader_program. step_total. Qed.

Lemma total_constructor : total (constructor (F:=F) drv).
Proof. unfold constructor. step_total. Qed.

Lemma total_resize w h : total (resize (F:=F) drv w h).
Proof. unfold resize. step_total. Qed.

Lemma constructor_preserves_scene : preserves (scene (F:=F)) (constructor drv).
Proof. unfold constructor. step_preserves. Qed.

Lemma resize_preserves_scene w h : preserves (scene (F:=F)) (resize drv w h).
Proof. unfold resize. step_preserves. Qed.

Lemma upload_preserves_all : preserves (fun r => r) (upload_mesh_to_gpu (F:=F)).
Proof. unfold upload_mesh_to_gpu. step_preserves. Qed.

Lemma update_mesh_preserves_texture v vc i ic cs ccs cc :
  preserves texture (update_mesh_data (F:=F) v vc i ic cs ccs cc).
Proof.
  unfold update_mesh_data. step_preserves; destruct cs, ccs; step_preserves.
Qed.

End Methods.

(** ** render *)

Section Render.
Context {F : Type} `{Float32 F}.
Variable drv : Driver.

Lemma makes_calls_ret {A} (self : FoamRenderer F) (a : A) : makes_calls self (ret a) a [].
Proof. intros [o c e]. unfold ret, add_calls. simpl. by rewrite app_nil_r. Qed.

Lemma makes_calls_bind {A B} (self : FoamRenderer F) (op : Method A) (k : A -> Method B)
    a b cs cs' :
  makes_calls self op a cs -> makes_calls self (k a) b cs' ->
  makes_calls self (bind op k) b (cs ++ cs').
Proof.
  intros Hop Hk w. unfold bind. rewrite Hop, Hk. unfold add_calls. simpl.
  by rewrite app_assoc.
Qed.

Lemma makes_calls_call (self : FoamRenderer F) c : makes_calls self (call c) tt [c].
Proof. by intros w. Qed.

Lemma makes_calls_get_this (self : FoamRenderer F) : makes_calls self get_this self [].
Proof. intros [o c e]. unfold get_this, add_calls. simpl. by rewrite app_nil_r. Qed.

Lemma makes_calls_read {A} (self : FoamRenderer F) (member : FoamRenderer F -> A) :
  makes_calls self (read member) (member self) [].
Proof. intros [o c e]. unfold read, add_calls. simpl. by rewrite app_nil_r. Qed.

Lemma makes_calls_getUniformLocation (self : FoamRenderer F) program name :
  makes_calls self (getUniformLocation drv program name)
    (drv_uniform_location drv program name)
    [glGetUniformLocation program name (drv_uniform_location drv program name)].
Proof. by intros w. Qed.

Lemma render_calls_eq (self : FoamRenderer F) cs :
  makes_calls self (render drv) (texture self) cs -> render_calls drv self = cs.
Proof. intros Hcs. unfold render_calls. by rewrite Hcs. Qed.

End Render.

Ltac step_calls :=
  repeat first
    [ eapply makes_calls_bind
    | apply makes_calls_call
    | apply makes_calls_getUniformLocation
    | apply makes_calls_get_this
    | apply makes_calls_read
    | apply makes_calls_ret ].

(* find the calls [render] makes once the branch taken is known *)
Ltac render_branch :=
  unfold render; eapply makes_calls_bind; [apply makes_calls_get_this|]; cbv beta.

Section RenderFrames.
Context {F : Type} `{Float32 F}.
Variable drv : Driver.

Lemma render_makes_calls (self : FoamRenderer F) :
  makes_calls self (render drv) (texture self) (render_calls drv self).
Proof.
  cut (exists cs, makes_calls self (render drv) (texture self) cs).
  { intros [cs Hcs]. by rewrite (render_calls_eq drv self cs Hcs). }
  destruct (vertex_count self =? 0) eqn:Ev, (index_count self =? 0) eqn:Ei,
    (representation self) eqn:Er.
  all: eexists; render_branch; rewrite ?Ev, ?Ei, ?Er; eval_decisions; cbn [orb].
  all: step_calls.
Qed.

(* render returns the texture member and only adds calls to the world *)
Lemma render_run (m : @Machine F) :
  render drv m =
  Some (texture (this m),
        {| this := this m; world := add_calls (render_calls drv (this m)) (world m) |}).
Proof. destruct m as [self w]. apply render_makes_calls. Qed.

(* the calls of a frame without a mesh: bind, clear, unbind *)
Lemma render_calls_empty (self : FoamRenderer F) :
  vertex_count self = 0 \/ index_count self = 0 ->
  render_calls drv self =
  [ glfwMakeContextCurrent (window self);
    glBindFramebuffer GL_FRAMEBUFFER (fbo self);
    glViewport 0 0 (width self) (height self);
    glClearColor (f_lit 0.117) (f_lit 0.117) (f_lit 0.117) (f_lit 1.0);
    glClear [GL_COLOR_BUFFER_BIT; GL_DEPTH_BUFFER_BIT];
    glBindFramebuffer GL_FRAMEBUFFER 0 ].
Proof.
  intros Hempty.
  assert (Hc : (vertex_count self =? 0) || (index_count self =? 0) = true).
  { apply orb_true_iff. destruct Hempty as [->| ->]; auto. }
  eassert (Hcs : makes_calls self (render drv) (texture self) _).
  { render_branch. rewrite Hc. step_calls. }
  rewrite (render_calls_eq drv self _ Hcs). reflexivity.
Qed.

Lemma render_mesh_uploads (self : FoamRenderer F) :
  vertex_count self <> 0 -> index_count self <> 0 ->
  matrix_uploads (render_calls drv self) =
  (if draws_surface self then pass_uploads drv (surface_shader self) self else [])
  ++ (if draws_edges self then pass_uploads drv (edge_shader self) self else []).
Proof.
  intros Hv Hi. apply Z.eqb_neq in Hv, Hi.
  unfold draws_surface, draws_edges.
  destruct (representation self) eqn:Er.
  all: eassert (Hcs : makes_calls self (render drv) (texture self) _);
    [ render_branch; rewrite Hv, Hi, ?Er; eval_decisions; cbn [orb]; step_calls
    | rewrite (render_calls_eq drv self _ Hcs); eval_decisions; reflexivity ].
Qed.

Lemma render_mesh_draws (self : FoamRenderer F) :
  vertex_count self <> 0 -> index_count self <> 0 ->
  filter (fun c => is_draw c = true) (render_calls drv self) =
  (if draws_surface self
   then [glDrawElements GL_TRIANGLES (index_count self) GL_UNSIGNED_INT 0] else [])
  ++ (if draws_edges self
      then [glDrawElements GL_TRIANGLES (index_count self) GL_UNSIGNED_INT 0] else []).
Proof.
  intros Hv Hi. apply Z.eqb_neq in Hv, Hi.
  unfold draws_surface, draws_edges.
  destruct (representation self) eqn:Er.
  all: eassert (Hcs : makes_calls self (render drv) (texture self) _);
    [ render_branch; rewrite Hv, Hi, ?Er; eval_decisions; cbn [orb]; step_calls
    | rewrite (render_calls_eq drv self _ Hcs); eval_decisions; reflexivity ].
Qed.

(* the calls of a frame with a mesh: bind and clear, the surface pass, the
   edge pass, unbind *)
Lemma render_calls_mesh (self : FoamRenderer F) :
  vertex_count self <> 0 -> index_count self <> 0 ->
  render_calls drv self =
  [ glfwMakeContextCurrent (window self);
    glBindFramebuffer GL_FRAMEBUFFER (fbo self);
    glViewport 0 0 (width self) (height self);
    glClearColor (f_lit 0.117) (f_lit 0.117) (f_lit 0.117) (f_lit 1.0);
    glClear [GL_COLOR_BUFFER_BIT; GL_DEPTH_BUFFER_BIT] ]
  ++ (if draws_surface self then surface_pass drv self else [])
  ++ (if draws_edges self then edge_pass drv self else [])
  ++ [ glBindVertexArray 0; glBindFramebuffer GL_FRAMEBUFFER 0 ].
Proof.
  intros Hv Hi. apply Z.eqb_neq in Hv, Hi.
  unfold draws_surface, draws_edges, edge_pass.
  destruct (representation self) eqn:Er.
  all: eassert (Hcs : makes_calls self (render drv) (texture self) _);
    [ render_branch; rewrite Hv, Hi, ?Er; eval_decisions; cbn [orb]; step_calls
    | rewrite (render_calls_eq drv self _ Hcs); eval_decisions; reflexivity ].
Qed.

(* a frame uploads no geometry *)
Lemma render_no_upload (self : FoamRenderer F) :
  filter (fun c => is_upload c = true) (render_calls drv self) = [].
Proof.
  destruct (vertex_count self =? 0) eqn:Ev, (index_count self =? 0) eqn:Ei,
    (representation self) eqn:Er.
  all: eassert (Hcs : makes_calls self (render drv) (texture self) _);
    [ render_branch; rewrite ?Ev, ?Ei, ?Er; eval_decisions; cbn [orb]; step_calls
    | rewrite (render_calls_eq drv self _ Hcs); reflexivity ].
Qed.

End RenderFrames.

(** ** The matrices under exact arithmetic *)

Section ExactGeometry.
Context {F : Type} `{ExactArith F}.

Add Ring F_ring : exact_ring.

Local Open Scope f32_scope.

Lemma lit_0_0 : f_lit 0.0 = f_lit 0.
Proof. by apply exact_lit. Qed.

Lemma lit_1_0 : f_lit 1.0 = f_lit 1.
Proof. by apply exact_lit. Qed.

Lemma normalize_y_axis :
  glm.normalize (glm.Vec3 (f_lit 0.0) (f_lit 1.0) (f_lit 0.0))
  = glm.Vec3 (f_lit 0) (f_lit 1) (f_lit 0).
Proof.
  unfold glm.normalize, glm.dot, glm.vec3_scale. simpl.
  rewrite lit_0_0, lit_1_0.
  replace (f_lit 0 * f_lit 0 + f_lit 1 * f_lit 1 + f_lit 0 * f_lit 0) with (f_lit 1) by ring.
  rewrite exact_inversesqrt_1. f_equal; ring.
Qed.

Lemma normalize_x_axis :
  glm.normalize (glm.Vec3 (f_lit 1.0) (f_lit 0.0) (f_lit 0.0))
  = glm.Vec3 (f_lit 1) (f_lit 0) (f_lit 0).
Proof.
  unfold glm.normalize, glm.dot, glm.vec3_scale. simpl.
  rewrite lit_0_0, lit_1_0.
  replace (f_lit 1 * f_lit 1 + f_lit 0 * f_lit 0 + f_lit 0 * f_lit 0) with (f_lit 1) by ring.
  rewrite exact_inversesqrt_1. f_equal; ring.
Qed.

Ltac unfold_glm :=
  cbv [glm.mat4_mul_vec4 glm.translate glm.rotate glm.mat4_diag glm.point
       glm.shift glm.rot_x glm.rot_y glm.vec3_neg glm.vec4_add glm.vec4_scale
       glm.scale_vec3 glm.x3 glm.y3 glm.z3 glm.x4 glm.y4 glm.z4 glm.w4
       glm.col0 glm.col1 glm.col2 glm.col3].

(* glm multiplies on the right: the new transformation is applied to the
   point first, the matrix passed in afterwards *)
Lemma translate_acts (m : glm.mat4 F) (t p : glm.vec3 F) :
  glm.mat4_mul_vec4 (glm.translate m t) (glm.point p)
  = glm.mat4_mul_vec4 m (glm.point (glm.shift t p)).
Proof.
  destruct m as [[] [] [] []], t, p. unfold_glm. f_equal; ring.
Qed.

Lemma rotate_x_acts (m : glm.mat4 F) (a : F) (p : glm.vec3 F) :
  glm.mat4_mul_vec4 (glm.rotate m a (glm.Vec3 (f_lit 1.0) (f_lit 0.0) (f_lit 0.0)))
    (glm.point p)
  = glm.mat4_mul_vec4 m (glm.point (glm.rot_x a p)).
Proof.
  destruct m as [[] [] [] []], p.
  unfold glm.rotate at 1. rewrite normalize_x_axis. unfold_glm. f_equal; ring.
Qed.

Lemma rotate_y_acts (m : glm.mat4 F) (a : F) (p : glm.vec3 F) :
  glm.mat4_mul_vec4 (glm.rotate m a (glm.Vec3 (f_lit 0.0) (f_lit 1.0) (f_lit 0.0)))
    (glm.point p)
  = glm.mat4_mul_vec4 m (glm.point (glm.rot_y a p)).
Proof.
  destruct m as [[] [] [] []], p.
  unfold glm.rotate at 1. rewrite normalize_y_axis. unfold_glm. f_equal; ring.
Qed.

Lemma identity_acts (v : glm.vec4 F) :
  glm.mat4_mul_vec4 (glm.mat4_diag (f_lit 1.0)) v = v.
Proof.
  destruct v. unfold_glm. rewrite lit_1_0. f_equal; ring.
Qed.

(* the model matrix rotates a point about X, then about Y, then moves it by
   minus the mesh centre *)
Lemma model_matrix_acts (r : FoamRenderer F) (p : glm.vec3 F) :
  glm.mat4_mul_vec4 (model_matrix r) (glm.point p)
  = glm.point (glm.shift (glm.vec3_neg (mesh_center r))
                 (glm.rot_y (rotation_y r) (glm.rot_x (rotation_x r) p))).
Proof.
  unfold model_matrix.
  by rewrite rotate_x_acts, rotate_y_acts, translate_acts, identity_acts.
Qed.

(* the view matrix moves a point by (0, 0, -zoom) *)
Lemma view_matrix_acts (r : FoamRenderer F) (p : glm.vec3 F) :
  glm.mat4_mul_vec4 (view_matrix r) (glm.point p)
  = glm.point (glm.shift (glm.Vec3 (f_lit 0.0) (f_lit 0.0) (- zoom r)) p).
Proof. unfold view_matrix. by rewrite translate_acts, identity_acts. Qed.

(* the same in coordinates *)
Lemma model_matrix_coordinates (r : FoamRenderer F) (x y z : F) :
  let y1 := f_cos (rotation_x r) * y - f_sin (rotation_x r) * z in
  let z1 := f_sin (rotation_x r) * y + f_cos (rotation_x r) * z in
  let x2 := f_cos (rotation_y r) * x + f_sin (rotation_y r) * z1 in
  let z2 := f_cos (rotation_y r) * z1 - f_sin (rotation_y r) * x in
  glm.mat4_mul_vec4 (model_matrix r) (glm.Vec4 x y z (f_lit 1))
  = glm.Vec4 (x2 - glm.x3 (mesh_center r)) (y1 - glm.y3 (mesh_center r))
      (z2 - glm.z3 (mesh_center r)) (f_lit 1).
Proof.
  cbv zeta. change (glm.Vec4 x y z (f_lit 1)) with (glm.point (glm.Vec3 x y z)).
  rewrite model_matrix_acts. destruct (mesh_center r) as [cx cy cz].
  cbv [glm.point glm.shift glm.rot_y glm.rot_x glm.vec3_neg glm.x3 glm.y3 glm.z3].
  f_equal; ring.
Qed.

Lemma view_matrix_coordinates (r : FoamRenderer F) (x y z : F) :
  glm.mat4_mul_vec4 (view_matrix r) (glm.Vec4 x y z (f_lit 1))
  = glm.Vec4 x y (z - zoom r) (f_lit 1).
Proof.
  change (glm.Vec4 x y z (f_lit 1)) with (glm.point (glm.Vec3 x y z)).
  rewrite view_matrix_acts.
  cbv [glm.point glm.shift glm.x3 glm.y3 glm.z3]. rewrite lit_0_0. f_equal; ring.
Qed.

(* a matrix with the non-zero entries of a perspective projection scales x
   and y, maps z and w to the depth and puts -z in the last component *)
Lemma perspective_entries_act (p00 p11 p22 p32 x y z w : F) :
  glm.mat4_mul_vec4
    (glm.Mat4 (glm.Vec4 p00 (f_lit 0) (f_lit 0) (f_lit 0))
              (glm.Vec4 (f_lit 0) p11 (f_lit 0) (f_lit 0))
              (glm.Vec4 (f_lit 0) (f_lit 0) p22 (- f_lit 1))
              (glm.Vec4 (f_lit 0) (f_lit 0) p32 (f_lit 0)))
    (glm.Vec4 x y z w)
  = glm.Vec4 (p00 * x) (p11 * y) (p22 * z + p32 * w) (- z).
Proof. unfold_glm. f_equal; ring. Qed.

End ExactGeometry.

(** The real numbers compute exactly. *)
Lemma R_ExactArith : ExactArith R.
Proof.
  assert (H0 : Q2R 0 = 0%R) by (unfold Q2R; simpl; lra).
  assert (H1 : Q2R 1 = 1%R) by (unfold Q2R; simpl; lra).
  split; simpl.
  - rewrite H0, H1. apply RTheory.
  - intros p q. apply Qreals.Qeq_eqR.
  - rewrite H1, sqrt_1. apply Rinv_1.
Qed.

(** ** The C API on a live handle *)

Section Api.
Context {F : Type} `{Float32 F}.
Variable drv : Driver.
Variable operator_new : gset Z -> pointer * FoamRenderer F.

Lemma on_object_run {A} (p : @Process F) handle obj (method : Method A) a m :
  object_at p handle = Some obj ->
  method {| this := obj; world := outside p |} = Some (a, m) ->
  on_object handle method p
  = Some (a, {| heap := <[handle := this m]> (heap p); outside := world m |}).
Proof. unfold object_at, on_object. by intros -> ->. Qed.

Lemma on_object_inv {A} (p : @Process F) handle (method : Method A) a p' :
  on_object handle method p = Some (a, p') ->
  exists obj m, object_at p handle = Some obj /\
    method {| this := obj; world := outside p |} = Some (a, m) /\
    p' = {| heap := <[handle := this m]> (heap p); outside := world m |}.
Proof.
  unfold object_at, on_object. destruct (heap p !! handle) as [obj|]; [|done].
  destruct (method _) as [[a' m]|] eqn:E; [|done].
  intros [= <- <-]. by exists obj, m.
Qed.

(* a method that leaves the object as it is leaves the heap as it is *)
Lemma on_object_same {A} (p : @Process F) handle obj (method : Method A) a w :
  object_at p handle = Some obj ->
  method {| this := obj; world := outside p |} = Some (a, {| this := obj; world := w |}) ->
  on_object handle method p = Some (a, {| heap := heap p; outside := w |}).
Proof.
  intros Hobj Hrun. rewrite (on_object_run _ _ _ _ _ _ Hobj Hrun). simpl.
  by rewrite insert_id.
Qed.

Lemma render_on_handle (p : @Process F) handle obj :
  handle <> nullptr -> object_at p handle = Some obj ->
  foam_renderer_render drv handle p
  = Some (texture obj,
          {| heap := heap p; outside := add_calls (render_calls drv obj) (outside p) |}).
Proof.
  intros Hh Hobj. unfold foam_renderer_render.
  apply Z.eqb_neq in Hh. rewrite Hh. simpl.
  apply (on_object_same _ _ obj); [done|]. apply (render_run drv).
Qed.

Lemma get_texture_on_handle (p : @Process F) handle obj :
  handle <> nullptr -> object_at p handle = Some obj ->
  foam_renderer_get_texture handle p = Some (texture obj, p).
Proof.
  intros Hh Hobj. unfold foam_renderer_get_texture.
  apply Z.eqb_neq in Hh. rewrite Hh. simpl.
  rewrite (on_object_same _ _ obj _ (texture obj) (outside p)); [by destruct p|done|done].
Qed.

(* creation succeeds whenever the allocator returns fresh storage, and the
   constructor leaves mesh, view and mode as initialised *)
Lemma create_run (p : @Process F) w h address mem :
  operator_new (dom (heap p)) = (address, mem) ->
  address <> nullptr -> address ∉ dom (heap p) ->
  exists obj p1,
    foam_renderer_create drv operator_new w h p = Some (address, p1) /\
    object_at p1 address = Some obj /\
    scene obj = scene (member_init mem w h).
Proof.
  intros Hnew Hnull Hfresh. unfold foam_renderer_create. rewrite Hnew.
  rewrite bool_decide_eq_false_2 by tauto.
  destruct (total_constructor drv {| this := member_init mem w h; world := outside p |})
    as ([] & m & Hm).
  rewrite Hm. eexists _, _. split; [reflexivity|]. split.
  - unfold object_at. simpl. apply lookup_insert_eq.
  - apply (constructor_preserves_scene drv _ _ _ Hm).
Qed.

End Api.

(** ** The render pass *)

Section RenderClaims.
Context {F : Type} `{Float32 F}.
Variable drv : Driver.

(** C2. When [vertex_count] or [index_count] is zero, [render] binds the
    render target, clears it, unbinds it and returns the [texture]
    member; it makes no draw call.  On an instance just created the value
    [foam_renderer_render] returns is the one [foam_renderer_get_texture]
    returns, and that frame makes no draw call either. *)
Theorem render_empty_mesh_fast_path
    (m : @Machine F) (p : @Process F)
    (operator_new : gset Z -> pointer * FoamRenderer F) (w h : Z)
    (address : pointer) (mem : FoamRenderer F) :
  vertex_count (this m) = 0 \/ index_count (this m) = 0 ->
  operator_new (dom (heap p)) = (address, mem) ->
  address <> nullptr -> address ∉ dom (heap p) ->
  (exists m',
     render drv m = Some (texture (this m), m') /\
     this m' = this m /\
     calls_between (world m) (world m')
       [ glfwMakeContextCurrent (window (this m));
         glBindFramebuffer GL_FRAMEBUFFER (fbo (this m));
         glViewport 0 0 (width (this m)) (height (this m));
         glClearColor (f_lit 0.117) (f_lit 0.117) (f_lit 0.117) (f_lit 1.0);
         glClear [GL_COLOR_BUFFER_BIT; GL_DEPTH_BUFFER_BIT];
         glBindFramebuffer GL_FRAMEBUFFER 0 ] /\
     filter (fun c => is_draw c = true) (render_calls drv (this m)) = []) /\
  (exists p1 p2 t cs,
     foam_renderer_create drv operator_new w h p = Some (address, p1) /\
     foam_renderer_get_texture address p1 = Some (t, p1) /\
     foam_renderer_render drv address p1 = Some (t, p2) /\
     calls_between (outside p1) (outside p2) cs /\
     filter (fun c => is_draw c = true) cs = []).
Proof.
  intros Hempty Hnew Hnull Hfresh. split.
  - eexists. split; [apply render_run|]. split; [done|].
    rewrite (render_calls_empty drv _ Hempty). by split.
  - destruct (create_run drv operator_new p w h address mem Hnew Hnull Hfresh)
      as (obj & p1 & Hcreate & Hobj & Hscene).
    assert (Hvc : vertex_count obj = 0) by (by injection Hscene).
    exists p1. eexists _, (texture obj), (render_calls drv obj).
    split; [done|]. split; [by apply get_texture_on_handle|].
    split; [by apply render_on_handle|]. split; [done|].
    by rewrite (render_calls_empty drv obj (or_introl Hvc)).
Qed.

(** C3. For a mesh that is not empty, each pass of [render] hands its
    shader program the same three matrices, and with one of the three
    enumerators as representation at least one pass runs.  The model
    matrix is [glm::rotate(glm::rotate(glm::translate(I, -mesh_center),
    rotation_y, Y), rotation_x, X)], every component of the centre
    negated; the view matrix is [glm::translate(I, (0, 0, -zoom))]; the
    projection matrix has the entries of the perspective projection with
    a vertical field of view of 45 degrees (45 times pi / 180 radians),
    the aspect ratio [width / height], the near plane 0.1 and the far
    plane 10000.  Under exact arithmetic the model matrix takes the point
    (x, y, z) to its rotation about X by [rotation_x], then about Y by
    [rotation_y], then moved by minus the centre; the view matrix moves
    it by (0, 0, -zoom); the projection matrix scales x by
    1 / (aspect * tan (fovy / 2)) and y by 1 / tan (fovy / 2), takes z and
    w to - (far + near) / (far - near) * z - 2 * far * near / (far - near) * w
    and puts -z in the last component. *)
Theorem render_matrices (m : @Machine F) :
  vertex_count (this m) <> 0 -> index_count (this m) <> 0 ->
  let r := this m in
  let cx := glm.x3 (mesh_center r) in
  let cy := glm.y3 (mesh_center r) in
  let cz := glm.z3 (mesh_center r) in
  let ax := rotation_x r in
  let ay := rotation_y r in
  let o := f_lit 0 in
  let fovy := f_mul (f_lit 45.0) (f_lit 0.01745329251994329576923690768489) in
  let tan_half := f_tan (f_div fovy (f_lit 2)) in
  let aspect := f_div (f_of_int (width r)) (f_of_int (height r)) in
  let near := f_lit 0.1 in
  let far := f_lit 10000.0 in
  let p00 := f_div (f_lit 1) (f_mul aspect tan_half) in
  let p11 := f_div (f_lit 1) tan_half in
  let p22 := f_div (f_neg (f_add far near)) (f_sub far near) in
  let p32 := f_div (f_neg (f_mul (f_mul (f_lit 2) far) near)) (f_sub far near) in
  exists m',
    render drv m = Some (texture r, m') /\
    calls_between (world m) (world m') (render_calls drv r) /\
    (representation r = REPRESENTATION_WIREFRAME \/
     representation r = REPRESENTATION_SURFACE \/
     representation r = REPRESENTATION_SURFACE_WITH_EDGES ->
     draws_surface r || draws_edges r = true) /\
    matrix_uploads (render_calls drv r) =
      (if draws_surface r then pass_uploads drv (surface_shader r) r else [])
      ++ (if draws_edges r then pass_uploads drv (edge_shader r) r else []) /\
    model_matrix r =
      glm.rotate
        (glm.rotate
           (glm.translate (glm.mat4_diag (f_lit 1.0))
              (glm.Vec3 (f_neg cx) (f_neg cy) (f_neg cz)))
           ay (glm.Vec3 (f_lit 0.0) (f_lit 1.0) (f_lit 0.0)))
        ax (glm.Vec3 (f_lit 1.0) (f_lit 0.0) (f_lit 0.0)) /\
    view_matrix r =
      glm.translate (glm.mat4_diag (f_lit 1.0))
        (glm.Vec3 (f_lit 0.0) (f_lit 0.0) (f_neg (zoom r))) /\
    projection_matrix r =
      glm.Mat4 (glm.Vec4 p00 o o o)
               (glm.Vec4 o p11 o o)
               (glm.Vec4 o o p22 (f_neg (f_lit 1)))
               (glm.Vec4 o o p32 o) /\
    (ExactArith F ->
     forall x y z w : F,
       let y1 := f_sub (f_mul (f_cos ax) y) (f_mul (f_sin ax) z) in
       let z1 := f_add (f_mul (f_sin ax) y) (f_mul (f_cos ax) z) in
       let x2 := f_add (f_mul (f_cos ay) x) (f_mul (f_sin ay) z1) in
       let z2 := f_sub (f_mul (f_cos ay) z1) (f_mul (f_sin ay) x) in
       glm.mat4_mul_vec4 (model_matrix r) (glm.Vec4 x y z (f_lit 1))
       = glm.Vec4 (f_sub x2 cx) (f_sub y1 cy) (f_sub z2 cz) (f_lit 1) /\
       glm.mat4_mul_vec4 (view_matrix r) (glm.Vec4 x y z (f_lit 1))
       = glm.Vec4 x y (f_sub z (zoom r)) (f_lit 1) /\
       glm.mat4_mul_vec4 (projection_matrix r) (glm.Vec4 x y z w)
       = glm.Vec4 (f_mul p00 x) (f_mul p11 y) (f_add (f_mul p22 z) (f_mul p32 w))
           (f_neg z)).
Proof.
  intros Hv Hi. cbv zeta.
  assert (Hproj : projection_matrix (this m) =
            glm.Mat4
              (glm.Vec4
                 (f_div (f_lit 1)
                    (f_mul (f_div (f_of_int (width (this m))) (f_of_int (height (this m))))
                       (f_tan (f_div (f_mul (f_lit 45.0)
                                        (f_lit 0.01745329251994329576923690768489))
                                 (f_lit 2)))))
                 (f_lit 0) (f_lit 0) (f_lit 0))
              (glm.Vec4 (f_lit 0)
                 (f_div (f_lit 1)
                    (f_tan (f_div (f_mul (f_lit 45.0)
                                     (f_lit 0.01745329251994329576923690768489))
                              (f_lit 2))))
                 (f_lit 0) (f_lit 0))
              (glm.Vec4 (f_lit 0) (f_lit 0)
                 (f_div (f_neg (f_add (f_lit 10000.0) (f_lit 0.1)))
                    (f_sub (f_lit 10000.0) (f_lit 0.1)))
                 (f_neg (f_lit 1)))
              (glm.Vec4 (f_lit 0) (f_lit 0)
                 (f_div (f_neg (f_mul (f_mul (f_lit 2) (f_lit 10000.0)) (f_lit 0.1)))
                    (f_sub (f_lit 10000.0) (f_lit 0.1)))
                 (f_lit 0)))
    by reflexivity.
  eexists. split; [apply render_run|]. split; [done|]. split.
  { unfold draws_surface, draws_edges. by intros [->|[->| ->]]. }
  split; [by apply render_mesh_uploads|].
  split; [unfold model_matrix; by destruct (mesh_center (this m))|].
  split; [done|]. split; [exact Hproj|].
  intros Hexact x y z w.
  split; [apply model_matrix_coordinates|].
  split; [apply view_matrix_coordinates|].
  rewrite Hproj. apply perspective_entries_act.
Qed.

(** C6. [render] returns and leaves the renderer object as it found it: the
    mesh snapshot, the view state and the display mode are unchanged.  All
    it does is make calls to the graphics library; the set of object names
    in use is unchanged as well. *)
Theorem render_reads_only (m : @Machine F) :
  exists t m',
    render drv m = Some (t, m') /\
    MeshSnapshot (this m') = MeshSnapshot (this m) /\
    ViewState (this m') = ViewState (this m) /\
    DisplayMode (this m') = DisplayMode (this m) /\
    this m' = this m /\
    gl_objects (world m') = gl_objects (world m) /\
    calls_between (world m) (world m') (render_calls drv (this m)).
Proof. eexists _, _. split; [apply render_run|]. by repeat split. Qed.

(** C9. Two calls of [render] with nothing in between return the same
    texture identifier and make the same sequence of calls, with the same
    matrices, colours and counts.  Neither frame uploads geometry, and the
    object and the names in use are the same before, between and after,
    so both frames draw the same buffers. *)
Theorem render_twice_same_output (m : @Machine F) :
  exists t m1 m2 cs,
    render drv m = Some (t, m1) /\
    render drv m1 = Some (t, m2) /\
    calls_between (world m) (world m1) cs /\
    calls_between (world m1) (world m2) cs /\
    filter (fun c => is_upload c = true) cs = [] /\
    this m1 = this m /\ this m2 = this m /\
    gl_objects (world m1) = gl_objects (world m) /\
    gl_objects (world m2) = gl_objects (world m).
Proof.
  pose (cs := render_calls drv (this m)).
  pose (m1 := {| this := this m; world := add_calls cs (world m) |}).
  exists (texture (this m)), m1, {| this := this m; world := add_calls cs (world m1) |}, cs.
  split; [apply render_run|]. split; [apply (render_run drv m1)|].
  split; [done|]. split; [done|]. split; [apply render_no_upload|]. by repeat split.
Qed.

End RenderClaims.

(** ** Null handles *)

Section NullHandle.
Context {F : Type} `{Float32 F}.
Variable drv : Driver.

(** C5. Called with a null handle, every entry point that takes a handle
    returns normally and leaves the whole process state as it was;
    [foam_renderer_render] and [foam_renderer_get_texture] return 0. *)
Theorem null_handle_is_noop (p : @Process F)
    v vc i ic cs ccs cc rx ry z cx cy cz r d w h :
  foam_renderer_destroy nullptr p = Some (tt, p) /\
  foam_renderer_update_mesh nullptr v vc i ic cs ccs cc p = Some (tt, p) /\
  foam_renderer_set_view nullptr rx ry z cx cy cz p = Some (tt, p) /\
  foam_renderer_set_mode nullptr r d p = Some (tt, p) /\
  foam_renderer_render drv nullptr p = Some (0, p) /\
  foam_renderer_resize drv nullptr w h p = Some (tt, p) /\
  foam_renderer_get_texture nullptr p = Some (0, p).
Proof. by repeat split. Qed.

End NullHandle.

(** ** Mesh upload *)

Section MeshUpload.
Context {F : Type} `{Float32 F}.

Lemma run_bind {S A B} (op : Op S A) (k : A -> Op S B) s a s1 r :
  op s = Some (a, s1) -> k a s1 = r -> bind op k s = r.
Proof. intros Hop Hk. unfold bind. by rewrite Hop. Qed.

Lemma run_bind_ex {A} (op : Method A) (k : A -> Method unit) (m : @Machine F) a m1
    (target : FoamRenderer F) :
  op m = Some (a, m1) ->
  (exists m', k a m1 = Some (tt, m') /\ this m' = target) ->
  exists m', bind op k m = Some (tt, m') /\ this m' = target.
Proof. intros Hop (m' & Hk & HP). exists m'. split; [|done]. by eapply run_bind. Qed.

Lemma run_assign (f : FoamRenderer F -> FoamRenderer F) (self : FoamRenderer F) w :
  assign f {| this := self; world := w |} = Some (tt, {| this := f self; world := w |}).
Proof. reflexivity. Qed.

Lemma run_read {A} (member : FoamRenderer F -> A) (m : @Machine F) :
  read member m = Some (member (this m), m).
Proof. reflexivity. Qed.

Lemma run_lift_some {A} (o : option A) a (m : @Machine F) :
  o = Some a -> lift o m = Some (a, m).
Proof. by intros ->. Qed.

Lemma int_result_in_range r :
  INT32_MIN <= r <= INT32_MAX -> int_result r = Some r.
Proof.
  intros [Hlo Hhi]. unfold int_result.
  apply Z.leb_le in Hlo, Hhi. by rewrite Hlo, Hhi.
Qed.

Lemma read_range_array {A} (p : option (list A)) n :
  array_of p n -> read_range p n = Some (contents p).
Proof.
  intros (a & -> & Hlen). unfold read_range. simpl.
  destruct (n <? 0) eqn:Hneg; [lia|].
  destruct (n =? 0) eqn:Hzero.
  - destruct a; [done|simpl in Hlen; lia].
  - rewrite (proj2 (Z.leb_le n _)) by lia.
    rewrite take_ge by lia. done.
Qed.

Lemma store_vertex_color_run (m : @Machine F) i c x :
  0 <= i -> 0 <= c -> i * 4 + c <= INT32_MAX ->
  i * 4 + c < Z.of_nat (length (vertex_colors (this m))) ->
  store_vertex_color i c x m
  = Some (tt, {| this := set_vertex_colors
                           (<[Z.to_nat (i * 4 + c) := x]> (vertex_colors (this m))) (this m);
                 world := world m |}).
Proof.
  intros Hi Hc Hmax Hlen. unfold store_vertex_color, int_mul, int_add.
  assert (INT32_MIN < 0) by done.
  eapply run_bind; [unfold lift; rewrite int_result_in_range by lia; reflexivity|].
  eapply run_bind; [unfold lift; rewrite int_result_in_range by lia; reflexivity|].
  eapply run_bind; [reflexivity|].
  unfold vector_store. simpl.
  rewrite (proj2 (Z.leb_le 0 _)) by lia. rewrite (proj2 (Z.ltb_lt _ _)) by lia.
  reflexivity.
Qed.

(* one round of the loop overwrites the four floats after [pre] *)
Lemma default_color_round (m : @Machine F) i pre a b c d rest :
  0 <= i -> i * 4 + 3 <= INT32_MAX ->
  Z.of_nat (length pre) = i * 4 ->
  vertex_colors (this m) = pre ++ a :: b :: c :: d :: rest ->
  (store_vertex_color i 0 (f_lit 0.5) ;;
   store_vertex_color i 1 (f_lit 0.7) ;;
   store_vertex_color i 2 (f_lit 1.0) ;;
   store_vertex_color i 3 (f_lit 1.0))%op m
  = Some (tt, {| this := set_vertex_colors (pre ++ default_color ++ rest) (this m);
                 world := world m |}).
Proof.
  intros Hi Hmax Hpre Hl.
  assert (H0 : Z.to_nat (i * 4 + 0) = (length pre + 0)%nat) by lia.
  assert (H1 : Z.to_nat (i * 4 + 1) = (length pre + 1)%nat) by lia.
  assert (H2 : Z.to_nat (i * 4 + 2) = (length pre + 2)%nat) by lia.
  assert (H3 : Z.to_nat (i * 4 + 3) = (length pre + 3)%nat) by lia.
  eapply run_bind.
  { apply store_vertex_color_run; rewrite ?Hl, ?length_app; simpl; lia. }
  eapply run_bind.
  { apply store_vertex_color_run; simpl; rewrite ?Hl, ?length_insert, ?length_app;
      simpl; lia. }
  eapply run_bind.
  { apply store_vertex_color_run; simpl; rewrite ?Hl, ?length_insert, ?length_app;
      simpl; lia. }
  rewrite store_vertex_color_run
    by (simpl; rewrite ?Hl, ?length_insert, ?length_app; simpl; lia).
  simpl. rewrite Hl.
  rewrite H0, H1, H2, H3.
  rewrite !insert_app_r. reflexivity.
Qed.

(* the loop writes the default colour [n] times after [pre] *)
Lemma default_color_loop (n : nat) :
  forall (m : @Machine F) i pre rest,
    0 <= i -> (i + Z.of_nat n) * 4 <= INT32_MAX ->
    Z.of_nat (length pre) = i * 4 ->
    (4 * n <= length rest)%nat ->
    vertex_colors (this m) = pre ++ rest ->
    for_int n i (fun i =>
      store_vertex_color i 0 (f_lit 0.5) ;;
      store_vertex_color i 1 (f_lit 0.7) ;;
      store_vertex_color i 2 (f_lit 1.0) ;;
      store_vertex_color i 3 (f_lit 1.0))%op m
    = Some (tt, {| this := set_vertex_colors
                             (pre ++ concat (replicate n default_color) ++ drop (4 * n) rest)
                             (this m);
                   world := world m |}).
Proof.
  induction n as [|n IH]; intros m i pre rest Hi Hmax Hpre Hrest Hl.
  - simpl. unfold ret. rewrite drop_0, <- Hl. by destruct m as [[] ?].
  - destruct rest as [|a [|b [|c [|d rest]]]]; simpl length in Hrest; try lia.
    assert (Hdrop : drop (4 * S n) (a :: b :: c :: d :: rest) = drop (4 * n) rest).
    { replace (4 * S n)%nat with (S (S (S (S (4 * n))))) by lia. reflexivity. }
    rewrite Hdrop. cbn [for_int replicate concat]. eapply run_bind.
    { apply (default_color_round m i pre a b c d rest); [lia|lia|done|done]. }
    rewrite (IH _ (i + 1) (pre ++ default_color) rest).
    + rewrite <- !app_assoc. reflexivity.
    + lia.
    + lia.
    + rewrite length_app. simpl. lia.
    + lia.
    + simpl. by rewrite <- app_assoc.
Qed.

Lemma total_upload_mesh_to_gpu : total (upload_mesh_to_gpu (F:=F)).
Proof. unfold upload_mesh_to_gpu. step_total. Qed.

(* a call within the contract returns, and stores what it was given *)
Lemma update_mesh_data_run (m : @Machine F) verts vert_count inds ind_count
    colors c_colors c_count :
  valid_mesh_args verts vert_count inds ind_count colors c_colors c_count ->
  exists m',
    update_mesh_data verts vert_count inds ind_count colors c_colors c_count m
      = Some (tt, m') /\
    this m' =
      set_cell_colors
        (match c_colors with Some cc => cc | None => cell_colors (this m) end)
        (set_vertex_colors
           (match colors with
            | Some c => c
            | None => concat (replicate (Z.to_nat vert_count) default_color)
            end)
           (set_indices (contents inds)
              (set_vertices (contents verts)
                 (set_cell_count c_count
                    (set_index_count ind_count
                       (set_vertex_count vert_count (this m))))))).
Proof.
  intros (Hvc & Hmax & Hverts & Hinds & Hcolors & Hccolors).
  assert (Hmin : INT32_MIN < 0) by done.
  assert (Hn3 : int_mul vert_count 3 = Some (vert_count * 3))
    by (apply int_result_in_range; lia).
  assert (Hn4 : int_mul vert_count 4 = Some (vert_count * 4))
    by (apply int_result_in_range; lia).
  assert (Hresize : forall old : list F,
            vector_resize (f_lit 0) (vert_count * 4) old
            = Some (take (Z.to_nat (vert_count * 4)) old
                    ++ replicate (Z.to_nat (vert_count * 4) - length old) (f_lit 0))).
  { intros old. unfold vector_resize. by rewrite (proj2 (Z.ltb_ge _ _)) by lia. }
  assert (Hloop : forall m1 : @Machine F,
            vertex_colors (this m1)
            = take (Z.to_nat (vert_count * 4)) (vertex_colors (this m))
              ++ replicate (Z.to_nat (vert_count * 4) - length (vertex_colors (this m)))
                   (f_lit 0) ->
            for_int (Z.to_nat vert_count) 0 (fun i =>
              store_vertex_color i 0 (f_lit 0.5) ;;
              store_vertex_color i 1 (f_lit 0.7) ;;
              store_vertex_color i 2 (f_lit 1.0) ;;
              store_vertex_color i 3 (f_lit 1.0))%op m1
            = Some (tt, {| this := set_vertex_colors
                                     (concat (replicate (Z.to_nat vert_count) default_color))
                                     (this m1);
                           world := world m1 |})).
  { intros m1 Hm1.
    assert (Hfull : (4 * Z.to_nat vert_count
                     <= length (take (Z.to_nat (vert_count * 4)) (vertex_colors (this m))
                                ++ replicate (Z.to_nat (vert_count * 4)
                                              - length (vertex_colors (this m))) (f_lit 0)))%nat)
      by (rewrite length_app, length_take, length_replicate; lia).
    erewrite (default_color_loop (Z.to_nat vert_count) m1 0 []);
      [|lia|lia|done|exact Hfull|exact Hm1].
    rewrite drop_ge by (rewrite length_app, length_take, length_replicate; lia).
    by rewrite app_nil_r. }
  unfold update_mesh_data. destruct m as [self w]. simpl in Hloop, Hresize |- *.
  destruct Hcolors as [->|(c & -> & Hc)],
    Hccolors as [->|(Hcc & Hccmax & cc & -> & Hlen)].
  all: do 3 (eapply run_bind_ex; [apply run_assign|]).
  all: eapply run_bind_ex; [apply run_lift_some, Hn3|].
  all: eapply run_bind_ex; [apply run_lift_some, (read_range_array _ _ Hverts)|].
  all: eapply run_bind_ex; [apply run_assign|].
  all: eapply run_bind_ex; [apply run_lift_some, (read_range_array _ _ Hinds)|].
  all: eapply run_bind_ex; [apply run_assign|].
  all: eapply run_bind_ex; [apply run_lift_some, Hn4|].
  (* the vertex colours: defaults, or the caller's *)
  all: eapply run_bind_ex;
    [ first
        [ eapply run_bind; [apply run_read|];
          eapply run_bind; [apply run_lift_some, Hresize|];
          eapply run_bind; [apply run_assign|];
          apply Hloop; reflexivity
        | eapply run_bind;
            [apply run_lift_some,
               (read_range_array (Some c) _ (ex_intro _ c (conj eq_refl Hc)))|];
          apply run_assign ] |].
  (* the cell colours: the caller's, or none *)
  all: eapply run_bind_ex;
    [ first
        [ eapply run_bind;
            [apply run_lift_some, (int_result_in_range (c_count * 4)); lia|];
          eapply run_bind;
            [apply run_lift_some,
               (read_range_array (Some cc) _ (ex_intro _ cc (conj eq_refl Hlen)))|];
          apply run_assign
        | apply (eq_refl : ret tt _ = Some (tt, _)) ] |].
  (* the upload changes nothing in the object *)
  all: match goal with
       | |- exists m', upload_mesh_to_gpu ?mk = _ /\ _ =>
           destruct (total_upload_mesh_to_gpu mk) as ([] & m' & Hup);
           exists m'; split; [exact Hup|];
           rewrite (upload_preserves_all _ _ _ Hup : this m' = this mk)
       end.
  all: destruct self; eval_members; reflexivity.
Qed.

End MeshUpload.

(** ** What a mesh upload stores *)

Section MeshClaims.
Context {F : Type} `{Float32 F}.

Lemma concat_replicate_length {A} (l : list A) n :
  length (concat (replicate n l)) = (n * length l)%nat.
Proof. induction n as [|n IH]; simpl; [done|]. rewrite length_app, IH. lia. Qed.



(** C8, as the code has it.  After a call of update_mesh within the
    contract the stored position array has [3 * vertex_count] elements and
    the stored index array has [index_count] elements; [index_count] is
    the caller's count as passed, a multiple of 3 exactly when the caller
    passed one. *)
Theorem mesh_snapshot_invariant (m : @Machine F) verts vert_count inds ind_count
    colors c_colors c_count :
  valid_mesh_args verts vert_count inds ind_count colors c_colors c_count ->
  exists m',
    update_mesh_data verts vert_count inds ind_count colors c_colors c_count m
      = Some (tt, m') /\
    Z.of_nat (length (vertices (this m'))) = vertex_count (this m') * 3 /\
    Z.of_nat (length (indices (this m'))) = index_count (this m') /\
    index_count (this m') = ind_count /\
    (index_count (this m') mod 3 = 0 <-> ind_count mod 3 = 0).
Proof.
  intros Hvalid.
  destruct (update_mesh_data_run m _ _ _ _ _ _ _ Hvalid) as (m' & Hrun & Hthis).
  exists m'. split; [done|]. rewrite Hthis. simpl.
  destruct Hvalid as (_ & _ & (vs & -> & Hvs) & (ixs & -> & Hixs) & _). by simpl.
Qed.

End MeshClaims.

(** ** The render target *)

Section RenderTargetProofs.
Context {F : Type} `{Float32 F}.
Variable drv : Driver.

Lemma call_run c (self : FoamRenderer F) o cs e :
  call c {| this := self; world := {| gl_objects := o; gl_calls := cs; cerr := e |} |}
  = Some (tt, {| this := self;
                 world := {| gl_objects := o; gl_calls := cs ++ [c]; cerr := e |} |}).
Proof. reflexivity. Qed.

Lemma log_cerr_run line (self : FoamRenderer F) o cs e :
  log_cerr line {| this := self; world := {| gl_objects := o; gl_calls := cs; cerr := e |} |}
  = Some (tt, {| this := self;
                 world := {| gl_objects := o; gl_calls := cs; cerr := e ++ [line] |} |}).
Proof. reflexivity. Qed.

Lemma gen_into_run k set_member (self : FoamRenderer F) o cs e :
  gen_into drv k set_member
    {| this := self; world := {| gl_objects := o; gl_calls := cs; cerr := e |} |}
  = Some (tt, {| this := set_member (drv_name drv k o) self;
                 world := {| gl_objects := {[ (k, drv_name drv k o) ]} ∪ o;
                             gl_calls := cs ++ [glGen k 1 (drv_name drv k o)];
                             cerr := e |} |}).
Proof. reflexivity. Qed.

Lemma gl_delete_run k name (self : FoamRenderer F) o cs e :
  gl_delete k name
    {| this := self; world := {| gl_objects := o; gl_calls := cs; cerr := e |} |}
  = Some (tt, {| this := self;
                 world := {| gl_objects := o ∖ {[ (k, name) ]};
                             gl_calls := cs ++ [glDelete k 1 name];
                             cerr := e |} |}).
Proof. reflexivity. Qed.

Lemma checkFramebufferStatus_run target (self : FoamRenderer F) o cs e :
  checkFramebufferStatus drv target
    {| this := self; world := {| gl_objects := o; gl_calls := cs; cerr := e |} |}
  = Some (drv_framebuffer_complete drv o,
          {| this := self;
             world := {| gl_objects := o;
                         gl_calls := cs ++ [glCheckFramebufferStatus target
                                              (drv_framebuffer_complete drv o)];
                         cerr := e |} |}).
Proof. reflexivity. Qed.

Ltac run_step :=
  eapply run_bind;
    [ first [ apply run_read | apply run_assign | apply call_run | apply log_cerr_run
            | apply gen_into_run | apply gl_delete_run
            | apply checkFramebufferStatus_run
            | apply (eq_refl : ret _ _ = Some (_, _)) ]
    | cbv beta; cbn [this world gl_objects gl_calls cerr] ].

Lemma create_framebuffer_run (m : @Machine F) w h :
  let r := this m in
  let live := gl_objects (world m) in
  let complete := drv_framebuffer_complete drv (names_after_create drv r live) in
  create_framebuffer drv w h m
  = Some (tt,
          {| this := set_rbo (new_rbo drv r live)
                       (set_texture (new_texture drv r live)
                          (set_fbo (new_fbo drv r live) r));
             world :=
               {| gl_objects := names_after_create drv r live;
                  gl_calls := gl_calls (world m) ++ release_calls r
                              ++ build_calls w h (new_fbo drv r live)
                                   (new_texture drv r live) (new_rbo drv r live) complete;
                  cerr := cerr (world m)
                          ++ (if complete then [] else ["Framebuffer is not complete!"%string])
               |} |}).
Proof.
  destruct m as [r [live calls errs]]. cbn [this world gl_objects gl_calls cerr]. cbv zeta.
  unfold create_framebuffer, names_after_create, new_rbo, new_texture, new_fbo,
    after_release, release_calls, build_calls.
  run_step.
  destruct (fbo r =? 0); cbn [negb].
  1: run_step.
  2: eapply run_bind;
       [ run_step; run_step; run_step; run_step; apply gl_delete_run
       | cbv beta; cbn [this world gl_objects gl_calls cerr] ].
  all: do 16 run_step.
  all: cbn [fbo texture rbo set_fbo set_texture set_rbo].
  all: match goal with
       | |- context [drv_framebuffer_complete drv ?s] =>
           destruct (drv_framebuffer_complete drv s)
       end; cbn [negb].
  all: run_step; rewrite call_run, <- ?app_assoc, ?app_nil_r; reflexivity.
Qed.

End RenderTargetProofs.

(** ** Sequences of calls on a live handle *)

Section Sequences.
Context {F : Type} `{Float32 F}.
Variable drv : Driver.

Lemma bind_inv {S A B} (op : Op S A) (k : A -> Op S B) s b s2 :
  bind op k s = Some (b, s2) ->
  exists a s1, op s = Some (a, s1) /\ k a s1 = Some (b, s2).
Proof.
  unfold bind. destruct (op s) as [[a s1]|]; [|done]. intros Hk. by exists a, s1.
Qed.

Lemma render_preserves {B} (member : FoamRenderer F -> B) :
  preserves member (render drv).
Proof. intros m a m'. rewrite render_run. by intros [= _ <-]. Qed.

(* a method that preserves a member preserves it in the object behind the
   handle *)
Lemma on_object_preserves {A B} (member : FoamRenderer F -> B) (method : Method A)
    (p : @Process F) handle obj a p' :
  preserves member method ->
  object_at p handle = Some obj ->
  on_object handle method p = Some (a, p') ->
  exists obj', object_at p' handle = Some obj' /\ member obj' = member obj.
Proof.
  intros Hpres Hobj Hrun.
  destruct (on_object_inv _ _ _ _ _ Hrun) as (obj0 & m & Hobj0 & Hm & ->).
  rewrite Hobj in Hobj0. injection Hobj0 as <-.
  exists (this m). split.
  - unfold object_at. simpl. apply lookup_insert_eq.
  - apply (Hpres _ _ _ Hm).
Qed.

(* every call but a resize leaves the texture member alone *)
Lemma run_call_keeps_texture (p : @Process F) handle obj c r p' :
  handle <> nullptr -> is_resize c = false ->
  object_at p handle = Some obj ->
  run_call drv handle c p = Some (r, p') ->
  exists obj', object_at p' handle = Some obj' /\ texture obj' = texture obj.
Proof.
  intros Hh Hc Hobj Hrun. apply Z.eqb_neq in Hh.
  destruct c; try discriminate Hc; simpl in Hrun;
    apply bind_inv in Hrun as (a & p1 & Hrun & [= _ <-]);
    revert Hrun;
    unfold foam_renderer_update_mesh, foam_renderer_set_view, foam_renderer_set_mode,
      foam_renderer_render, foam_renderer_get_texture;
    rewrite Hh; simpl;
    apply on_object_preserves; try done.
  - apply update_mesh_preserves_texture.
  - step_preserves.
  - step_preserves.
  - apply render_preserves.
  - step_preserves.
Qed.

Lemma run_calls_keep_texture cs :
  forall (p : @Process F) handle obj p',
    handle <> nullptr ->
    forallb (fun c => negb (is_resize c)) cs = true ->
    object_at p handle = Some obj ->
    run_calls drv handle cs p = Some (tt, p') ->
    exists obj', object_at p' handle = Some obj' /\ texture obj' = texture obj.
Proof.
  induction cs as [|c cs IH]; intros p handle obj p' Hh Hcs Hobj Hrun.
  - injection Hrun as <-. by exists obj.
  - simpl in Hcs. apply andb_true_iff in Hcs as [Hc Hcs].
    apply negb_true_iff in Hc.
    apply bind_inv in Hrun as (r & p1 & Hc1 & Hrest).
    destruct (run_call_keeps_texture _ _ _ _ _ _ Hh Hc Hobj Hc1) as (obj1 & Hobj1 & Ht1).
    destruct (IH _ _ _ _ Hh Hcs Hobj1 Hrest) as (obj' & Hobj' & Ht').
    exists obj'. split; [done|congruence].
Qed.

(* render, resize and get_texture return, and leave mesh, view and mode *)
Lemma run_call_keeps_scene (p : @Process F) handle obj c :
  handle <> nullptr -> changes_defaults c = false ->
  object_at p handle = Some obj ->
  exists r p' obj',
    run_call drv handle c p = Some (r, p') /\
    object_at p' handle = Some obj' /\ scene obj' = scene obj.
Proof.
  intros Hh Hc Hobj.
  destruct c as [| | | |w h|]; try discriminate Hc; unfold run_call, bind.
  - rewrite (render_on_handle drv p handle obj Hh Hobj).
    by eexists _, _, obj.
  - unfold foam_renderer_resize. rewrite (proj2 (Z.eqb_neq _ _) Hh). cbn [negb].
    destruct (total_resize drv w h {| this := obj; world := outside p |})
      as ([] & m & Hm).
    rewrite (on_object_run _ _ _ _ _ _ Hobj Hm).
    eexists _, _, (this m). split; [done|]. split.
    + unfold object_at. simpl. apply lookup_insert_eq.
    + apply (resize_preserves_scene drv _ _ _ _ _ Hm).
  - rewrite (get_texture_on_handle p handle obj Hh Hobj).
    by eexists _, _, obj.
Qed.

Lemma run_calls_keep_scene cs :
  forall (p : @Process F) handle obj,
    handle <> nullptr ->
    forallb (fun c => negb (changes_defaults c)) cs = true ->
    object_at p handle = Some obj ->
    exists p' obj',
      run_calls drv handle cs p = Some (tt, p') /\
      object_at p' handle = Some obj' /\ scene obj' = scene obj.
Proof.
  induction cs as [|c cs IH]; intros p handle obj Hh Hcs Hobj.
  - by exists p, obj.
  - simpl in Hcs. apply andb_true_iff in Hcs as [Hc Hcs].
    apply negb_true_iff in Hc.
    destruct (run_call_keeps_scene p handle obj c Hh Hc Hobj)
      as (r & p1 & obj1 & Hrun1 & Hobj1 & Hs1).
    destruct (IH p1 handle obj1 Hh Hcs Hobj1) as (p' & obj' & Hrun & Hobj' & Hs').
    exists p', obj'. split; [|split; [done|congruence]].
    simpl. unfold bind at 1. by rewrite Hrun1.
Qed.

End Sequences.

(** ** A fresh renderer, and the texture identifier over time *)

Section Lifetime.
Context {F : Type} `{Float32 F}.
Variable drv : Driver.

Lemma scene_defaults (obj mem : FoamRenderer F) w h :
  scene obj = scene (member_init mem w h) -> has_defaults obj.
Proof.
  unfold scene, has_defaults, MeshSnapshot, ViewState, DisplayMode.
  cbn [member_init vertices indices vertex_colors cell_colors vertex_count index_count
       cell_count rotation_x rotation_y zoom mesh_center representation data_mode].
  unfold glm.vec3_splat. intros Hs. injection Hs as -> -> -> -> -> -> -> -> -> -> -> -> ->.
  done.
Qed.

(** C10. A renderer just created has an empty mesh with all three counts
    zero, rotations of 0.3 about X and Y, zoom 500, the mesh centre at the
    origin, and draws a surface coloured per point.  [render], [resize]
    and [get_texture] always return and leave these values in place: they
    hold until update_mesh, set_view or set_mode is called. *)
Theorem fresh_renderer_defaults (p : @Process F)
    (operator_new : gset Z -> pointer * FoamRenderer F) (w h : Z)
    (address : pointer) (mem : FoamRenderer F) (cs : list ApiCall) :
  operator_new (dom (heap p)) = (address, mem) ->
  address <> nullptr -> address ∉ dom (heap p) ->
  forallb (fun c => negb (changes_defaults c)) cs = true ->
  exists p1 obj p2 obj2,
    foam_renderer_create drv operator_new w h p = Some (address, p1) /\
    object_at p1 address = Some obj /\
    has_defaults obj /\
    run_calls drv address cs p1 = Some (tt, p2) /\
    object_at p2 address = Some obj2 /\
    has_defaults obj2.
Proof.
  intros Hnew Hnull Hfresh Hcs.
  destruct (create_run drv operator_new p w h address mem Hnew Hnull Hfresh)
    as (obj & p1 & Hcreate & Hobj & Hscene).
  destruct (run_calls_keep_scene drv cs p1 address obj Hnull Hcs Hobj)
    as (p2 & obj2 & Hrun & Hobj2 & Hscene2).
  exists p1, obj, p2, obj2.
  split; [done|]. split; [done|].
  split; [by apply (scene_defaults obj mem w h)|].
  split; [done|]. split; [done|].
  apply (scene_defaults obj2 mem w h). congruence.
Qed.

Lemma resize_run (m : @Machine F) w h :
  let r := this m in
  let live := gl_objects (world m) in
  let complete := drv_framebuffer_complete drv (names_after_create drv r live) in
  resize drv w h m
  = Some (tt,
          {| this := set_rbo (new_rbo drv r live)
                       (set_texture (new_texture drv r live)
                          (set_fbo (new_fbo drv r live) (set_height h (set_width w r))));
             world :=
               {| gl_objects := names_after_create drv r live;
                  gl_calls := gl_calls (world m) ++ release_calls r
                              ++ build_calls w h (new_fbo drv r live)
                                   (new_texture drv r live) (new_rbo drv r live) complete;
                  cerr := cerr (world m)
                          ++ (if complete then [] else ["Framebuffer is not complete!"%string])
               |} |}).
Proof.
  destruct m as [r wd]. unfold resize.
  eapply run_bind; [apply run_assign|]. eapply run_bind; [apply run_assign|].
  rewrite (create_framebuffer_run drv). cbv zeta. cbn [this world].
  unfold names_after_create, new_rbo, new_texture, new_fbo, after_release, release_calls.
  cbn [fbo texture rbo set_height set_width]. reflexivity.
Qed.

(** C4, as the code has it.  The identifier [render] and [get_texture]
    return is the [texture] member; no call but a resize changes it, so it
    is the same before and after any calls that are not resizes.  A resize
    deletes the old framebuffer, texture and renderbuffer when [fbo] is
    not zero, creates new ones, and stores the name the driver hands out
    for the new texture.  That name is in use afterwards and, with a
    driver that keeps to the naming rules, was not in use when it was
    handed out; the old name is no longer in use when the new one differs
    from it. *)
Theorem texture_identifier_stability (p p1 : @Process F) (handle : pointer)
    (obj : FoamRenderer F) (cs : list ApiCall) (w h : Z) :
  handle <> nullptr ->
  object_at p handle = Some obj ->
  forallb (fun c => negb (is_resize c)) cs = true ->
  run_calls drv handle cs p = Some (tt, p1) ->
  exists q q1 obj1 p2 obj2 complete,
    foam_renderer_render drv handle p = Some (texture obj, q) /\
    foam_renderer_render drv handle p1 = Some (texture obj, q1) /\
    foam_renderer_get_texture handle p1 = Some (texture obj, p1) /\
    object_at p1 handle = Some obj1 /\
    foam_renderer_resize drv handle w h p1 = Some (tt, p2) /\
    object_at p2 handle = Some obj2 /\
    foam_renderer_get_texture handle p2 = Some (texture obj2, p2) /\
    texture obj2 = new_texture drv obj1 (gl_objects (outside p1)) /\
    (Texture, texture obj2) ∈ gl_objects (outside p2) /\
    calls_between (outside p1) (outside p2)
      (release_calls obj1
       ++ build_calls w h (fbo obj2) (texture obj2) (rbo obj2) complete) /\
    (driver_names_fresh drv ->
     texture obj2 <> 0 /\
     (Texture, texture obj2) ∉ after_release obj1 (gl_objects (outside p1))) /\
    (fbo obj1 <> 0 ->
     In (glDelete Texture 1 (texture obj1)) (release_calls obj1) /\
     (texture obj2 <> texture obj1 ->
      (Texture, texture obj1) ∉ gl_objects (outside p2))).
Proof.
  intros Hh Hobj Hcs Hrun.
  destruct (run_calls_keep_texture drv cs p handle obj p1 Hh Hcs Hobj Hrun)
    as (obj1 & Hobj1 & Htex).
  pose proof (resize_run {| this := obj1; world := outside p1 |} w h) as Hresize.
  cbv zeta in Hresize. cbn [this world] in Hresize.
  eexists _, _, obj1, _, _, _.
  split; [by apply render_on_handle|].
  split; [rewrite <- Htex; by apply render_on_handle|].
  split; [rewrite <- Htex; by apply get_texture_on_handle|].
  split; [done|].
  split.
  { unfold foam_renderer_resize. rewrite (proj2 (Z.eqb_neq _ _) Hh). cbn [negb].
    apply (on_object_run _ _ _ _ _ _ Hobj1 Hresize). }
  split; [unfold object_at; cbn [heap this]; apply lookup_insert_eq|].
  split; [apply get_texture_on_handle;
          [done|unfold object_at; cbn [heap this]; apply lookup_insert_eq]|].
  split; [reflexivity|].
  split; [cbn [outside world gl_objects texture set_rbo set_texture];
          unfold names_after_create; set_solver|].
  split; [reflexivity|].
  split.
  { intros Hfresh. cbn [texture set_rbo set_texture]. unfold new_texture.
    destruct (Hfresh Texture
                ({[ (Framebuffer, new_fbo drv obj1 (gl_objects (outside p1))) ]}
                 ∪ after_release obj1 (gl_objects (outside p1)))) as [Hnz Hnew].
    split; [done|set_solver]. }
  intros Hfbo. split.
  - unfold release_calls. rewrite (proj2 (Z.eqb_neq _ _) Hfbo). simpl. tauto.
  - cbn [outside world gl_objects texture set_rbo set_texture].
    unfold names_after_create, after_release.
    rewrite (proj2 (Z.eqb_neq _ _) Hfbo). intros Hne.
    assert (Hk1 : (Texture, texture obj1)
                  ≠ (Renderbuffer, new_rbo drv obj1 (gl_objects (outside p1)))) by done.
    assert (Hk2 : (Texture, texture obj1)
                  ≠ (Framebuffer, new_fbo drv obj1 (gl_objects (outside p1)))) by done.
    assert (Hk3 : (Texture, texture obj1)
                  ≠ (Texture, new_texture drv obj1 (gl_objects (outside p1))))
      by (intros [= E]; by rewrite E in Hne).
    rewrite !elem_of_union, !elem_of_singleton, !elem_of_difference, !elem_of_singleton.
    tauto.
Qed.

End Lifetime.

(** ** The concrete platform *)

Lemma next_name_fresh (k : ObjKind) (live : gset (ObjKind * Z)) :
  next_name k live <> 0 /\ (k, next_name k live) ∉ live.
Proof.
  unfold next_name.
  set (f := fun (kn : ObjKind * Z) (acc : Z) =>
              if decide (kn.1 = k) then Z.max kn.2 acc else acc).
  assert (Hmax : 0 <= set_fold f 0 live /\
                 forall n, (k, n) ∈ live -> n <= set_fold f 0 live).
  { apply (set_fold_ind_L
             (fun r (X : gset (ObjKind * Z)) => 0 <= r /\ forall n, (k, n) ∈ X -> n <= r)).
    - split; [done|]. intros n Hn. set_solver.
    - intros [k' n'] X r Hx [Hr Hle]. unfold f. simpl. split.
      + destruct (decide (k' = k)); lia.
      + intros n Hn. apply elem_of_union in Hn as [Hn|Hn].
        * apply elem_of_singleton in Hn. injection Hn as <- ->.
          rewrite decide_True by done. lia.
        * specialize (Hle n Hn). destruct (decide (k' = k)); lia. }
  destruct Hmax as [H0 Hle]. split; [lia|].
  intros Hin. specialize (Hle _ Hin). lia.
Qed.

(* the concrete driver keeps to the naming rules of OpenGL *)
Lemma compact_driver_fresh : driver_names_fresh compact_driver.
Proof. intros k live. apply next_name_fresh. Qed.

(* with it, the texture created by a resize gets the name of the one the
   resize deleted *)
Lemma compact_driver_reuses_name {F : Type} `{Float32 F} :
  texture_ids_around_resize (F:=F) = Some (1, 1).
Proof. vm_compute. reflexivity. Qed.

(** ** The claims on concrete inputs *)

Lemma triangle_args_valid (ind_count : Z) (inds : list Z) c_colors c_count :
  Z.of_nat (length inds) = ind_count ->
  c_colors = None \/
    (0 <= c_count /\ c_count * 4 <= INT32_MAX /\ array_of c_colors (c_count * 4)) ->
  valid_mesh_args (F:=R) (Some triangle_verts) 3 (Some inds) ind_count None
    c_colors c_count.
Proof.
  intros Hinds Hcc. split; [lia|]. split; [unfold INT32_MAX; lia|].
  split; [exists triangle_verts; split; reflexivity|].
  split; [exists inds; split; [reflexivity|exact Hinds]|].
  split; [left; reflexivity|exact Hcc].
Qed.

(** C1. The code keeps the per-cell colours of an earlier upload when a
    later upload passes a null pointer for them: after uploading a triangle
    with one red cell and then the same triangle with no cell colours and a
    cell count of zero, the stored cell colours are still the red ones
    while [cell_count] is 0. *)
Theorem stale_cell_colors_survive :
  exists m1 m2 : @Machine R,
    update_mesh_data (Some triangle_verts) 3 (Some [0; 1; 2]) 3 None (Some red) 1
      fresh_machine = Some (tt, m1) /\
    update_mesh_data (Some triangle_verts) 3 (Some [0; 1; 2]) 3 None None 0
      m1 = Some (tt, m2) /\
    cell_colors (this m2) = red /\
    cell_count (this m2) = 0.
Proof.
  destruct (update_mesh_data_run (F:=R) fresh_machine
              (Some triangle_verts) 3 (Some [0; 1; 2]) 3 None (Some red) 1)
    as (m1 & Hrun1 & Hthis1).
  { apply triangle_args_valid; [reflexivity|].
    right. split; [lia|]. split; [unfold INT32_MAX; lia|].
    exists red. split; reflexivity. }
  destruct (update_mesh_data_run (F:=R) m1
              (Some triangle_verts) 3 (Some [0; 1; 2]) 3 None None 0)
    as (m2 & Hrun2 & Hthis2).
  { apply triangle_args_valid; [reflexivity|left; reflexivity]. }
  exists m1, m2. split; [exact Hrun1|]. split; [exact Hrun2|].
  rewrite Hthis2, Hthis1. eval_members. split; reflexivity.
Qed.

(** C8 as stated fails: an upload of two indices is within the contract
    and leaves [index_count] at 2, which is not a multiple of 3. *)
Lemma index_count_two_not_multiple_of_3 :
  exists m' : @Machine R,
    valid_mesh_args (F:=R) (Some triangle_verts) 3 (Some [0; 1]) 2 None None 0 /\
    update_mesh_data (Some triangle_verts) 3 (Some [0; 1]) 2 None None 0
      fresh_machine = Some (tt, m') /\
    index_count (this m') mod 3 <> 0.
Proof.
  assert (Hvalid : valid_mesh_args (F:=R) (Some triangle_verts) 3 (Some [0; 1]) 2
                     None None 0)
    by (apply triangle_args_valid; [reflexivity|left; reflexivity]).
  destruct (update_mesh_data_run (F:=R) fresh_machine _ _ _ _ _ _ _ Hvalid)
    as (m' & Hrun & Hthis).
  exists m'. split; [exact Hvalid|]. split; [exact Hrun|].
  rewrite Hthis. eval_members. discriminate.
Qed.

(** C4 as stated fails: with a driver that keeps to the naming rules of
    OpenGL, the identifier obtained before a resize is the identifier of
    the render target after it. *)
Lemma resize_reuses_texture_name :
  driver_names_fresh compact_driver /\
  texture_ids_around_resize (F:=R) = Some (1, 1).
Proof. split; [apply compact_driver_fresh | apply compact_driver_reuses_name]. Qed.

Lemma render_empty_mesh_fast_path_witness :
  exists (m' : @Machine R),
    render compact_driver fresh_machine = Some (texture (this fresh_machine), m') /\
    filter (fun c => is_draw c = true) (render_calls compact_driver (this fresh_machine)) = [].
Proof.
  destruct (render_empty_mesh_fast_path (F:=R) compact_driver fresh_machine empty_process
              bump_allocator 800 600 4096 zeroed_storage)
    as [(m' & Hrender & _ & _ & Hdraw) _].
  - left. reflexivity.
  - reflexivity.
  - unfold nullptr. lia.
  - simpl. rewrite dom_empty_L. apply not_elem_of_empty.
  - exists m'. split; [exact Hrender|exact Hdraw].
Defined.

Lemma render_matrices_witness :
  exists m' : @Machine R,
    render compact_driver {| this := triangle_object; world := empty_world |}
    = Some (texture triangle_object, m') /\
    glm.mat4_mul_vec4 (view_matrix (F:=R) triangle_object)
      (glm.Vec4 1%R 2%R 3%R (f_lit 1))
    = glm.Vec4 1%R 2%R (f_sub 3%R (zoom triangle_object)) (f_lit 1) /\
    glm.w4 (glm.mat4_mul_vec4 (projection_matrix (F:=R) triangle_object)
              (glm.Vec4 1%R 2%R 3%R 1%R))
    = f_neg 3%R.
Proof.
  pose proof (render_matrices (F:=R) compact_driver
                {| this := triangle_object; world := empty_world |}) as Hmatrices.
  cbv zeta in Hmatrices.
  destruct Hmatrices as (m' & Hrender & _ & _ & _ & _ & _ & _ & Hexact).
  - simpl. lia.
  - simpl. lia.
  - destruct (Hexact R_ExactArith 1%R 2%R 3%R 1%R) as (_ & Hview & Hproj).
    exists m'. split; [exact Hrender|]. split; [exact Hview|].
    exact (f_equal glm.w4 Hproj).
Defined.


Lemma mesh_snapshot_invariant_witness :
  exists m' : @Machine R,
    update_mesh_data (Some triangle_verts) 3 (Some [0; 1; 2]) 3 None (Some red) 1
      fresh_machine = Some (tt, m') /\
    Z.of_nat (length (vertices (this m'))) = vertex_count (this m') * 3 /\
    index_count (this m') = 3.
Proof.
  destruct (mesh_snapshot_invariant (F:=R) fresh_machine
              (Some triangle_verts) 3 (Some [0; 1; 2]) 3 None (Some red) 1)
    as (m' & Hrun & Hlen & _ & Hic & _).
  - apply triangle_args_valid; [reflexivity|].
    right. split; [lia|]. split; [unfold INT32_MAX; lia|]. exists red. split; reflexivity.
  - exists m'. split; [exact Hrun|]. split; [exact Hlen|exact Hic].
Defined.

Lemma fresh_renderer_defaults_witness :
  exists (p1 : @Process R) obj p2 obj2,
    foam_renderer_create compact_driver bump_allocator 800 600 empty_process
      = Some (4096, p1) /\
    object_at p1 4096 = Some obj /\ has_defaults obj /\
    run_calls compact_driver 4096 [call_render; call_resize 1024 768; call_get_texture] p1
      = Some (tt, p2) /\
    object_at p2 4096 = Some obj2 /\ has_defaults obj2.
Proof.
  apply (fresh_renderer_defaults (F:=R) compact_driver empty_process bump_allocator
           800 600 4096 zeroed_storage).
  - reflexivity.
  - unfold nullptr. lia.
  - simpl. rewrite dom_empty_L. apply not_elem_of_empty.
  - reflexivity.
Defined.

Lemma texture_identifier_stability_witness :
  exists p1 : @Process R,
    run_calls compact_driver 4096
      [call_set_mode REPRESENTATION_WIREFRAME DATA_MODE_CELL; call_get_texture]
      triangle_process = Some (tt, p1) /\
    exists q1,
      foam_renderer_render compact_driver 4096 p1 = Some (texture triangle_object, q1).
Proof.
  eexists. split; [reflexivity|].
  match goal with
  | |- exists q1, foam_renderer_render _ _ ?p1 = _ =>
      destruct (texture_identifier_stability (F:=R) compact_driver triangle_process p1 4096
                  triangle_object
                  [call_set_mode REPRESENTATION_WIREFRAME DATA_MODE_CELL; call_get_texture]
                  1024 768)
        as (q & q1 & obj1 & p2 & obj2 & complete & Hr & Hr1 & _)
  end.
  - unfold nullptr. lia.
  - reflexivity.
  - reflexivity.
  - reflexivity.
  - exists q1. exact Hr1.
Defined.

(** * Further properties of the code *)

Section WorldRules.
Context {F : Type} `{Float32 F}.

Lemma keeps_world_ret {A} (a : A) : keeps_world (F:=F) (ret a).
Proof. by intros m a' m' [= _ <-]. Qed.

Lemma keeps_world_bind {A B} (op : Method A) (k : A -> Method B) :
  keeps_world (F:=F) op -> (forall a, keeps_world (k a)) -> keeps_world (bind op k).
Proof.
  intros Hop Hk m b m2 Hrun. apply bind_inv in Hrun as (a & m1 & H1 & H2).
  rewrite (Hk _ _ _ _ H2). apply (Hop _ _ _ H1).
Qed.

Lemma keeps_world_if {A} (b : bool) (op1 op2 : Method A) :
  keeps_world (F:=F) op1 -> keeps_world op2 -> keeps_world (if b then op1 else op2).
Proof. by destruct b. Qed.

Lemma keeps_world_lift {A} (o : option A) : keeps_world (F:=F) (lift o).
Proof. intros m a m'. unfold lift. destruct o; [|done]. by intros [= _ <-]. Qed.

Lemma keeps_world_read {A} (member : FoamRenderer F -> A) : keeps_world (read member).
Proof. by intros m a m' [= _ <-]. Qed.

Lemma keeps_world_assign f : keeps_world (assign (F:=F) f).
Proof. by intros m a m' [= _ <-]. Qed.

Lemma keeps_world_for_int n i body :
  (forall j, keeps_world (F:=F) (body j)) -> keeps_world (for_int n i body).
Proof.
  intros Hbody. revert i. induction n as [|n IH]; intros i; simpl.
  - apply keeps_world_ret.
  - apply keeps_world_bind; [apply Hbody | intros _; apply IH].
Qed.

Lemma emits_bind {A B} (op : Method A) (k : A -> Method B) f :
  keeps_world (F:=F) op -> (forall a, emits (k a) f) -> emits (bind op k) f.
Proof.
  intros Hop Hk m b m2 Hrun. apply bind_inv in Hrun as (a & m1 & H1 & H2).
  rewrite (Hk _ _ _ _ H2). by rewrite (Hop _ _ _ H1).
Qed.

End WorldRules.

Create HintDb keeps_world.
#[local] Hint Resolve keeps_world_ret keeps_world_lift keeps_world_read
  keeps_world_assign : keeps_world.

Ltac step_keeps_world :=
  repeat first
    [ apply keeps_world_bind; [|intros ?]
    | apply keeps_world_if
    | apply keeps_world_for_int; intros ?
    | progress auto with keeps_world
    | progress unfold store_vertex_color ].

Section UploadProofs.
Context {F : Type} `{Float32 F}.

Lemma upload_makes_calls (self : FoamRenderer F) :
  makes_calls self upload_mesh_to_gpu tt (upload_calls self).
Proof.
  eassert (Hcs : makes_calls self upload_mesh_to_gpu tt _).
  { unfold upload_mesh_to_gpu.
    eapply makes_calls_bind; [apply makes_calls_get_this|]. cbv beta. step_calls. }
  exact Hcs.
Qed.

Lemma emits_upload : emits (upload_mesh_to_gpu (F:=F)) upload_calls.
Proof.
  intros [self w] a m'. rewrite (upload_makes_calls self w). by intros [= _ <-].
Qed.

Lemma emits_update_mesh_data v vc i ic cs ccs cc :
  emits (update_mesh_data (F:=F) v vc i ic cs ccs cc) upload_calls.
Proof.
  unfold update_mesh_data. destruct cs, ccs.
  all: repeat lazymatch goal with
              | |- emits (bind _ _) _ => apply emits_bind; [step_keeps_world | intros ?]
              end.
  all: apply emits_upload.
Qed.

(* the five data uploads of [upload_mesh_to_gpu], by the buffer they go to *)
Lemma upload_calls_by_buffer (r : FoamRenderer F) bound :
  uploads_by_buffer bound (upload_calls r) =
  [ (surface_vbo r, Z.of_nat (length (vertices r)) * sizeof_float, FloatData (vertices r));
    (surface_color_vbo r, Z.of_nat (length (vertex_colors r)) * sizeof_float,
     FloatData (vertex_colors r));
    (surface_ebo r, Z.of_nat (length (indices r)) * sizeof_uint32_t, UIntData (indices r));
    (edge_vbo r, Z.of_nat (length (vertices r)) * sizeof_float, FloatData (vertices r));
    (edge_ebo r, Z.of_nat (length (indices r)) * sizeof_uint32_t, UIntData (indices r)) ].
Proof. reflexivity. Qed.

Lemma update_mesh_preserves_surroundings v vc i ic cs ccs cc :
  preserves surroundings (update_mesh_data (F:=F) v vc i ic cs ccs cc).
Proof.
  unfold update_mesh_data. step_preserves; destruct cs, ccs; step_preserves.
Qed.

(** X1. A call of update_mesh within the contract hands the graphics
    library exactly the arrays it was given: the positions go to
    [surface_vbo] and again to [edge_vbo], [12 * vertex_count] bytes each,
    the indices to [surface_ebo] and again to [edge_ebo],
    [4 * index_count] bytes each, and the vertex colours (the caller's, or
    the default ones) to [surface_color_vbo], [16 * vertex_count] bytes.
    It makes no other call than those of [upload_mesh_to_gpu], creates and
    deletes no object and writes nothing to [std::cerr]. *)
Theorem update_mesh_uploads_what_it_stores (m : @Machine F)
    verts vert_count inds ind_count colors c_colors c_count :
  valid_mesh_args verts vert_count inds ind_count colors c_colors c_count ->
  exists m',
    update_mesh_data verts vert_count inds ind_count colors c_colors c_count m
      = Some (tt, m') /\
    gl_objects (world m') = gl_objects (world m) /\
    cerr (world m') = cerr (world m) /\
    calls_between (world m) (world m') (upload_calls (this m')) /\
    forall bound,
      uploads_by_buffer bound (upload_calls (this m')) =
      let shown := match colors with
                   | Some c => c
                   | None => concat (replicate (Z.to_nat vert_count) default_color)
                   end in
      [ (surface_vbo (this m), vert_count * 3 * sizeof_float, FloatData (contents verts));
        (surface_color_vbo (this m), vert_count * 4 * sizeof_float, FloatData shown);
        (surface_ebo (this m), ind_count * sizeof_uint32_t, UIntData (contents inds));
        (edge_vbo (this m), vert_count * 3 * sizeof_float, FloatData (contents verts));
        (edge_ebo (this m), ind_count * sizeof_uint32_t, UIntData (contents inds)) ].
Proof.
  intros Hvalid.
  destruct (update_mesh_data_run m _ _ _ _ _ _ _ Hvalid) as (m' & Hrun & Hthis).
  exists m'. split; [exact Hrun|].
  rewrite (emits_update_mesh_data _ _ _ _ _ _ _ _ _ _ Hrun).
  split; [reflexivity|]. split; [reflexivity|]. split; [reflexivity|].
  intros bound. rewrite upload_calls_by_buffer, Hthis. cbv zeta.
  cbn [surface_vbo surface_color_vbo surface_ebo edge_vbo edge_ebo vertices indices
       vertex_colors set_cell_colors set_vertex_colors set_indices set_vertices
       set_cell_count set_index_count set_vertex_count].
  destruct Hvalid as (Hvc & _ & (vs & -> & Hvs) & (ixs & -> & Hixs) & Hcolors & _).
  cbn [contents]. rewrite Hvs, Hixs.
  destruct Hcolors as [->|(c & -> & Hc)].
  - rewrite concat_replicate_length. cbn [default_color length].
    replace (Z.of_nat (Z.to_nat vert_count * 4)) with (vert_count * 4) by lia.
    reflexivity.
  - rewrite Hc. reflexivity.
Qed.

(** X2. A call of update_mesh within the contract leaves the view
    parameters, the display mode, the size, the window and every object
    name of the renderer as they were. *)
Theorem update_mesh_keeps_surroundings (m : @Machine F)
    verts vert_count inds ind_count colors c_colors c_count :
  valid_mesh_args verts vert_count inds ind_count colors c_colors c_count ->
  exists m',
    update_mesh_data verts vert_count inds ind_count colors c_colors c_count m
      = Some (tt, m') /\
    ViewState (this m') = ViewState (this m) /\
    DisplayMode (this m') = DisplayMode (this m) /\
    resources (this m') = resources (this m).
Proof.
  intros Hvalid.
  destruct (update_mesh_data_run m _ _ _ _ _ _ _ Hvalid) as (m' & Hrun & _).
  exists m'. split; [exact Hrun|].
  pose proof (update_mesh_preserves_surroundings _ _ _ _ _ _ _ _ _ _ Hrun) as Hs.
  split; [exact (f_equal (fun s => s.1.1) Hs)|].
  split; [exact (f_equal (fun s => s.1.2) Hs)|exact (f_equal snd Hs)].
Qed.

(** X3. When the caller passes per-cell colours, the mesh snapshot after a
    call of update_mesh within the contract is made of the arguments alone:
    nothing of what was stored before is left. *)
Theorem update_mesh_replaces_snapshot (m : @Machine F)
    verts vert_count inds ind_count colors cc c_count :
  valid_mesh_args verts vert_count inds ind_count colors (Some cc) c_count ->
  exists m',
    update_mesh_data verts vert_count inds ind_count colors (Some cc) c_count m
      = Some (tt, m') /\
    MeshSnapshot (this m') =
      (contents verts, contents inds,
       match colors with
       | Some c => c
       | None => concat (replicate (Z.to_nat vert_count) default_color)
       end,
       cc, vert_count, ind_count, c_count).
Proof.
  intros Hvalid.
  destruct (update_mesh_data_run m _ _ _ _ _ _ _ Hvalid) as (m' & Hrun & Hthis).
  exists m'. split; [exact Hrun|]. rewrite Hthis. reflexivity.
Qed.

End UploadProofs.

(** ** When a mesh upload is defined *)

Section MeshDefined.
Context {F : Type} `{Float32 F}.
Variable drv : Driver.

Lemma read_range_readable {A} (p : option (list A)) n :
  readable p n -> read_range p n = Some (range p n).
Proof.
  intros [Hn Hp]. unfold read_range, range.
  rewrite (proj2 (Z.ltb_ge _ _)) by lia.
  destruct (n =? 0) eqn:Hz.
  - apply Z.eqb_eq in Hz as ->. reflexivity.
  - apply Z.eqb_neq in Hz. destruct Hp as [?|(a & -> & Hlen)]; [lia|].
    by rewrite (proj2 (Z.leb_le _ _)) by lia.
Qed.

Lemma read_range_inv {A} (p : option (list A)) n l :
  read_range p n = Some l -> readable p n.
Proof.
  unfold read_range, readable.
  destruct (n <? 0) eqn:Hneg; [done|]. apply Z.ltb_ge in Hneg.
  destruct (n =? 0) eqn:Hz.
  - apply Z.eqb_eq in Hz. intros _. split; [lia|by left].
  - destruct p as [a|]; [|done].
    destruct (n <=? Z.of_nat (length a)) eqn:Hle; [|done].
    apply Z.leb_le in Hle. intros _. split; [done|]. right. by exists a.
Qed.

Lemma int_result_inv r n : int_result r = Some n -> n = r /\ INT32_MIN <= r <= INT32_MAX.
Proof.
  unfold int_result.
  destruct (INT32_MIN <=? r) eqn:Hlo, (r <=? INT32_MAX) eqn:Hhi; try done.
  apply Z.leb_le in Hlo, Hhi. by intros [= <-].
Qed.

Lemma lift_inv {A} (o : option A) (m : @Machine F) a m' :
  lift o m = Some (a, m') -> o = Some a /\ m' = m.
Proof. unfold lift. destruct o; [|done]. by intros [= -> ->]. Qed.

(* a call on defined arguments returns, and stores the ranges it read *)
Lemma update_mesh_data_defined_run (m : @Machine F) verts vert_count inds ind_count
    colors c_colors c_count :
  defined_mesh_args verts vert_count inds ind_count colors c_colors c_count ->
  exists m',
    update_mesh_data verts vert_count inds ind_count colors c_colors c_count m
      = Some (tt, m') /\
    this m' = with_mesh verts vert_count inds ind_count colors c_colors c_count (this m).
Proof.
  intros (Hverts & Hmax & Hinds & Hcolors & Hccolors).
  assert (Hvc : 0 <= vert_count) by (destruct Hverts; lia).
  assert (Hmin : INT32_MIN < 0) by done.
  assert (Hn3 : int_mul vert_count 3 = Some (vert_count * 3))
    by (apply int_result_in_range; lia).
  assert (Hn4 : int_mul vert_count 4 = Some (vert_count * 4))
    by (apply int_result_in_range; lia).
  assert (Hresize : forall old : list F,
            vector_resize (f_lit 0) (vert_count * 4) old
            = Some (take (Z.to_nat (vert_count * 4)) old
                    ++ replicate (Z.to_nat (vert_count * 4) - length old) (f_lit 0))).
  { intros old. unfold vector_resize. by rewrite (proj2 (Z.ltb_ge _ _)) by lia. }
  assert (Hloop : forall m1 : @Machine F,
            vertex_colors (this m1)
            = take (Z.to_nat (vert_count * 4)) (vertex_colors (this m))
              ++ replicate (Z.to_nat (vert_count * 4) - length (vertex_colors (this m)))
                   (f_lit 0) ->
            for_int (Z.to_nat vert_count) 0 (fun i =>
              store_vertex_color i 0 (f_lit 0.5) ;;
              store_vertex_color i 1 (f_lit 0.7) ;;
              store_vertex_color i 2 (f_lit 1.0) ;;
              store_vertex_color i 3 (f_lit 1.0))%op m1
            = Some (tt, {| this := set_vertex_colors
                                     (concat (replicate (Z.to_nat vert_count) default_color))
                                     (this m1);
                           world := world m1 |})).
  { intros m1 Hm1.
    assert (Hfull : (4 * Z.to_nat vert_count
                     <= length (take (Z.to_nat (vert_count * 4)) (vertex_colors (this m))
                                ++ replicate (Z.to_nat (vert_count * 4)
                                              - length (vertex_colors (this m))) (f_lit 0)))%nat)
      by (rewrite length_app, length_take, length_replicate; lia).
    erewrite (default_color_loop (Z.to_nat vert_count) m1 0 []);
      [|lia|lia|done|exact Hfull|exact Hm1].
    rewrite drop_ge by (rewrite length_app, length_take, length_replicate; lia).
    by rewrite app_nil_r. }
  unfold update_mesh_data, with_mesh. destruct m as [self w]. simpl in Hloop, Hresize |- *.
  destruct colors as [c|], c_colors as [cc|].
  all: do 3 (eapply run_bind_ex; [apply run_assign|]).
  all: eapply run_bind_ex; [apply run_lift_some, Hn3|].
  all: eapply run_bind_ex; [apply run_lift_some, (read_range_readable _ _ Hverts)|].
  all: eapply run_bind_ex; [apply run_assign|].
  all: eapply run_bind_ex; [apply run_lift_some, (read_range_readable _ _ Hinds)|].
  all: eapply run_bind_ex; [apply run_assign|].
  all: eapply run_bind_ex; [apply run_lift_some, Hn4|].
  (* the vertex colours: defaults, or the caller's *)
  all: eapply run_bind_ex;
    [ first
        [ eapply run_bind; [apply run_read|];
          eapply run_bind; [apply run_lift_some, Hresize|];
          eapply run_bind; [apply run_assign|];
          apply Hloop; reflexivity
        | eapply run_bind;
            [apply run_lift_some, (read_range_readable (Some c)), Hcolors; done|];
          apply run_assign ] |].
  (* the cell colours: the caller's, or none *)
  all: eapply run_bind_ex;
    [ first
        [ eapply run_bind;
            [apply run_lift_some, (int_result_in_range (c_count * 4));
             destruct Hccolors as [? [? _]]; [done|lia]|];
          eapply run_bind;
            [apply run_lift_some, (read_range_readable (Some cc)), Hccolors; done|];
          apply run_assign
        | apply (eq_refl : ret tt _ = Some (tt, _)) ] |].
  (* the upload changes nothing in the object *)
  all: match goal with
       | |- exists m', upload_mesh_to_gpu ?mk = _ /\ _ =>
           exists {| this := this mk; world := add_calls (upload_calls (this mk)) (world mk) |};
           split; [apply upload_makes_calls|]
       end.
  all: destruct self; eval_members; reflexivity.
Qed.

(* what a returning call tells about its arguments *)
Lemma update_mesh_data_inv (m m' : @Machine F) verts vert_count inds ind_count
    colors c_colors c_count :
  update_mesh_data verts vert_count inds ind_count colors c_colors c_count m
    = Some (tt, m') ->
  defined_mesh_args verts vert_count inds ind_count colors c_colors c_count.
Proof.
  unfold update_mesh_data. intros Hrun.
  do 3 apply bind_inv in Hrun as (? & ? & _ & Hrun).
  apply bind_inv in Hrun as (n3 & ? & Hn3 & Hrun).
  apply lift_inv in Hn3 as [Hn3 _]. apply int_result_inv in Hn3 as [-> Hn3].
  apply bind_inv in Hrun as (? & ? & Hverts & Hrun).
  apply lift_inv in Hverts as [Hverts _]. apply read_range_inv in Hverts.
  apply bind_inv in Hrun as (? & ? & _ & Hrun).
  apply bind_inv in Hrun as (? & ? & Hinds & Hrun).
  apply lift_inv in Hinds as [Hinds _]. apply read_range_inv in Hinds.
  apply bind_inv in Hrun as (? & ? & _ & Hrun).
  apply bind_inv in Hrun as (n4 & ? & Hn4 & Hrun).
  apply lift_inv in Hn4 as [Hn4 _]. apply int_result_inv in Hn4 as [-> Hn4].
  apply bind_inv in Hrun as (? & ? & Hcolors & Hrun).
  apply bind_inv in Hrun as (? & ? & Hccolors & _).
  split; [exact Hverts|]. split; [lia|]. split; [exact Hinds|]. split.
  - destruct colors as [c|]; [|done]. intros _.
    apply bind_inv in Hcolors as (? & ? & Hc & _).
    apply lift_inv in Hc as [Hc _]. by apply read_range_inv in Hc.
  - destruct c_colors as [cc|]; [|done]. intros _.
    apply bind_inv in Hccolors as (c4 & ? & Hc4 & Hccolors).
    apply lift_inv in Hc4 as [Hc4 _]. apply int_result_inv in Hc4 as [-> Hc4].
    apply bind_inv in Hccolors as (? & ? & Hcc & _).
    apply lift_inv in Hcc as [Hcc _]. apply read_range_inv in Hcc.
    split; [lia|exact Hcc].
Qed.

(** X4. [update_mesh_data] has defined behaviour exactly when every range
    it reads is readable and the element counts fit in an [int]: the
    positions hold [3 * vertex_count] floats, the indices [index_count]
    values, the vertex colours (when given) [4 * vertex_count] floats, the
    cell colours (when given) [4 * cell_count] floats, no count read is
    negative, and [4 * vertex_count] and (with cell colours)
    [4 * cell_count] are at most [INT32_MAX].  A null pointer is allowed
    where the count is zero; [cell_count] is unconstrained when the cell
    colours are null.  When defined, the call stores the ranges it read. *)
Theorem update_mesh_defined_iff (m : @Machine F)
    verts vert_count inds ind_count colors c_colors c_count :
  (exists m',
     update_mesh_data verts vert_count inds ind_count colors c_colors c_count m
       = Some (tt, m') /\
     this m' = with_mesh verts vert_count inds ind_count colors c_colors c_count (this m))
  <-> defined_mesh_args verts vert_count inds ind_count colors c_colors c_count.
Proof.
  split.
  - intros (m' & Hrun & _). apply (update_mesh_data_inv _ _ _ _ _ _ _ _ _ Hrun).
  - apply update_mesh_data_defined_run.
Qed.

(** X5. An upload of zero vertices and zero indices is defined whatever the
    pointers are, null included: it empties the stored positions, indices
    and vertex colours, keeps the stored cell colours when none are passed,
    and the next [render] returns the texture identifier without a draw
    call. *)
Theorem update_mesh_empty_clears (m : @Machine F) verts inds colors c_count :
  exists m' m'',
    update_mesh_data verts 0 inds 0 colors None c_count m = Some (tt, m') /\
    (vertices (this m'), indices (this m'), vertex_colors (this m')) = ([], [], []) /\
    (vertex_count (this m'), index_count (this m'), cell_count (this m')) = (0, 0, c_count) /\
    cell_colors (this m') = cell_colors (this m) /\
    render drv m' = Some (texture (this m), m'') /\
    filter (fun c => is_draw c = true) (render_calls drv (this m')) = [].
Proof.
  destruct (update_mesh_data_defined_run m verts 0 inds 0 colors None c_count)
    as (m' & Hrun & Hthis).
  { assert (Hr : forall A (p : option (list A)), readable p 0) by (by split; [|left]).
    split; [apply Hr|]. split; [done|]. split; [apply Hr|]. split; [intros _; apply Hr|done]. }
  exists m'. eexists. split; [exact Hrun|].
  assert (Hvc : vertex_count (this m') = 0) by (by rewrite Hthis).
  split; [|split; [|split; [|split]]].
  - rewrite Hthis. unfold with_mesh, range. by destruct colors.
  - by rewrite Hthis.
  - by rewrite Hthis.
  - rewrite render_run. by rewrite Hthis.
  - by rewrite (render_calls_empty drv _ (or_introl Hvc)).
Qed.

End MeshDefined.

(** ** The view and the mode, and the frame after them *)

Section ViewAndMode.
Context {F : Type} `{Float32 F}.
Variable drv : Driver.

Lemma set_view_on_handle (p : @Process F) handle obj rx ry z cx cy cz :
  handle <> nullptr -> object_at p handle = Some obj ->
  foam_renderer_set_view handle rx ry z cx cy cz p
  = Some (tt, {| heap := <[handle := set_mesh_center (glm.Vec3 cx cy cz)
                                       (set_zoom z (set_rotation_y ry (set_rotation_x rx obj)))]>
                           (heap p);
                 outside := outside p |}).
Proof.
  intros Hh Hobj. unfold foam_renderer_set_view.
  rewrite (proj2 (Z.eqb_neq _ _) Hh). cbn [negb].
  by rewrite (on_object_run _ _ _ _ _ _ Hobj eq_refl).
Qed.

Lemma set_mode_on_handle (p : @Process F) handle obj r d :
  handle <> nullptr -> object_at p handle = Some obj ->
  foam_renderer_set_mode handle r d p
  = Some (tt, {| heap := <[handle := set_data_mode d (set_representation r obj)]> (heap p);
                 outside := outside p |}).
Proof.
  intros Hh Hobj. unfold foam_renderer_set_mode.
  rewrite (proj2 (Z.eqb_neq _ _) Hh). cbn [negb].
  by rewrite (on_object_run _ _ _ _ _ _ Hobj eq_refl).
Qed.

(* the calls of a frame are a function of the members [render] reads *)
Lemma render_calls_ext (r r' : FoamRenderer F) :
  render_inputs r = render_inputs r' -> render_calls drv r = render_calls drv r'.
Proof.
  unfold render_inputs, ViewState. intros Hin.
  assert (Hvc : vertex_count r = vertex_count r') by (injection Hin; auto).
  assert (Hic : index_count r = index_count r') by (injection Hin; auto).
  destruct (decide (vertex_count r = 0 \/ index_count r = 0)) as [Hempty|Hmesh].
  - rewrite (render_calls_empty drv r Hempty).
    rewrite (render_calls_empty drv r') by (rewrite <- Hvc, <- Hic; exact Hempty).
    injection Hin; intros.
    repeat match goal with E : _ = _ |- _ => rewrite E; clear E end. reflexivity.
  - rewrite (render_calls_mesh drv r) by tauto.
    rewrite (render_calls_mesh drv r') by (rewrite <- ?Hvc, <- ?Hic; tauto).
    unfold draws_surface, draws_edges, surface_pass, edge_pass, model_matrix, view_matrix,
      projection_matrix.
    clear Hvc Hic. injection Hin; intros.
    repeat match goal with E : _ = _ |- _ => rewrite E; clear E end. reflexivity.
Qed.

(** X6. [foam_renderer_set_view] on a live handle makes no call to the
    graphics library and overwrites the two rotations, the zoom and the
    mesh centre with its arguments as given (no clamping, no check),
    leaving the mesh, the mode and every object name alone.  The next
    [render] builds its matrices from these values: the model matrix is
    the translation by minus the centre passed, rotated by the [rotation_y]
    passed about Y and then by the [rotation_x] passed about X; the view
    matrix is the translation by [(0, 0, -zoom)]. *)
Theorem set_view_then_render (p : @Process F) (handle : pointer) (obj : FoamRenderer F)
    (rx ry z cx cy cz : F) :
  handle <> nullptr ->
  object_at p handle = Some obj ->
  exists p1 obj1 p2,
    foam_renderer_set_view handle rx ry z cx cy cz p = Some (tt, p1) /\
    outside p1 = outside p /\
    object_at p1 handle = Some obj1 /\
    ViewState obj1 = (rx, ry, z, glm.Vec3 cx cy cz) /\
    MeshSnapshot obj1 = MeshSnapshot obj /\
    DisplayMode obj1 = DisplayMode obj /\
    resources obj1 = resources obj /\
    foam_renderer_render drv handle p1 = Some (texture obj, p2) /\
    calls_between (outside p1) (outside p2) (render_calls drv obj1) /\
    model_matrix obj1 =
      glm.rotate
        (glm.rotate
           (glm.translate (glm.mat4_diag (f_lit 1.0))
              (glm.Vec3 (f_neg cx) (f_neg cy) (f_neg cz)))
           ry (glm.Vec3 (f_lit 0.0) (f_lit 1.0) (f_lit 0.0)))
        rx (glm.Vec3 (f_lit 1.0) (f_lit 0.0) (f_lit 0.0)) /\
    view_matrix obj1 =
      glm.translate (glm.mat4_diag (f_lit 1.0))
        (glm.Vec3 (f_lit 0.0) (f_lit 0.0) (f_neg z)) /\
    (vertex_count obj <> 0 -> index_count obj <> 0 ->
     matrix_uploads (render_calls drv obj1) =
       (if draws_surface obj then pass_uploads drv (surface_shader obj) obj1 else [])
       ++ (if draws_edges obj then pass_uploads drv (edge_shader obj) obj1 else [])).
Proof.
  intros Hh Hobj.
  set (obj1 := set_mesh_center (glm.Vec3 cx cy cz)
                 (set_zoom z (set_rotation_y ry (set_rotation_x rx obj)))).
  set (p1 := {| heap := <[handle := obj1]> (heap p); outside := outside p |}).
  assert (Hobj1 : object_at p1 handle = Some obj1) by apply lookup_insert_eq.
  exists p1, obj1. eexists.
  split; [by apply set_view_on_handle|]. split; [done|]. split; [exact Hobj1|].
  split; [done|]. split; [done|]. split; [done|]. split; [done|].
  split; [apply (render_on_handle drv p1 handle obj1 Hh Hobj1)|].
  split; [done|]. split; [done|]. split; [done|].
  intros Hv Hi. apply (render_mesh_uploads drv obj1 Hv Hi).
Qed.

(** X7. [foam_renderer_set_mode] on a live handle makes no call to the
    graphics library and stores the representation and the data mode.  For
    a mesh that is not empty the next [render] draws once for the
    wireframe and the surface representations and twice for surface with
    edges; the edge pass is what sets the polygon mode to lines and back
    to fill, with the edge colour [(0.25, 0.5, 1.0, 1.0)] for a wireframe
    and [(0, 0, 0, 0.3)] over a surface.  With a representation that is
    none of the three enumerators neither pass runs: nothing is drawn.
    The data mode stored has no effect on the calls of the frame. *)
Theorem set_mode_then_render (p : @Process F) (handle : pointer) (obj : FoamRenderer F)
    (r : MeshRepresentation) (d : DataMode) :
  handle <> nullptr ->
  object_at p handle = Some obj ->
  vertex_count obj <> 0 -> index_count obj <> 0 ->
  exists p1 obj1 p2,
    foam_renderer_set_mode handle r d p = Some (tt, p1) /\
    outside p1 = outside p /\
    object_at p1 handle = Some obj1 /\
    DisplayMode obj1 = (r, d) /\
    MeshSnapshot obj1 = MeshSnapshot obj /\
    ViewState obj1 = ViewState obj /\
    resources obj1 = resources obj /\
    foam_renderer_render drv handle p1 = Some (texture obj, p2) /\
    calls_between (outside p1) (outside p2) (render_calls drv obj1) /\
    render_calls drv obj1 = render_calls drv (set_representation r obj) /\
    let draw := glDrawElements GL_TRIANGLES (index_count obj) GL_UNSIGNED_INT 0 in
    let color_loc := drv_uniform_location drv (edge_shader obj) "edgeColor" in
    filter (fun c => is_draw c = true) (render_calls drv obj1) =
      match r with
      | REPRESENTATION_WIREFRAME | REPRESENTATION_SURFACE => [draw]
      | REPRESENTATION_SURFACE_WITH_EDGES => [draw; draw]
      | REPRESENTATION_other _ => []
      end /\
    polygon_modes (render_calls drv obj1) =
      match r with
      | REPRESENTATION_WIREFRAME | REPRESENTATION_SURFACE_WITH_EDGES => [GL_LINE; GL_FILL]
      | REPRESENTATION_SURFACE | REPRESENTATION_other _ => []
      end /\
    color_uploads (render_calls drv obj1) =
      match r with
      | REPRESENTATION_WIREFRAME =>
          [(color_loc, (f_lit 0.25, f_lit 0.5, f_lit 1.0, f_lit 1.0))]
      | REPRESENTATION_SURFACE_WITH_EDGES =>
          [(color_loc, (f_lit 0.0, f_lit 0.0, f_lit 0.0, f_lit 0.3))]
      | REPRESENTATION_SURFACE | REPRESENTATION_other _ => []
      end.
Proof.
  intros Hh Hobj Hv Hi.
  set (obj1 := set_data_mode d (set_representation r obj)).
  set (p1 := {| heap := <[handle := obj1]> (heap p); outside := outside p |}).
  assert (Hobj1 : object_at p1 handle = Some obj1) by apply lookup_insert_eq.
  exists p1, obj1. eexists.
  split; [by apply set_mode_on_handle|]. split; [done|]. split; [exact Hobj1|].
  split; [done|]. split; [done|]. split; [done|]. split; [done|].
  split; [apply (render_on_handle drv p1 handle obj1 Hh Hobj1)|].
  split; [done|]. split; [by apply render_calls_ext|]. cbv zeta.
  rewrite (render_calls_mesh drv obj1 Hv Hi).
  unfold draws_surface, draws_edges, edge_pass, surface_pass.
  subst obj1. destruct r; eval_decisions; cbn [orb]; by repeat split.
Qed.

End ViewAndMode.

(** ** What a frame reads and what it leaves behind *)

Section FrameShape.
Context {F : Type} `{Float32 F}.
Variable drv : Driver.

(** X8. The calls of a frame depend on nothing but the window, the render
    target and its size, the two counts, the view parameters, the
    representation and the two shader programs and vertex arrays: two
    renderer objects that agree on these members make the same calls.  In
    particular the data mode, the cell colours and the cell count, and the
    position, index and colour arrays kept by the object are not read. *)
Theorem render_reads_only_its_inputs (r r' : FoamRenderer F) :
  render_inputs r = render_inputs r' ->
  render_calls drv r = render_calls drv r' /\
  forall d cc n vs ixs cs,
    render_calls drv
      (set_data_mode d (set_cell_colors cc (set_cell_count n
         (set_vertices vs (set_indices ixs (set_vertex_colors cs r))))))
    = render_calls drv r'.
Proof.
  intros Hin. split; [by apply render_calls_ext|].
  intros d cc n vs ixs cs. apply render_calls_ext. by rewrite <- Hin.
Qed.

End FrameShape.

(** ** Running a method call by call *)

Ltac run_prim :=
  eapply run_bind;
    [ first [ apply call_run | apply log_cerr_run | apply run_read | apply run_assign
            | apply gl_delete_run | reflexivity ]
    | cbv beta; cbn [this world gl_objects gl_calls cerr] ].

Section ShaderPrograms.
Context {F : Type} `{Float32 F}.
Variable drv : Driver.

Lemma check_shader_compile_run shader type (self : FoamRenderer F) o cs e :
  check_shader_compile drv shader type
    {| this := self; world := {| gl_objects := o; gl_calls := cs; cerr := e |} |}
  = Some (tt,
          {| this := self;
             world :=
               {| gl_objects := o;
                  gl_calls := cs ++ check_compile_calls drv shader;
                  cerr := e ++ (if drv_compile_status drv shader then []
                                else [("Shader compilation error (" ++ type ++ "): "
                                       ++ drv_shader_info_log drv shader)%string]) |} |}).
Proof.
  unfold check_shader_compile, check_compile_calls, getShaderiv, getShaderInfoLog.
  destruct (drv_compile_status drv shader);
    cbv [bind call ret log_call log_cerr negb this world gl_objects gl_calls cerr];
    by rewrite <- ?app_assoc, ?app_nil_r.
Qed.

Lemma check_program_link_run program (self : FoamRenderer F) o cs e :
  check_program_link drv program
    {| this := self; world := {| gl_objects := o; gl_calls := cs; cerr := e |} |}
  = Some (tt,
          {| this := self;
             world :=
               {| gl_objects := o;
                  gl_calls := cs ++ check_link_calls drv program;
                  cerr := e ++ (if drv_link_status drv program then []
                                else [("Program linking error: "
                                       ++ drv_program_info_log drv program)%string]) |} |}).
Proof.
  unfold check_program_link, check_link_calls, getProgramiv, getProgramInfoLog.
  destruct (drv_link_status drv program);
    cbv [bind call ret log_call log_cerr negb this world gl_objects gl_calls cerr];
    by rewrite <- ?app_assoc, ?app_nil_r.
Qed.

Lemma create_shader_program_run vs_source fs_source (self : FoamRenderer F) o cs e :
  create_shader_program drv vs_source fs_source
    {| this := self; world := {| gl_objects := o; gl_calls := cs; cerr := e |} |}
  = Some (program_name drv o,
          {| this := self;
             world := {| gl_objects := names_after_program drv o;
                         gl_calls := cs ++ shader_program_calls drv vs_source fs_source o;
                         cerr := e ++ shader_errors drv o |} |}).
Proof.
  unfold create_shader_program.
  run_prim. run_prim. run_prim.
  eapply run_bind; [apply check_shader_compile_run|]. cbv beta.
  run_prim. run_prim. run_prim.
  eapply run_bind; [apply check_shader_compile_run|]. cbv beta.
  run_prim. run_prim. run_prim. run_prim.
  eapply run_bind; [apply check_program_link_run|]. cbv beta.
  run_prim. run_prim.
  unfold ret, shader_program_calls, shader_errors, names_after_program, program_name,
    fragment_shader_name, vertex_shader_name.
  cbv zeta. rewrite <- !app_assoc. reflexivity.
Qed.

(* with a driver that keeps to the naming rules the two shaders come and
   go, and the program is the one name added *)
Lemma names_after_program_fresh (o : gset (ObjKind * Z)) :
  driver_names_fresh drv ->
  names_after_program drv o = {[ (Program, program_name drv o) ]} ∪ o /\
  program_name drv o <> 0 /\
  (Program, program_name drv o) ∉ o.
Proof.
  intros Hfresh. unfold names_after_program, program_name.
  destruct (Hfresh Shader o) as [_ Hvs].
  destruct (Hfresh Shader ({[ (Shader, vertex_shader_name drv o) ]} ∪ o)) as [_ Hfs].
  destruct (Hfresh Program
              ({[ (Shader, fragment_shader_name drv o) ]}
               ∪ ({[ (Shader, vertex_shader_name drv o) ]} ∪ o))) as [Hnz Hprog].
  fold (vertex_shader_name drv o) in Hvs.
  fold (fragment_shader_name drv o) in Hfs.
  set (vs := vertex_shader_name drv o) in *.
  set (fs := fragment_shader_name drv o) in *.
  set (prog := drv_name drv Program _) in *.
  clearbody vs fs prog.
  split; [|split; [done|rewrite !not_elem_of_union in Hprog; tauto]].
  apply set_eq. intros [k n].
  rewrite !elem_of_difference, !elem_of_union, !elem_of_singleton.
  rewrite !not_elem_of_union, !not_elem_of_singleton in Hfs, Hprog.
  split.
  - intros [[[?|[?|[?|?]]] ?] ?]; auto; congruence.
  - intros [E|Hin]; [injection E as -> ->; by repeat split; auto|].
    repeat split; auto; intros E; rewrite E in Hin; tauto.
Qed.

(** X10. [create_shader_program] returns the program name whatever the
    compile and link results are: a failed stage only writes its line to
    [std::cerr] (vertex shader, then fragment shader, then the link) and
    the function carries on.  Nothing is written exactly when all three
    stages succeed.  Both shader objects are deleted before it returns and
    the program stays in use; with a driver that keeps to the naming rules
    the program is the one name added to those in use. *)
Theorem create_shader_program_reports_and_continues (m : @Machine F)
    (vs_source fs_source : string) :
  let live := gl_objects (world m) in
  exists m',
    create_shader_program drv vs_source fs_source m = Some (program_name drv live, m') /\
    this m' = this m /\
    calls_between (world m) (world m') (shader_program_calls drv vs_source fs_source live) /\
    cerr (world m') = cerr (world m) ++ shader_errors drv live /\
    (shader_errors drv live = [] <->
     drv_compile_status drv (vertex_shader_name drv live) = true /\
     drv_compile_status drv (fragment_shader_name drv live) = true /\
     drv_link_status drv (program_name drv live) = true) /\
    (Program, program_name drv live) ∈ gl_objects (world m') /\
    ((Shader, vertex_shader_name drv live) ∉ gl_objects (world m')) /\
    ((Shader, fragment_shader_name drv live) ∉ gl_objects (world m')) /\
    (driver_names_fresh drv ->
     gl_objects (world m') = {[ (Program, program_name drv live) ]} ∪ live /\
     program_name drv live <> 0 /\
     (Program, program_name drv live) ∉ live).
Proof.
  destruct m as [self [o cs e]]. cbv zeta. cbn [this world gl_objects gl_calls cerr].
  eexists. split; [apply create_shader_program_run|].
  cbn [this world gl_objects gl_calls cerr].
  split; [done|]. split; [done|]. split; [done|]. split.
  { unfold shader_errors. cbv zeta.
    destruct (drv_compile_status drv (vertex_shader_name drv o)),
      (drv_compile_status drv (fragment_shader_name drv o)),
      (drv_link_status drv (program_name drv o)); simpl; split; try done.
    all: intros (? & ? & ?); done. }
  unfold names_after_program at 1 2 3.
  rewrite !elem_of_difference, !elem_of_union, !elem_of_singleton.
  split; [repeat split; [by left|intros [=]|intros [=]]|].
  split; [intros [[_ Hn] _]; by apply Hn|].
  split; [intros [_ Hn]; by apply Hn|].
  apply names_after_program_fresh.
Qed.

End ShaderPrograms.

(** ** Construction and destruction *)

Section WpRules.
Context {F : Type} `{Float32 F}.

Lemma wp_run {A} (op : Method A) (m : @Machine F) a m' (Q : A -> @Machine F -> Prop) :
  op m = Some (a, m') -> Q a m' -> wp op m Q.
Proof. intros Hop HQ. by exists a, m'. Qed.

Lemma wp_bind {A B} (op : Method A) (k : A -> Method B) (m : @Machine F)
    (Q : B -> @Machine F -> Prop) :
  wp op m (fun a m1 => wp (k a) m1 Q) -> wp (bind op k) m Q.
Proof.
  intros (a & m1 & Hop & b & m2 & Hk & HQ). exists b, m2. split; [|done].
  by eapply run_bind.
Qed.

End WpRules.

Ltac wp_prim :=
  eapply wp_bind, wp_run;
    [ first [ apply call_run | apply log_cerr_run | apply run_read | apply run_assign
            | reflexivity ]
    | cbv beta; cbn [this world gl_objects gl_calls cerr] ].

(* a name not in a union of singletons and a set: apart from each, not in the set *)
Ltac split_fresh H :=
  repeat rewrite not_elem_of_union in H; repeat rewrite not_elem_of_singleton in H.

(* prove a disjunction of equations by the one that holds *)
Ltac pick_equal := repeat first [ left; reflexivity | right ].

Section Construction.
Context {F : Type} `{Float32 F}.
Variable drv : Driver.

Lemma wp_gen_into k set_member (self : FoamRenderer F) o cs e
    (Q : unit -> @Machine F -> Prop) :
  driver_names_fresh drv ->
  (forall n, n <> 0 -> (k, n) ∉ o ->
     Q tt {| this := set_member n self;
             world := {| gl_objects := {[ (k, n) ]} ∪ o;
                         gl_calls := cs ++ [glGen k 1 n];
                         cerr := e |} |}) ->
  wp (gen_into drv k set_member)
    {| this := self; world := {| gl_objects := o; gl_calls := cs; cerr := e |} |} Q.
Proof.
  intros Hfresh HQ. eapply wp_run; [apply gen_into_run|]. apply HQ; apply Hfresh.
Qed.

Lemma wp_create_shader_program vs_source fs_source (self : FoamRenderer F) o cs e
    (Q : GLuint -> @Machine F -> Prop) :
  driver_names_fresh drv ->
  (forall program cs' e', program <> 0 -> (Program, program) ∉ o ->
     Q program {| this := self;
                  world := {| gl_objects := {[ (Program, program) ]} ∪ o;
                              gl_calls := cs ++ cs';
                              cerr := e ++ e' |} |}) ->
  wp (create_shader_program drv vs_source fs_source)
    {| this := self; world := {| gl_objects := o; gl_calls := cs; cerr := e |} |} Q.
Proof.
  intros Hfresh HQ. eapply wp_run; [apply create_shader_program_run|].
  destruct (names_after_program_fresh drv o Hfresh) as (-> & Hnz & Hnew).
  by apply HQ.
Qed.

Lemma wp_create_framebuffer w h (self : FoamRenderer F) o cs e
    (Q : unit -> @Machine F -> Prop) :
  driver_names_fresh drv ->
  (forall f t rb complete e',
     f <> 0 -> t <> 0 -> rb <> 0 ->
     (Framebuffer, f) ∉ after_release self o ->
     (Texture, t) ∉ after_release self o ->
     (Renderbuffer, rb) ∉ after_release self o ->
     Q tt {| this := set_rbo rb (set_texture t (set_fbo f self));
             world := {| gl_objects := {[ (Renderbuffer, rb) ]}
                                       ∪ ({[ (Texture, t) ]}
                                          ∪ ({[ (Framebuffer, f) ]} ∪ after_release self o));
                         gl_calls := cs ++ release_calls self
                                     ++ build_calls w h f t rb complete;
                         cerr := e ++ e' |} |}) ->
  wp (create_framebuffer drv w h)
    {| this := self; world := {| gl_objects := o; gl_calls := cs; cerr := e |} |} Q.
Proof.
  intros Hfresh HQ. eapply wp_run; [apply create_framebuffer_run|].
  cbv zeta. cbn [this world gl_objects gl_calls cerr]. unfold names_after_create.
  assert (Hf : new_fbo drv self o <> 0 /\
               (Framebuffer, new_fbo drv self o) ∉ after_release self o)
    by apply Hfresh.
  assert (Ht : new_texture drv self o <> 0 /\
               (Texture, new_texture drv self o)
               ∉ {[ (Framebuffer, new_fbo drv self o) ]} ∪ after_release self o)
    by apply Hfresh.
  assert (Hr : new_rbo drv self o <> 0 /\
               (Renderbuffer, new_rbo drv self o)
               ∉ {[ (Texture, new_texture drv self o) ]}
                 ∪ ({[ (Framebuffer, new_fbo drv self o) ]} ∪ after_release self o))
    by apply Hfresh.
  split_fresh Ht. split_fresh Hr.
  apply HQ; try done; tauto.
Qed.

(* releasing the old render target touches framebuffer, texture and
   renderbuffer names only *)
Lemma after_release_other (r : FoamRenderer F) (k : ObjKind) (n : Z) (o : gset (ObjKind * Z)) :
  k <> Framebuffer -> k <> Texture -> k <> Renderbuffer ->
  after_release r ({[ (k, n) ]} ∪ o) = {[ (k, n) ]} ∪ after_release r o.
Proof.
  intros Hf Ht Hr. unfold after_release. destruct (fbo r =? 0); [done|].
  apply set_eq. intros [k' n'].
  rewrite !elem_of_union, !elem_of_difference, !elem_of_union, !elem_of_singleton.
  split.
  - intros [[[[E|Hin] ?] ?] ?]; auto.
  - intros [E|[[[Hin ?] ?] ?]]; [|by auto].
    injection E as -> ->. repeat split; auto; intros [=]; done.
Qed.

Lemma after_release_subseteq (r : FoamRenderer F) (o : gset (ObjKind * Z)) x :
  x ∈ after_release r o -> x ∈ o.
Proof.
  unfold after_release. destruct (fbo r =? 0); [done|].
  rewrite !elem_of_difference. tauto.
Qed.

(* the constructor when every initialisation step succeeds, with a driver
   that keeps to the naming rules *)
Lemma constructor_success (r : FoamRenderer F) o cs e :
  init_failure drv (width r) (height r) = None ->
  driver_names_fresh drv ->
  wp (constructor drv)
    {| this := r; world := {| gl_objects := o; gl_calls := cs; cerr := e |} |}
    (fun _ m' =>
       window (this m') = drv_glfwCreateWindow drv (width r) (height r) /\
       NoDup (held_list (this m')) /\
       Forall (fun kn => kn.2 <> 0) (held_list (this m')) /\
       gl_objects (world m') = held (this m') ∪ after_release r o /\
       (forall x, x ∈ held (this m') -> x ∉ after_release r o) /\
       exists before complete,
         gl_calls (world m')
         = cs ++ init_calls drv (width r) (height r) ++ before ++ release_calls r
           ++ build_calls (width r) (height r) (fbo (this m')) (texture (this m'))
                (rbo (this m')) complete
           ++ [ glEnable GL_DEPTH_TEST; glDepthFunc GL_LESS; glEnable GL_BLEND;
                glBlendFunc GL_SRC_ALPHA GL_ONE_MINUS_SRC_ALPHA ]).
Proof.
  intros Hok Hfresh. unfold init_failure in Hok. unfold constructor, init_calls. cbv zeta.
  destruct (drv_glfwInit drv); [|done]. cbn [negb] in Hok |- *.
  do 10 wp_prim. cbn [window set_window].
  destruct (drv_glfwCreateWindow drv (width r) (height r) =? nullptr); [done|].
  destruct (drv_glewInit drv); [|done]. cbn [negb].
  do 3 wp_prim.
  eapply wp_bind, wp_create_shader_program; [done|]. intros surface cs1 e1 Hs0 Hs. cbv beta.
  wp_prim.
  eapply wp_bind, wp_create_shader_program; [done|]. intros edge cs2 e2 He0 He. cbv beta.
  wp_prim.
  eapply wp_bind, wp_gen_into; [done|]. intros va1 Hva10 Hva1. cbv beta.
  eapply wp_bind, wp_gen_into; [done|]. intros b1 Hb10 Hb1. cbv beta.
  eapply wp_bind, wp_gen_into; [done|]. intros b2 Hb20 Hb2. cbv beta.
  eapply wp_bind, wp_gen_into; [done|]. intros b3 Hb30 Hb3. cbv beta.
  eapply wp_bind, wp_gen_into; [done|]. intros va2 Hva20 Hva2. cbv beta.
  eapply wp_bind, wp_gen_into; [done|]. intros b4 Hb40 Hb4. cbv beta.
  eapply wp_bind, wp_gen_into; [done|]. intros b5 Hb50 Hb5. cbv beta.
  eapply wp_bind, wp_create_framebuffer; [done|].
  intros f t rb complete e3 Hf0 Ht0 Hrb0. cbv beta.
  change (release_calls _) with (release_calls r).
  rewrite !after_release_other by done.
  change (after_release _ o) with (after_release r o).
  intros Hf Ht Hrb.
  do 3 wp_prim. eapply wp_run; [apply call_run|].
  cbn [this world gl_objects gl_calls cerr log_call].
  unfold held, held_list.
  cbn [window surface_shader edge_shader surface_vao surface_vbo surface_ebo
       surface_color_vbo edge_vao edge_vbo edge_ebo fbo texture rbo
       set_window set_surface_shader set_edge_shader set_surface_vao set_surface_vbo
       set_surface_ebo set_surface_color_vbo set_edge_vao set_edge_vbo set_edge_ebo
       set_fbo set_texture set_rbo].
  split_fresh He. split_fresh Hva1. split_fresh Hb1. split_fresh Hb2. split_fresh Hb3.
  split_fresh Hva2. split_fresh Hb4. split_fresh Hb5.
  split_fresh Hf. split_fresh Ht. split_fresh Hrb. destruct_and!.
  split; [done|]. split.
  { repeat (apply NoDup_cons_2;
              [rewrite ?not_elem_of_cons; repeat split;
               first [apply not_elem_of_nil | congruence]|]).
    apply NoDup_nil_2. }
  split; [repeat (apply Forall_cons_2; [done|]); apply Forall_nil_2|].
  split; [|split].
  - apply set_eq. intros x. cbn [list_to_set].
    rewrite !elem_of_union, !elem_of_singleton, elem_of_empty. split.
    + intros Hx. repeat (destruct Hx as [->|Hx]); [..|by right]; left; pick_equal.
    + intros [Hx|Hx]; [|by do 12 right].
      repeat (destruct Hx as [->|Hx]); [..|done]; pick_equal.
  - intros x. cbn [list_to_set].
    rewrite !elem_of_union, !elem_of_singleton, elem_of_empty.
    intros Hx Hin. pose proof (after_release_subseteq r o x Hin) as Hino.
    repeat (destruct Hx as [->|Hx]); done.
  - exists (cs1 ++ cs2
            ++ [ glGen VertexArray 1 va1; glGen Buffer 1 b1; glGen Buffer 1 b2;
                 glGen Buffer 1 b3; glGen VertexArray 1 va2; glGen Buffer 1 b4;
                 glGen Buffer 1 b5 ]),
      complete.
    rewrite <- !app_assoc. reflexivity.
Qed.

(* the constructor when an initialisation step fails *)
Lemma constructor_failure_run (r : FoamRenderer F) o cs e line :
  init_failure drv (width r) (height r) = Some line ->
  constructor drv {| this := r; world := {| gl_objects := o; gl_calls := cs; cerr := e |} |}
  = Some (tt,
          {| this := if drv_glfwInit drv
                     then set_window (drv_glfwCreateWindow drv (width r) (height r)) r
                     else r;
             world := {| gl_objects := o;
                         gl_calls := cs ++ init_calls drv (width r) (height r);
                         cerr := e ++ [line] |} |}).
Proof.
  intros Hfail. unfold init_failure in Hfail. unfold constructor, init_calls. cbv zeta.
  destruct (drv_glfwInit drv); cbn [negb] in Hfail |- *.
  2: { injection Hfail as <-. run_prim. reflexivity. }
  do 10 run_prim. cbn [window set_window].
  destruct (drv_glfwCreateWindow drv (width r) (height r) =? nullptr).
  { injection Hfail as <-. run_prim. rewrite call_run, <- !app_assoc. reflexivity. }
  destruct (drv_glewInit drv); cbn [negb] in Hfail |- *; [done|].
  injection Hfail as <-. do 3 run_prim. rewrite log_cerr_run, <- !app_assoc. reflexivity.
Qed.

(* the destructor deletes the twelve names the object holds *)
Lemma destructor_run (self : FoamRenderer F) o cs e :
  destructor {| this := self; world := {| gl_objects := o; gl_calls := cs; cerr := e |} |}
  = Some (tt,
          {| this := self;
             world := {| gl_objects := o ∖ held self;
                         gl_calls := cs ++ destructor_calls self;
                         cerr := e |} |}).
Proof.
  assert (Hheld : o ∖ {[ (VertexArray, surface_vao self) ]} ∖ {[ (Buffer, surface_vbo self) ]}
                    ∖ {[ (Buffer, surface_ebo self) ]}
                    ∖ {[ (Buffer, surface_color_vbo self) ]}
                    ∖ {[ (VertexArray, edge_vao self) ]} ∖ {[ (Buffer, edge_vbo self) ]}
                    ∖ {[ (Buffer, edge_ebo self) ]} ∖ {[ (Framebuffer, fbo self) ]}
                    ∖ {[ (Texture, texture self) ]} ∖ {[ (Renderbuffer, rbo self) ]}
                    ∖ {[ (Program, surface_shader self) ]}
                    ∖ {[ (Program, edge_shader self) ]}
                  = o ∖ held self).
  { apply set_eq. intros x. unfold held, held_list. cbn [list_to_set].
    rewrite !elem_of_difference, !elem_of_union, !elem_of_singleton, elem_of_empty. tauto. }
  rewrite <- Hheld. unfold destructor, destructor_calls.
  do 13 run_prim.
  destruct (window self =? nullptr); cbn [negb].
  - run_prim. rewrite call_run, <- !app_assoc. reflexivity.
  - run_prim. rewrite call_run, <- !app_assoc. reflexivity.
Qed.

End Construction.

(** ** Creating and destroying a renderer through the C API *)

Section CreateDestroy.
Context {F : Type} `{Float32 F}.
Variable drv : Driver.
Variable operator_new : gset Z -> pointer * FoamRenderer F.

Lemma constructor_preserves_size :
  preserves (fun r : FoamRenderer F => (width r, height r)) (constructor drv).
Proof. unfold constructor. step_preserves. Qed.

Lemma create_from_constructor (p : @Process F) w h address mem m' :
  operator_new (dom (heap p)) = (address, mem) ->
  address <> nullptr -> address ∉ dom (heap p) ->
  constructor drv {| this := member_init mem w h; world := outside p |} = Some (tt, m') ->
  foam_renderer_create drv operator_new w h p
  = Some (address, {| heap := <[address := this m']> (heap p); outside := world m' |}).
Proof.
  intros Hnew Hnull Hfresh Hrun. unfold foam_renderer_create. rewrite Hnew.
  rewrite bool_decide_eq_false_2 by tauto. by rewrite Hrun.
Qed.

Lemma destroy_on_handle (p : @Process F) handle obj :
  handle <> nullptr -> object_at p handle = Some obj ->
  foam_renderer_destroy handle p
  = Some (tt, {| heap := delete handle (heap p);
                 outside := {| gl_objects := gl_objects (outside p) ∖ held obj;
                               gl_calls := gl_calls (outside p) ++ destructor_calls obj;
                               cerr := cerr (outside p) |} |}).
Proof.
  intros Hh Hobj. unfold foam_renderer_destroy.
  rewrite (proj2 (Z.eqb_neq _ _) Hh). cbn [negb].
  destruct p as [hp [o cs e]].
  eapply run_bind.
  { eapply (on_object_run _ _ _ _ _ _ Hobj). apply destructor_run. }
  cbn [heap outside this world gl_objects gl_calls cerr]. by rewrite delete_insert_eq.
Qed.

(* creation on a platform where every initialisation step succeeds *)
Lemma create_success (p : @Process F) w h address mem :
  operator_new (dom (heap p)) = (address, mem) ->
  address <> nullptr -> address ∉ dom (heap p) ->
  init_failure drv w h = None ->
  driver_names_fresh drv ->
  exists obj w1,
    foam_renderer_create drv operator_new w h p
    = Some (address, {| heap := <[address := obj]> (heap p); outside := w1 |}) /\
    scene obj = scene (member_init mem w h) /\
    (width obj, height obj) = (w, h) /\
    window obj = drv_glfwCreateWindow drv w h /\
    NoDup (held_list obj) /\
    Forall (fun kn => kn.2 <> 0) (held_list obj) /\
    gl_objects w1 = held obj ∪ after_release mem (gl_objects (outside p)) /\
    (forall x, x ∈ held obj -> x ∉ after_release mem (gl_objects (outside p))) /\
    exists before complete,
      gl_calls w1
      = gl_calls (outside p) ++ init_calls drv w h ++ before ++ release_calls mem
        ++ build_calls w h (fbo obj) (texture obj) (rbo obj) complete
        ++ [ glEnable GL_DEPTH_TEST; glDepthFunc GL_LESS; glEnable GL_BLEND;
             glBlendFunc GL_SRC_ALPHA GL_ONE_MINUS_SRC_ALPHA ].
Proof.
  intros Hnew Hnull Hfresh Hok Hnames.
  destruct (outside p) as [o cs e] eqn:Hout.
  destruct (constructor_success drv (member_init mem w h) o cs e Hok Hnames)
    as ([] & m' & Hrun & Hwin & Hnodup & Hnz & Hobjs & Hdisj & Hcalls).
  exists (this m'), (world m'). split.
  { apply (create_from_constructor p w h address mem m' Hnew Hnull Hfresh).
    by rewrite Hout. }
  split; [apply (constructor_preserves_scene drv _ _ _ Hrun)|].
  split; [apply (constructor_preserves_size _ _ _ Hrun)|].
  by repeat split.
Qed.

(** X11. On a platform where GLFW, the window and GLEW initialise and the
    driver keeps to the naming rules, [foam_renderer_create] returns the
    address of a renderer with the default mesh, view and mode, the size
    asked for and the window GLFW returned.  The twelve object names it
    holds (two programs, two vertex arrays, five buffers, framebuffer,
    texture, renderbuffer) are non-zero, pairwise distinct, in use, and
    none of them was among the names in use once the names found in the
    storage were released; [foam_renderer_get_texture] on the new handle
    returns a non-zero identifier of a texture in use.  The render target
    is built for the size asked for, and the last calls enable the depth
    test with [GL_LESS] and blending with source alpha. *)
Theorem create_on_working_platform (p : @Process F) (w h : Z)
    (address : pointer) (mem : FoamRenderer F) :
  operator_new (dom (heap p)) = (address, mem) ->
  address <> nullptr -> address ∉ dom (heap p) ->
  init_failure drv w h = None ->
  driver_names_fresh drv ->
  exists p1 obj,
    foam_renderer_create drv operator_new w h p = Some (address, p1) /\
    object_at p1 address = Some obj /\
    has_defaults obj /\
    (width obj, height obj) = (w, h) /\
    window obj = drv_glfwCreateWindow drv w h /\
    window obj <> nullptr /\
    NoDup (held_list obj) /\
    Forall (fun kn => kn.2 <> 0) (held_list obj) /\
    (forall x, x ∈ held obj -> x ∈ gl_objects (outside p1)) /\
    (forall x, x ∈ held obj -> x ∉ after_release mem (gl_objects (outside p))) /\
    foam_renderer_get_texture address p1 = Some (texture obj, p1) /\
    texture obj <> 0 /\
    (Texture, texture obj) ∈ gl_objects (outside p1) /\
    exists before complete,
      calls_between (outside p) (outside p1)
        (init_calls drv w h ++ before ++ release_calls mem
         ++ build_calls w h (fbo obj) (texture obj) (rbo obj) complete
         ++ [ glEnable GL_DEPTH_TEST; glDepthFunc GL_LESS; glEnable GL_BLEND;
              glBlendFunc GL_SRC_ALPHA GL_ONE_MINUS_SRC_ALPHA ]).
Proof.
  intros Hnew Hnull Hfresh Hok Hnames.
  destruct (create_success p w h address mem Hnew Hnull Hfresh Hok Hnames)
    as (obj & w1 & Hcreate & Hscene & Hsize & Hwin & Hnodup & Hnz & Hobjs & Hdisj & Hcalls).
  assert (Hobj : object_at {| heap := <[address := obj]> (heap p); outside := w1 |} address
                 = Some obj) by apply lookup_insert_eq.
  assert (Htex : (Texture, texture obj) ∈ held_list obj)
    by (do 8 apply list_elem_of_further; apply list_elem_of_here).
  eexists _, obj. split; [exact Hcreate|]. split; [exact Hobj|].
  split; [by apply (scene_defaults obj mem w h)|]. split; [done|]. split; [done|].
  split.
  { rewrite Hwin. unfold init_failure in Hok.
    destruct (drv_glfwInit drv); [|done]. cbn [negb] in Hok.
    destruct (drv_glfwCreateWindow drv w h =? nullptr) eqn:E; [done|].
    by apply Z.eqb_neq. }
  split; [done|]. split; [done|]. cbn [outside].
  split; [intros x Hx; rewrite Hobjs; apply elem_of_union; by left|].
  split; [done|].
  split; [by apply get_texture_on_handle|].
  split; [apply (proj1 (Forall_forall _ _) Hnz _ Htex)|].
  split; [rewrite Hobjs; apply elem_of_union; left; by apply elem_of_list_to_set|].
  exact Hcalls.
Qed.

(** X12. The constructor calls [create_framebuffer] before [fbo],
    [texture] and [rbo] were ever assigned, and [create_framebuffer] tests
    [fbo]: when the storage the object was built in happens to hold a
    non-zero [fbo], creation deletes the framebuffer, texture and
    renderbuffer names found in the storage.  An object some other code
    had under one of these names is no longer in use afterwards, unless
    the driver handed the name out again to the new renderer. *)
Theorem create_releases_names_found_in_storage (p : @Process F) (w h : Z)
    (address : pointer) (mem : FoamRenderer F) :
  operator_new (dom (heap p)) = (address, mem) ->
  address <> nullptr -> address ∉ dom (heap p) ->
  init_failure drv w h = None ->
  driver_names_fresh drv ->
  fbo mem <> 0 ->
  exists p1 obj cs,
    foam_renderer_create drv operator_new w h p = Some (address, p1) /\
    object_at p1 address = Some obj /\
    calls_between (outside p) (outside p1) cs /\
    In (glDelete Framebuffer 1 (fbo mem)) cs /\
    In (glDelete Texture 1 (texture mem)) cs /\
    In (glDelete Renderbuffer 1 (rbo mem)) cs /\
    forall x,
      x ∈ [ (Framebuffer, fbo mem); (Texture, texture mem); (Renderbuffer, rbo mem) ] ->
      x ∈ gl_objects (outside p1) -> x ∈ held obj.
Proof.
  intros Hnew Hnull Hfresh Hok Hnames Hfbo.
  destruct (create_success p w h address mem Hnew Hnull Hfresh Hok Hnames)
    as (obj & w1 & Hcreate & _ & _ & _ & _ & _ & Hobjs & _ & before & complete & Hcalls).
  eexists _, obj, _. split; [exact Hcreate|].
  split; [apply lookup_insert_eq|]. split; [exact Hcalls|].
  assert (Hrel : release_calls mem
                 = [ glDelete Framebuffer 1 (fbo mem); glDelete Texture 1 (texture mem);
                     glDelete Renderbuffer 1 (rbo mem) ] :> list (GLCall F))
    by (unfold release_calls; by rewrite (proj2 (Z.eqb_neq _ _) Hfbo)).
  rewrite Hrel.
  split; [rewrite !in_app_iff; simpl; tauto|].
  split; [rewrite !in_app_iff; simpl; tauto|].
  split; [rewrite !in_app_iff; simpl; tauto|].
  intros x Hx. cbn [outside]. rewrite Hobjs, elem_of_union.
  intros [Hheld|Hold]; [done|]. exfalso. revert Hold.
  unfold after_release. rewrite (proj2 (Z.eqb_neq _ _) Hfbo).
  rewrite !elem_of_difference, !elem_of_singleton.
  rewrite !elem_of_cons, elem_of_nil in Hx. tauto.
Qed.

(** X13. A renderer created on a working platform and destroyed right away
    leaves the heap as it was and no object behind: the names in use are
    those in use before creation, less the framebuffer, texture and
    renderbuffer names the storage held when its [fbo] was not zero. *)
Theorem create_then_destroy_leaves_nothing (p : @Process F) (w h : Z)
    (address : pointer) (mem : FoamRenderer F) :
  operator_new (dom (heap p)) = (address, mem) ->
  address <> nullptr -> address ∉ dom (heap p) ->
  init_failure drv w h = None ->
  driver_names_fresh drv ->
  exists p1 p2,
    foam_renderer_create drv operator_new w h p = Some (address, p1) /\
    foam_renderer_destroy address p1 = Some (tt, p2) /\
    heap p2 = heap p /\
    gl_objects (outside p2) = after_release mem (gl_objects (outside p)) /\
    (fbo mem = 0 -> gl_objects (outside p2) = gl_objects (outside p)).
Proof.
  intros Hnew Hnull Hfresh Hok Hnames.
  destruct (create_success p w h address mem Hnew Hnull Hfresh Hok Hnames)
    as (obj & w1 & Hcreate & _ & _ & _ & _ & _ & Hobjs & Hdisj & _).
  eexists _, _. split; [exact Hcreate|].
  split; [apply (destroy_on_handle _ address obj Hnull); apply lookup_insert_eq|].
  cbn [heap outside gl_objects].
  assert (Hleft : gl_objects w1 ∖ held obj = after_release mem (gl_objects (outside p))).
  { rewrite Hobjs. apply set_eq. intros x. rewrite elem_of_difference, elem_of_union.
    split; [tauto|]. intros Hx. split; [by right|]. intros Hheld. by apply (Hdisj x). }
  split; [apply delete_insert_id; by apply not_elem_of_dom|].
  split; [exact Hleft|].
  intros Hzero. rewrite Hleft. unfold after_release. by rewrite Hzero.
Qed.

(** X14. [foam_renderer_destroy] on a live handle deletes the twelve object
    names the renderer holds, whatever they are, destroys the window when
    the window pointer is not null, and always ends with [glfwTerminate],
    also while other renderers are alive.  Afterwards none of these names
    is in use, the handle is no longer the address of a renderer while
    every other handle still is, and a second destroy or any other call on
    the handle is undefined. *)
Theorem destroy_releases_everything (p : @Process F) (handle : pointer)
    (obj : FoamRenderer F) :
  handle <> nullptr ->
  object_at p handle = Some obj ->
  exists p',
    foam_renderer_destroy handle p = Some (tt, p') /\
    object_at p' handle = None /\
    (forall other, other <> handle -> object_at p' other = object_at p other) /\
    gl_objects (outside p') = gl_objects (outside p) ∖ held obj /\
    (forall x, x ∈ held obj -> x ∉ gl_objects (outside p')) /\
    cerr (outside p') = cerr (outside p) /\
    calls_between (outside p) (outside p') (destructor_calls obj) /\
    last (destructor_calls obj) = Some glfwTerminate /\
    (In (glfwDestroyWindow (window obj)) (destructor_calls obj) <-> window obj <> nullptr) /\
    foam_renderer_destroy handle p' = None /\
    foam_renderer_get_texture handle p' = None /\
    foam_renderer_render drv handle p' = None.
Proof.
  intros Hh Hobj. eexists. split; [by apply destroy_on_handle|].
  assert (Hgone : forall A (method : Method A),
            on_object handle method
              {| heap := delete handle (heap p);
                 outside := {| gl_objects := gl_objects (outside p) ∖ held obj;
                               gl_calls := gl_calls (outside p) ++ destructor_calls obj;
                               cerr := cerr (outside p) |} |} = None).
  { intros A method. unfold on_object. cbn [heap]. by rewrite lookup_delete_eq. }
  unfold object_at. cbn [heap outside gl_objects gl_calls cerr].
  split; [apply lookup_delete_eq|].
  split; [intros other Hne; by apply lookup_delete_ne|].
  split; [done|].
  split; [intros x Hx; rewrite elem_of_difference; tauto|].
  split; [done|]. split; [done|].
  unfold destructor_calls.
  split; [by destruct (window obj =? nullptr)|].
  split.
  { destruct (window obj =? nullptr) eqn:E.
    - apply Z.eqb_eq in E. simpl. split; [|done].
      intros Hin. repeat (destruct Hin as [Hin|Hin]; [discriminate Hin|]). done.
    - apply Z.eqb_neq in E. split; [done|]. intros _.
      apply in_app_iff. right. by left. }
  unfold foam_renderer_destroy, foam_renderer_get_texture, foam_renderer_render.
  rewrite (proj2 (Z.eqb_neq _ _) Hh). cbn [negb]. unfold bind at 1.
  by rewrite !Hgone.
Qed.

(** X15. When GLFW, the window or GLEW fails to initialise,
    [foam_renderer_create] still returns the address of a renderer object.
    The constructor has written the matching line to [std::cerr] and
    returned early: it made no OpenGL call, created no object and assigned
    none of the twelve object names, which are whatever the storage held.
    The mesh, view and mode are the defaults, and [render] on the handle
    still makes its calls, with these names. *)
Theorem create_with_failed_initialisation (p : @Process F) (w h : Z)
    (address : pointer) (mem : FoamRenderer F) (line : string) :
  operator_new (dom (heap p)) = (address, mem) ->
  address <> nullptr -> address ∉ dom (heap p) ->
  init_failure drv w h = Some line ->
  exists p1 obj p2,
    foam_renderer_create drv operator_new w h p = Some (address, p1) /\
    object_at p1 address = Some obj /\
    has_defaults obj /\
    (width obj, height obj) = (w, h) /\
    held_list obj = held_list mem /\
    window obj = (if drv_glfwInit drv then drv_glfwCreateWindow drv w h else window mem) /\
    gl_objects (outside p1) = gl_objects (outside p) /\
    cerr (outside p1) = cerr (outside p) ++ [line] /\
    calls_between (outside p) (outside p1) (init_calls drv w h) /\
    foam_renderer_render drv address p1 = Some (texture mem, p2) /\
    calls_between (outside p1) (outside p2)
      [ glfwMakeContextCurrent (window obj);
        glBindFramebuffer GL_FRAMEBUFFER (fbo mem);
        glViewport 0 0 w h;
        glClearColor (f_lit 0.117) (f_lit 0.117) (f_lit 0.117) (f_lit 1.0);
        glClear [GL_COLOR_BUFFER_BIT; GL_DEPTH_BUFFER_BIT];
        glBindFramebuffer GL_FRAMEBUFFER 0 ].
Proof.
  intros Hnew Hnull Hfresh Hfail. destruct p as [hp [o cs e]].
  pose proof (constructor_failure_run drv (member_init mem w h) o cs e line Hfail) as Hrun.
  cbn [width height member_init] in Hrun.
  set (obj := if drv_glfwInit drv
              then set_window (drv_glfwCreateWindow drv w h) (member_init mem w h)
              else member_init mem w h) in *.
  assert (Hobj : object_at
                   {| heap := <[address := obj]> hp;
                      outside := {| gl_objects := o; gl_calls := cs ++ init_calls drv w h;
                                    cerr := e ++ [line] |} |} address = Some obj)
    by apply lookup_insert_eq.
  assert (Hempty : vertex_count obj = 0) by (subst obj; by destruct (drv_glfwInit drv)).
  eexists _, obj, _.
  split; [apply (create_from_constructor _ w h address mem _ Hnew Hnull Hfresh Hrun)|].
  split; [exact Hobj|].
  split; [apply (scene_defaults obj mem w h); subst obj; by destruct (drv_glfwInit drv)|].
  split; [subst obj; by destruct (drv_glfwInit drv)|].
  split; [subst obj; by destruct (drv_glfwInit drv)|].
  split; [subst obj; by destruct (drv_glfwInit drv)|].
  split; [done|]. split; [done|]. split; [done|].
  replace (texture mem) with (texture obj) by (subst obj; by destruct (drv_glfwInit drv)).
  split; [apply (render_on_handle drv _ address obj Hnull Hobj)|].
  unfold calls_between. cbn [outside add_calls gl_calls]. f_equal.
  rewrite (render_calls_empty drv obj (or_introl Hempty)).
  subst obj. by destruct (drv_glfwInit drv).
Qed.

End CreateDestroy.

(** ** Resizing, and renderers side by side *)

Section ResizeAndHandles.
Context {F : Type} `{Float32 F}.
Variable drv : Driver.

Lemma resize_on_handle (p : @Process F) handle obj w h :
  handle <> nullptr -> object_at p handle = Some obj ->
  let live := gl_objects (outside p) in
  let complete := drv_framebuffer_complete drv (names_after_create drv obj live) in
  foam_renderer_resize drv handle w h p
  = Some (tt,
          {| heap := <[handle := set_rbo (new_rbo drv obj live)
                                   (set_texture (new_texture drv obj live)
                                      (set_fbo (new_fbo drv obj live)
                                         (set_height h (set_width w obj))))]> (heap p);
             outside :=
               {| gl_objects := names_after_create drv obj live;
                  gl_calls := gl_calls (outside p) ++ release_calls obj
                              ++ build_calls w h (new_fbo drv obj live)
                                   (new_texture drv obj live) (new_rbo drv obj live) complete;
                  cerr := cerr (outside p)
                          ++ (if complete then [] else ["Framebuffer is not complete!"%string])
               |} |}).
Proof.
  intros Hh Hobj. cbv zeta. unfold foam_renderer_resize.
  rewrite (proj2 (Z.eqb_neq _ _) Hh). cbn [negb].
  by rewrite (on_object_run _ _ _ _ _ _ Hobj
                (resize_run drv {| this := obj; world := outside p |} w h)).
Qed.

(* a frame starts on the renderer's window, framebuffer and size and ends
   on framebuffer 0; the polygon mode is left alone or set and set back *)
Lemma render_calls_shape (self : FoamRenderer F) :
  exists rest,
    render_calls drv self =
      [ glfwMakeContextCurrent (window self);
        glBindFramebuffer GL_FRAMEBUFFER (fbo self);
        glViewport 0 0 (width self) (height self) ]
      ++ rest ++ [ glBindFramebuffer GL_FRAMEBUFFER 0 ] /\
    (polygon_modes (render_calls drv self) = [] \/
     polygon_modes (render_calls drv self) = [GL_LINE; GL_FILL]).
Proof.
  destruct (decide (vertex_count self = 0 \/ index_count self = 0)) as [Hempty|Hmesh].
  - exists
      [ glClearColor (f_lit 0.117) (f_lit 0.117) (f_lit 0.117) (f_lit 1.0);
        glClear [GL_COLOR_BUFFER_BIT; GL_DEPTH_BUFFER_BIT] ].
    rewrite (render_calls_empty drv self Hempty). split; [done|by left].
  - exists
      ([ glClearColor (f_lit 0.117) (f_lit 0.117) (f_lit 0.117) (f_lit 1.0);
         glClear [GL_COLOR_BUFFER_BIT; GL_DEPTH_BUFFER_BIT] ]
       ++ (if draws_surface self then surface_pass drv self else [])
       ++ (if draws_edges self then edge_pass drv self else [])
       ++ [ glBindVertexArray 0 ]).
    rewrite (render_calls_mesh drv self) by tauto.
    split.
    + cbn [app]. by rewrite <- !app_assoc.
    + unfold draws_surface, draws_edges, edge_pass, surface_pass.
      destruct (representation self); eval_decisions; cbn [orb]; auto.
Qed.

(** X9. Every frame starts by making the renderer's window current, binding
    its framebuffer and setting the viewport to the stored width and
    height, and ends by binding framebuffer 0.  The polygon mode is either
    not touched or set to lines and then back to fill, so a frame leaves
    the default framebuffer bound and fill mode on. *)
Theorem render_restores_state (m : @Machine F) :
  exists m' rest,
    render drv m = Some (texture (this m), m') /\
    calls_between (world m) (world m') (render_calls drv (this m)) /\
    render_calls drv (this m) =
      [ glfwMakeContextCurrent (window (this m));
        glBindFramebuffer GL_FRAMEBUFFER (fbo (this m));
        glViewport 0 0 (width (this m)) (height (this m)) ]
      ++ rest ++ [ glBindFramebuffer GL_FRAMEBUFFER 0 ] /\
    (polygon_modes (render_calls drv (this m)) = [] \/
     polygon_modes (render_calls drv (this m)) = [GL_LINE; GL_FILL]).
Proof.
  destruct (render_calls_shape (this m)) as (rest & Hshape & Hmodes).
  eexists _, rest. split; [apply render_run|]. by split.
Qed.

(** X16. [foam_renderer_resize] on a live handle stores the new width and
    height as given, leaves the mesh, the view, the mode, the window and
    the programs, vertex arrays and buffers alone, and stores the names of
    the render target it builds.  The next [render] binds the new
    framebuffer, sets the viewport to the new size, takes [width / height]
    of the new size as aspect ratio and returns the new texture name. *)
Theorem resize_then_render (p : @Process F) (handle : pointer) (obj : FoamRenderer F)
    (w h : Z) :
  handle <> nullptr ->
  object_at p handle = Some obj ->
  exists p1 obj1 p2 rest,
    foam_renderer_resize drv handle w h p = Some (tt, p1) /\
    object_at p1 handle = Some obj1 /\
    (width obj1, height obj1) = (w, h) /\
    scene obj1 = scene obj /\
    pipeline obj1 = pipeline obj /\
    (fbo obj1, texture obj1, rbo obj1)
      = (new_fbo drv obj (gl_objects (outside p)),
         new_texture drv obj (gl_objects (outside p)),
         new_rbo drv obj (gl_objects (outside p))) /\
    foam_renderer_render drv handle p1 = Some (texture obj1, p2) /\
    calls_between (outside p1) (outside p2)
      ([ glfwMakeContextCurrent (window obj);
         glBindFramebuffer GL_FRAMEBUFFER (fbo obj1);
         glViewport 0 0 w h ]
       ++ rest ++ [ glBindFramebuffer GL_FRAMEBUFFER 0 ]) /\
    projection_matrix obj1 =
      glm.perspective (glm.radians (f_lit 45.0)) (f_div (f_of_int w) (f_of_int h))
        (f_lit 0.1) (f_lit 10000.0).
Proof.
  intros Hh Hobj.
  pose proof (resize_on_handle p handle obj w h Hh Hobj) as Hresize. cbv zeta in Hresize.
  set (live := gl_objects (outside p)) in *.
  set (obj1 := set_rbo (new_rbo drv obj live)
                 (set_texture (new_texture drv obj live)
                    (set_fbo (new_fbo drv obj live) (set_height h (set_width w obj))))) in *.
  destruct (render_calls_shape obj1) as (rest & Hshape & _).
  eexists _, obj1, _, rest. split; [exact Hresize|].
  assert (Hobj1 : forall w1, object_at {| heap := <[handle := obj1]> (heap p); outside := w1 |}
                               handle = Some obj1)
    by (intros w1; apply lookup_insert_eq).
  split; [apply Hobj1|]. split; [done|]. split; [done|]. split; [done|]. split; [done|].
  split; [apply (render_on_handle drv _ handle obj1 Hh (Hobj1 _))|].
  split; [|done].
  unfold calls_between. cbn [outside add_calls gl_calls]. f_equal. exact Hshape.
Qed.

(* taking an element out of a set makes it one smaller *)
Lemma size_remove (X : gset (ObjKind * Z)) x :
  x ∈ X -> size X = (1 + size (X ∖ {[ x ]}))%nat.
Proof.
  intros Hx. rewrite <- (size_singleton (C:=gset (ObjKind * Z)) x), <- size_union.
  - f_equal. by apply union_difference_L, singleton_subseteq_l.
  - apply disjoint_singleton_l. rewrite elem_of_difference, elem_of_singleton. tauto.
Qed.

(* building a render target touches framebuffer, texture and renderbuffer
   names only *)
Lemma names_after_create_other (r : FoamRenderer F) (live : gset (ObjKind * Z)) k n :
  k <> Framebuffer -> k <> Texture -> k <> Renderbuffer ->
  (k, n) ∈ names_after_create drv r live <-> (k, n) ∈ live.
Proof.
  intros Hkf Hkt Hkr. unfold names_after_create, after_release.
  destruct (fbo r =? 0);
    rewrite !elem_of_union, ?elem_of_difference, !elem_of_singleton;
    split; try tauto.
  - intros [E|[E|[E|Hin]]]; [congruence..|done].
  - intros [E|[E|[E|Hin]]]; [congruence..|tauto].
  - intros Hin. do 3 right. repeat split; [done|intros [=]; congruence..].
Qed.

(* with a driver that keeps to the naming rules it adds three objects *)
Lemma names_after_create_size (r : FoamRenderer F) (live : gset (ObjKind * Z)) :
  driver_names_fresh drv ->
  size (names_after_create drv r live) = (size (after_release r live) + 3)%nat.
Proof.
  intros Hfresh.
  assert (Hf : (Framebuffer, new_fbo drv r live) ∉ after_release r live) by apply Hfresh.
  assert (Ht : (Texture, new_texture drv r live)
               ∉ {[ (Framebuffer, new_fbo drv r live) ]} ∪ after_release r live)
    by apply Hfresh.
  assert (Hr : (Renderbuffer, new_rbo drv r live)
               ∉ {[ (Texture, new_texture drv r live) ]}
                 ∪ ({[ (Framebuffer, new_fbo drv r live) ]} ∪ after_release r live))
    by apply Hfresh.
  unfold names_after_create.
  rewrite !size_union, !size_singleton by (by apply disjoint_singleton_l). lia.
Qed.

(* releasing a render target that exists removes three objects *)
Lemma after_release_size (r : FoamRenderer F) (live : gset (ObjKind * Z)) :
  target_live r live -> size live = (size (after_release r live) + 3)%nat.
Proof.
  intros (Hfbo & Hinf & Hint & Hinr). unfold after_release.
  rewrite (proj2 (Z.eqb_neq _ _) Hfbo).
  rewrite (size_remove live (Framebuffer, fbo r)) by done.
  rewrite (size_remove (live ∖ _) (Texture, texture r))
    by (rewrite elem_of_difference, elem_of_singleton; split; [done|by intros [=]]).
  rewrite (size_remove (live ∖ _ ∖ _) (Renderbuffer, rbo r))
    by (rewrite !elem_of_difference, !elem_of_singleton;
        repeat split; [done|by intros [=]..]).
  lia.
Qed.

(* the render target just built exists *)
Lemma names_after_create_live (r r' : FoamRenderer F) (live : gset (ObjKind * Z)) :
  driver_names_fresh drv ->
  (fbo r', texture r', rbo r')
    = (new_fbo drv r live, new_texture drv r live, new_rbo drv r live) ->
  target_live r' (names_after_create drv r live).
Proof.
  intros Hfresh Hnames. injection Hnames as Hf Ht Hr.
  unfold target_live, names_after_create. rewrite Hf, Ht, Hr.
  split; [apply Hfresh|].
  rewrite !elem_of_union, !elem_of_singleton. tauto.
Qed.

(** X17. With a driver that keeps to the naming rules a resize neither
    leaks nor piles up objects: when [fbo] is not zero and the old
    framebuffer, texture and renderbuffer are in use, as many objects are
    in use after the resize as before.  Objects of other kinds (programs,
    vertex arrays, buffers) are never touched.  An incomplete framebuffer
    is only reported on [std::cerr]; the new names are stored all the
    same.  With [fbo] zero nothing is deleted and three objects are
    added. *)
Theorem resize_keeps_object_count (m : @Machine F) (w h : Z) :
  driver_names_fresh drv ->
  let r := this m in
  let live := gl_objects (world m) in
  let complete := drv_framebuffer_complete drv (names_after_create drv r live) in
  exists m',
    resize drv w h m = Some (tt, m') /\
    (fbo (this m'), texture (this m'), rbo (this m'))
      = (new_fbo drv r live, new_texture drv r live, new_rbo drv r live) /\
    cerr (world m')
      = cerr (world m) ++ (if complete then [] else ["Framebuffer is not complete!"%string]) /\
    (forall k n,
       k <> Framebuffer -> k <> Texture -> k <> Renderbuffer ->
       ((k, n) ∈ gl_objects (world m') <-> (k, n) ∈ live)) /\
    size (gl_objects (world m')) = (size (after_release r live) + 3)%nat /\
    (fbo r = 0 -> size (gl_objects (world m')) = (size live + 3)%nat) /\
    (target_live r live ->
     size (gl_objects (world m')) = size live /\
     target_live (this m') (gl_objects (world m'))).
Proof.
  intros Hfresh. cbv zeta. eexists. split; [apply resize_run|].
  cbn [this world gl_objects cerr fbo texture rbo set_fbo set_texture set_rbo].
  split; [done|]. split; [done|].
  split; [apply names_after_create_other|].
  split; [by apply names_after_create_size|]. split.
  - intros Hzero. rewrite names_after_create_size by done.
    unfold after_release. by rewrite Hzero.
  - intros Hlive. split.
    + rewrite names_after_create_size by done. by rewrite (after_release_size _ _ Hlive).
    + by apply names_after_create_live.
Qed.

(* which context a list of calls leaves current *)
Lemma made_current_app (cur : option pointer) (cs cs' : list (GLCall F)) :
  made_current cur (cs ++ cs') = made_current (made_current cur cs) cs'.
Proof.
  revert cur. induction cs as [|c cs IH]; intros cur; [done|].
  destruct c; simpl; apply IH.
Qed.

(* a frame makes the renderer's own window current and leaves it so *)
Lemma made_current_render (cur : option pointer) (self : FoamRenderer F) :
  made_current cur (render_calls drv self) = Some (window self).
Proof.
  destruct (decide (vertex_count self = 0 \/ index_count self = 0)) as [Hempty|Hmesh].
  - by rewrite (render_calls_empty drv self Hempty).
  - rewrite (render_calls_mesh drv self) by tauto.
    unfold draws_surface, draws_edges, edge_pass, surface_pass.
    destruct (representation self); eval_decisions; cbn [orb]; reflexivity.
Qed.

(* an upload and the rebuilding of the render target make no window current *)
Lemma made_current_upload (cur : option pointer) (self : FoamRenderer F) :
  made_current cur (upload_calls self) = cur.
Proof. reflexivity. Qed.

Lemma made_current_rebuild (cur : option pointer) (self : FoamRenderer F) w h f t rb complete :
  made_current cur (release_calls self ++ build_calls w h f t rb complete) = cur.
Proof. unfold release_calls. by destruct (fbo self =? 0). Qed.

(** X18. [update_mesh_data] with [upload_mesh_to_gpu], and [resize] with
    [create_framebuffer], never call [glfwMakeContextCurrent]; [render]
    does, on the renderer's own window.  So with two renderers, after a
    frame of the first, an upload and then a resize of the second issue
    their calls (on the second renderer's buffer names, for the second
    renderer's render target) while the window made current last is still
    the first renderer's; only a frame of the second renderer makes the
    second renderer's window current. *)
Theorem uploads_run_in_context_made_current_last (p : @Process F)
    (first second : pointer) (obj1 obj2 : FoamRenderer F)
    verts vert_count inds ind_count colors c_colors c_count (w h : Z) :
  first <> nullptr -> second <> nullptr ->
  object_at p first = Some obj1 ->
  object_at p second = Some obj2 ->
  valid_mesh_args verts vert_count inds ind_count colors c_colors c_count ->
  exists p1 p2 p3 p4 obj2' obj2'' cs,
    foam_renderer_render drv first p = Some (texture obj1, p1) /\
    made_current None (gl_calls (outside p1)) = Some (window obj1) /\
    foam_renderer_update_mesh second verts vert_count inds ind_count colors c_colors c_count
      p1 = Some (tt, p2) /\
    object_at p2 second = Some obj2' /\
    pipeline obj2' = pipeline obj2 /\
    calls_between (outside p1) (outside p2) (upload_calls obj2') /\
    made_current None (gl_calls (outside p2)) = Some (window obj1) /\
    foam_renderer_resize drv second w h p2 = Some (tt, p3) /\
    object_at p3 second = Some obj2'' /\
    window obj2'' = window obj2 /\
    calls_between (outside p2) (outside p3) cs /\
    In (glBindFramebuffer GL_FRAMEBUFFER (fbo obj2'')) cs /\
    made_current None (gl_calls (outside p3)) = Some (window obj1) /\
    foam_renderer_render drv second p3 = Some (texture obj2'', p4) /\
    made_current None (gl_calls (outside p4)) = Some (window obj2).
Proof.
  intros Hfirst Hsecond Hobj1 Hobj2 Hvalid.
  (* the frame of the first renderer *)
  pose proof (render_on_handle drv p first obj1 Hfirst Hobj1) as Hrender1.
  set (p1 := {| heap := heap p;
                outside := add_calls (render_calls drv obj1) (outside p) |}) in *.
  assert (Hcur1 : made_current None (gl_calls (outside p1)) = Some (window obj1)).
  { cbn [p1 outside add_calls gl_calls]. rewrite made_current_app.
    apply made_current_render. }
  (* the upload of the second renderer *)
  destruct (update_mesh_data_run {| this := obj2; world := outside p1 |}
              _ _ _ _ _ _ _ Hvalid) as (m2 & Hrun2 & _).
  pose proof (update_mesh_preserves_surroundings _ _ _ _ _ _ _ _ _ _ Hrun2) as Hs2.
  pose proof (emits_update_mesh_data _ _ _ _ _ _ _ _ _ _ Hrun2) as Hw2.
  cbn [this world] in Hs2, Hw2.
  assert (Hupdate : foam_renderer_update_mesh second verts vert_count inds ind_count
                      colors c_colors c_count p1
                    = Some (tt, {| heap := <[second := this m2]> (heap p1);
                                   outside := world m2 |})).
  { unfold foam_renderer_update_mesh. rewrite (proj2 (Z.eqb_neq _ _) Hsecond). cbn [negb].
    apply (on_object_run p1 _ _ _ _ _ Hobj2 Hrun2). }
  set (p2 := {| heap := <[second := this m2]> (heap p1); outside := world m2 |}) in *.
  assert (Hobj2' : object_at p2 second = Some (this m2)) by apply lookup_insert_eq.
  assert (Hpipe2 : pipeline (this m2) = pipeline obj2)
    by exact (f_equal (fun s => s.2.1.1) Hs2).
  assert (Hcur2 : made_current None (gl_calls (outside p2)) = Some (window obj1)).
  { cbn [p2 outside]. rewrite Hw2. cbn [add_calls gl_calls].
    by rewrite made_current_app, made_current_upload. }
  (* the resize of the second renderer *)
  pose proof (resize_on_handle p2 second (this m2) w h Hsecond Hobj2') as Hresize.
  cbv zeta in Hresize.
  set (live := gl_objects (outside p2)) in *.
  set (obj3 := set_rbo (new_rbo drv (this m2) live)
                 (set_texture (new_texture drv (this m2) live)
                    (set_fbo (new_fbo drv (this m2) live)
                       (set_height h (set_width w (this m2)))))) in *.
  set (cs := release_calls (this m2)
             ++ build_calls w h (new_fbo drv (this m2) live) (new_texture drv (this m2) live)
                  (new_rbo drv (this m2) live)
                  (drv_framebuffer_complete drv (names_after_create drv (this m2) live)))
    in *.
  match type of Hresize with
  | _ = Some (tt, ?q) => set (p3 := q) in *
  end.
  assert (Hobj3 : object_at p3 second = Some obj3) by apply lookup_insert_eq.
  assert (Hcur3 : made_current None (gl_calls (outside p3)) = Some (window obj1)).
  { cbn [p3 outside gl_calls]. rewrite made_current_app, Hcur2.
    apply made_current_rebuild. }
  (* the frame of the second renderer *)
  pose proof (render_on_handle drv p3 second obj3 Hsecond Hobj3) as Hrender2.
  exists p1, p2, p3. eexists. exists (this m2), obj3, cs.
  split; [exact Hrender1|]. split; [exact Hcur1|]. split; [exact Hupdate|].
  split; [exact Hobj2'|]. split; [exact Hpipe2|].
  split; [cbn [p2 outside]; by rewrite Hw2|]. split; [exact Hcur2|].
  split; [exact Hresize|]. split; [exact Hobj3|].
  split; [exact (f_equal (fun s => s.1.1.1) Hpipe2)|].
  split; [done|].
  split.
  { subst cs. apply in_app_iff. right. unfold build_calls. right. by left. }
  split; [exact Hcur3|]. split; [exact Hrender2|].
  cbn [outside add_calls gl_calls]. rewrite made_current_app, made_current_render.
  exact (f_equal (fun s => Some s.1.1.1) Hpipe2).
Qed.

(** X19. After a call of update_mesh within the contract with at least one
    vertex and one index, the next [render] draws [index_count] indices as
    passed, once per pass of the representation in force, uploads no
    geometry of its own, and still returns the texture identifier the
    renderer had before the upload; the view set earlier is still in
    force. *)
Theorem update_mesh_then_render (p : @Process F) (handle : pointer) (obj : FoamRenderer F)
    verts vert_count inds ind_count colors c_colors c_count :
  handle <> nullptr ->
  object_at p handle = Some obj ->
  valid_mesh_args verts vert_count inds ind_count colors c_colors c_count ->
  vert_count <> 0 -> ind_count <> 0 ->
  exists p1 obj1 p2,
    foam_renderer_update_mesh handle verts vert_count inds ind_count colors c_colors c_count p
      = Some (tt, p1) /\
    object_at p1 handle = Some obj1 /\
    foam_renderer_render drv handle p1 = Some (texture obj, p2) /\
    calls_between (outside p1) (outside p2) (render_calls drv obj1) /\
    filter (fun c => is_draw c = true) (render_calls drv obj1) =
      (if draws_surface obj
       then [glDrawElements GL_TRIANGLES ind_count GL_UNSIGNED_INT 0] else [])
      ++ (if draws_edges obj
          then [glDrawElements GL_TRIANGLES ind_count GL_UNSIGNED_INT 0] else []) /\
    filter (fun c => is_upload c = true) (render_calls drv obj1) = [] /\
    (model_matrix obj1, view_matrix obj1, projection_matrix obj1)
      = (model_matrix obj, view_matrix obj, projection_matrix obj).
Proof.
  intros Hh Hobj Hvalid Hv Hi.
  destruct (update_mesh_data_run {| this := obj; world := outside p |}
              _ _ _ _ _ _ _ Hvalid) as (m' & Hrun & Hthis).
  cbn [this] in Hthis.
  pose proof (update_mesh_preserves_surroundings _ _ _ _ _ _ _ _ _ _ Hrun) as Hs.
  cbn [this] in Hs.
  assert (Hobj1 : object_at {| heap := <[handle := this m']> (heap p); outside := world m' |}
                    handle = Some (this m')) by apply lookup_insert_eq.
  assert (Hvc : vertex_count (this m') = vert_count) by (by rewrite Hthis).
  assert (Hic : index_count (this m') = ind_count) by (by rewrite Hthis).
  assert (Hrep : representation (this m') = representation obj)
    by exact (f_equal (fun s => s.1.2.1) Hs).
  eexists _, (this m'), _. split.
  { unfold foam_renderer_update_mesh. rewrite (proj2 (Z.eqb_neq _ _) Hh). cbn [negb].
    apply (on_object_run _ _ _ _ _ _ Hobj Hrun). }
  split; [exact Hobj1|].
  replace (texture obj) with (texture (this m'))
    by exact (f_equal (fun s => s.2.2.1.2) Hs).
  split; [apply (render_on_handle drv _ handle _ Hh Hobj1)|].
  split; [done|]. split.
  { rewrite (render_mesh_draws drv (this m')) by congruence.
    unfold draws_surface, draws_edges. by rewrite Hrep, Hic. }
  split; [apply render_no_upload|].
  pose proof (f_equal (fun s => s.1.1) Hs) as Hview.
  pose proof (f_equal (fun s => s.2.1.2) Hs) as Hsize.
  unfold ViewState in Hview. cbn [fst snd] in Hview, Hsize.
  injection Hview as Hrx Hry Hz Hc. injection Hsize as Hw Hh'.
  unfold model_matrix, view_matrix, projection_matrix.
  by rewrite Hrx, Hry, Hz, Hc, Hw, Hh'.
Qed.

(* what one call does to the renderer behind its handle and to the names
   in use: a resize rebuilds the render target, every other call leaves
   the render target and the names in use alone; none changes the pipeline *)
Lemma run_call_step (p : @Process F) handle obj c r p' :
  handle <> nullptr ->
  object_at p handle = Some obj ->
  run_call drv handle c p = Some (r, p') ->
  exists obj',
    object_at p' handle = Some obj' /\
    pipeline obj' = pipeline obj /\
    ((gl_objects (outside p') = gl_objects (outside p) /\
      (fbo obj', texture obj', rbo obj') = (fbo obj, texture obj, rbo obj)) \/
     (gl_objects (outside p') = names_after_create drv obj (gl_objects (outside p)) /\
      (fbo obj', texture obj', rbo obj')
      = (new_fbo drv obj (gl_objects (outside p)),
         new_texture drv obj (gl_objects (outside p)),
         new_rbo drv obj (gl_objects (outside p))))).
Proof.
  intros Hh Hobj Hrun.
  destruct c as [v vc i ic cs ccs cc|rx ry z cx cy cz|rep d| |w h|]; simpl in Hrun;
    apply bind_inv in Hrun as (a & p1 & Hrun & [= _ <-]).
  - unfold foam_renderer_update_mesh in Hrun.
    rewrite (proj2 (Z.eqb_neq _ _) Hh) in Hrun. cbn [negb] in Hrun.
    apply on_object_inv in Hrun as (obj0 & m & Hobj0 & Hm & ->).
    rewrite Hobj in Hobj0. injection Hobj0 as <-.
    pose proof (update_mesh_preserves_surroundings _ _ _ _ _ _ _ _ _ _ Hm) as Hs.
    pose proof (emits_update_mesh_data _ _ _ _ _ _ _ _ _ _ Hm) as Hw.
    cbn [this world] in Hs, Hw.
    exists (this m). split; [apply lookup_insert_eq|].
    split; [exact (f_equal (fun s => s.2.1.1) Hs)|].
    left. cbn [outside]. rewrite Hw. split; [done|exact (f_equal (fun s => s.2.2) Hs)].
  - rewrite (set_view_on_handle p handle obj _ _ _ _ _ _ Hh Hobj) in Hrun.
    injection Hrun as _ <-. eexists. split; [apply lookup_insert_eq|]. split; [done|by left].
  - rewrite (set_mode_on_handle p handle obj _ _ Hh Hobj) in Hrun.
    injection Hrun as _ <-. eexists. split; [apply lookup_insert_eq|]. split; [done|by left].
  - rewrite (render_on_handle drv p handle obj Hh Hobj) in Hrun.
    injection Hrun as _ <-. exists obj. split; [done|]. split; [done|by left].
  - rewrite (resize_on_handle p handle obj w h Hh Hobj) in Hrun.
    injection Hrun as _ <-. eexists. split; [apply lookup_insert_eq|].
    split; [done|by right].
  - rewrite (get_texture_on_handle p handle obj Hh Hobj) in Hrun.
    injection Hrun as _ <-. exists obj. split; [done|]. split; [done|by left].
Qed.

(** X20. Over any sequence of update_mesh, set_view, set_mode, render,
    resize and get_texture calls on a live handle that returns, the
    window, the two shader programs, the two vertex arrays and the five
    buffers of the renderer stay the ones it had, and no program, vertex
    array, buffer or shader object is created or deleted: only a resize
    creates and deletes objects, and only framebuffers, textures and
    renderbuffers. *)
Theorem pipeline_lives_across_calls (cs : list ApiCall) (p p' : @Process F)
    (handle : pointer) (obj : FoamRenderer F) :
  handle <> nullptr ->
  object_at p handle = Some obj ->
  run_calls drv handle cs p = Some (tt, p') ->
  exists obj',
    object_at p' handle = Some obj' /\
    pipeline obj' = pipeline obj /\
    forall k n,
      k <> Framebuffer -> k <> Texture -> k <> Renderbuffer ->
      ((k, n) ∈ gl_objects (outside p') <-> (k, n) ∈ gl_objects (outside p)).
Proof.
  intros Hh. revert p obj. induction cs as [|c cs IH]; intros p obj Hobj Hrun.
  - injection Hrun as <-. by exists obj.
  - apply bind_inv in Hrun as (r & p1 & Hc & Hrest).
    destruct (run_call_step _ _ _ _ _ _ Hh Hobj Hc) as (obj1 & Hobj1 & Hpipe1 & Hstep).
    destruct (IH _ _ Hobj1 Hrest) as (obj' & Hobj' & Hpipe & Hother).
    exists obj'. split; [done|]. split; [congruence|].
    intros k n Hkf Hkt Hkr. rewrite (Hother k n Hkf Hkt Hkr).
    destruct Hstep as [[-> _]|[-> _]]; [done|by apply names_after_create_other].
Qed.

(** X21. With a driver that keeps to the naming rules, a renderer whose
    render target exists keeps one over any sequence of update_mesh,
    set_view, set_mode, render, resize and get_texture calls that returns:
    the framebuffer, texture and renderbuffer names it holds afterwards
    are in use, the identifier [foam_renderer_get_texture] returns is not
    zero when it was not zero at the start, and as many objects are in use
    as before, however many resizes the sequence holds. *)
Theorem render_target_lives_across_calls (cs : list ApiCall) (p p' : @Process F)
    (handle : pointer) (obj : FoamRenderer F) :
  driver_names_fresh drv ->
  handle <> nullptr ->
  object_at p handle = Some obj ->
  target_live obj (gl_objects (outside p)) ->
  texture obj <> 0 ->
  run_calls drv handle cs p = Some (tt, p') ->
  exists obj',
    object_at p' handle = Some obj' /\
    target_live obj' (gl_objects (outside p')) /\
    size (gl_objects (outside p')) = size (gl_objects (outside p)) /\
    foam_renderer_get_texture handle p' = Some (texture obj', p') /\
    texture obj' <> 0.
Proof.
  intros Hfresh Hh. revert p obj.
  induction cs as [|c cs IH]; intros p obj Hobj Hlive Htex Hrun.
  - injection Hrun as <-. exists obj. split; [done|]. split; [done|]. split; [done|].
    split; [by apply get_texture_on_handle|done].
  - apply bind_inv in Hrun as (r & p1 & Hc & Hrest).
    destruct (run_call_step _ _ _ _ _ _ Hh Hobj Hc) as (obj1 & Hobj1 & _ & Hstep).
    assert (Hlive1 : target_live obj1 (gl_objects (outside p1)) /\
                     texture obj1 <> 0 /\
                     size (gl_objects (outside p1)) = size (gl_objects (outside p))).
    { destruct Hstep as [[-> Hnames]|[-> Hnames]].
      - injection Hnames as Hf Ht Hr. unfold target_live.
        rewrite Hf, Ht, Hr. by repeat split; try apply Hlive.
      - split; [by apply names_after_create_live|]. split.
        + injection Hnames as _ -> _. apply Hfresh.
        + rewrite names_after_create_size by done.
          by rewrite (after_release_size _ _ Hlive). }
    destruct Hlive1 as (Hlive1 & Htex1 & Hsize1).
    destruct (IH _ _ Hobj1 Hlive1 Htex1 Hrest) as (obj' & Hobj' & Hlive' & Hsize & Hget & Hnz).
    exists obj'. split; [done|]. split; [done|]. split; [congruence|]. by split.
Qed.

End ResizeAndHandles.

(** ** The further properties on concrete inputs *)

Lemma triangle_with_cell_valid :
  valid_mesh_args (F:=R) (Some triangle_verts) 3 (Some [0; 1; 2]) 3 None (Some red) 1.
Proof.
  apply triangle_args_valid; [reflexivity|].
  right. split; [lia|]. split; [unfold INT32_MAX; lia|]. exists red. split; reflexivity.
Qed.

Lemma handle_4096_not_null : 4096 <> nullptr.
Proof. unfold nullptr. lia. Qed.

Lemma empty_heap_fresh : 4096 ∉ dom (heap (empty_process (F:=R))).
Proof. simpl. rewrite dom_empty_L. apply not_elem_of_empty. Qed.

Lemma update_mesh_uploads_what_it_stores_witness :
  exists m' : @Machine R,
    update_mesh_data (Some triangle_verts) 3 (Some [0; 1; 2]) 3 None (Some red) 1
      fresh_machine = Some (tt, m') /\
    gl_objects (world m') = gl_objects (world fresh_machine) /\
    calls_between (world fresh_machine) (world m') (upload_calls (this m')).
Proof.
  destruct (update_mesh_uploads_what_it_stores (F:=R) fresh_machine
              (Some triangle_verts) 3 (Some [0; 1; 2]) 3 None (Some red) 1)
    as (m' & Hrun & Hobjs & _ & Hcalls & _).
  - exact triangle_with_cell_valid.
  - exists m'. split; [exact Hrun|]. split; [exact Hobjs|exact Hcalls].
Defined.

Lemma update_mesh_keeps_surroundings_witness :
  exists m' : @Machine R,
    update_mesh_data (Some triangle_verts) 3 (Some [0; 1; 2]) 3 None (Some red) 1
      fresh_machine = Some (tt, m') /\
    ViewState (this m') = ViewState (this fresh_machine).
Proof.
  destruct (update_mesh_keeps_surroundings (F:=R) fresh_machine
              (Some triangle_verts) 3 (Some [0; 1; 2]) 3 None (Some red) 1)
    as (m' & Hrun & Hview & _).
  - exact triangle_with_cell_valid.
  - exists m'. split; [exact Hrun|exact Hview].
Defined.

Lemma update_mesh_replaces_snapshot_witness :
  exists m' : @Machine R,
    update_mesh_data (Some triangle_verts) 3 (Some [0; 1; 2]) 3 None (Some red) 1
      fresh_machine = Some (tt, m') /\
    MeshSnapshot (this m') =
      (triangle_verts, [0; 1; 2], concat (replicate 3 default_color), red, 3, 3, 1).
Proof.
  destruct (update_mesh_replaces_snapshot (F:=R) fresh_machine
              (Some triangle_verts) 3 (Some [0; 1; 2]) 3 None red 1)
    as (m' & Hrun & Hsnap).
  - exact triangle_with_cell_valid.
  - exists m'. split; [exact Hrun|exact Hsnap].
Defined.

Lemma update_mesh_defined_iff_witness :
  exists m' : @Machine R,
    update_mesh_data (Some triangle_verts) 2 None 0 None None 5 fresh_machine
      = Some (tt, m') /\
    this m' = with_mesh (Some triangle_verts) 2 None 0 None None 5 (this fresh_machine).
Proof.
  apply (proj2 (update_mesh_defined_iff (F:=R) fresh_machine
                  (Some triangle_verts) 2 None 0 None None 5)).
  split; [|split; [|split; [|split]]].
  - split; [lia|]. right. exists triangle_verts. split; [reflexivity|]. simpl. lia.
  - unfold INT32_MAX. lia.
  - split; [lia|]. left. reflexivity.
  - intros Hnone. exfalso. apply Hnone. reflexivity.
  - intros Hnone. exfalso. apply Hnone. reflexivity.
Defined.

Lemma set_view_then_render_witness :
  exists (p1 : @Process R) obj1 p2,
    foam_renderer_set_view 4096 1%R 2%R 3%R 4%R 5%R 6%R triangle_process = Some (tt, p1) /\
    object_at p1 4096 = Some obj1 /\
    ViewState obj1 = (1%R, 2%R, 3%R, glm.Vec3 4%R 5%R 6%R) /\
    foam_renderer_render compact_driver 4096 p1 = Some (texture triangle_object, p2).
Proof.
  destruct (set_view_then_render (F:=R) compact_driver triangle_process 4096 triangle_object
              1%R 2%R 3%R 4%R 5%R 6%R)
    as (p1 & obj1 & p2 & Hset & _ & Hobj1 & Hview & _ & _ & _ & Hrender & _).
  - exact handle_4096_not_null.
  - reflexivity.
  - exists p1, obj1, p2. split; [exact Hset|]. split; [exact Hobj1|].
    split; [exact Hview|exact Hrender].
Defined.

Lemma set_mode_then_render_witness :
  exists (p1 : @Process R) obj1 p2,
    foam_renderer_set_mode 4096 REPRESENTATION_SURFACE_WITH_EDGES DATA_MODE_CELL
      triangle_process = Some (tt, p1) /\
    object_at p1 4096 = Some obj1 /\
    foam_renderer_render compact_driver 4096 p1 = Some (texture triangle_object, p2) /\
    polygon_modes (render_calls compact_driver obj1) = [GL_LINE; GL_FILL].
Proof.
  destruct (set_mode_then_render (F:=R) compact_driver triangle_process 4096 triangle_object
              REPRESENTATION_SURFACE_WITH_EDGES DATA_MODE_CELL)
    as (p1 & obj1 & p2 & Hset & _ & Hobj1 & _ & _ & _ & _ & Hrender & _ & _ & _ & Hmodes & _).
  - exact handle_4096_not_null.
  - reflexivity.
  - simpl. lia.
  - simpl. lia.
  - exists p1, obj1, p2. split; [exact Hset|]. split; [exact Hobj1|].
    split; [exact Hrender|exact Hmodes].
Defined.

Lemma render_reads_only_its_inputs_witness :
  render_calls compact_driver (triangle_object (F:=R))
  = render_calls compact_driver (set_data_mode DATA_MODE_CELL (set_cell_colors red triangle_object)).
Proof.
  apply (render_reads_only_its_inputs (F:=R) compact_driver triangle_object
           (set_data_mode DATA_MODE_CELL (set_cell_colors red triangle_object))).
  reflexivity.
Defined.

Lemma create_shader_program_reports_and_continues_witness :
  exists m' : @Machine R,
    create_shader_program compact_driver vertex_shader_source fragment_shader_source
      fresh_machine
    = Some (program_name compact_driver (gl_objects (world fresh_machine)), m') /\
    program_name compact_driver (gl_objects (world (fresh_machine (F:=R)))) <> 0.
Proof.
  destruct (create_shader_program_reports_and_continues (F:=R) compact_driver fresh_machine
              vertex_shader_source fragment_shader_source)
    as (m' & Hrun & _ & _ & _ & _ & _ & _ & _ & Hfresh).
  destruct (Hfresh compact_driver_fresh) as (_ & Hnz & _).
  exists m'. split; [exact Hrun|exact Hnz].
Defined.

Lemma create_on_working_platform_witness :
  exists (p1 : @Process R) obj,
    foam_renderer_create compact_driver bump_allocator 800 600 empty_process
      = Some (4096, p1) /\
    object_at p1 4096 = Some obj /\
    NoDup (held_list obj) /\
    foam_renderer_get_texture 4096 p1 = Some (texture obj, p1) /\
    texture obj <> 0.
Proof.
  destruct (create_on_working_platform (F:=R) compact_driver bump_allocator empty_process
              800 600 4096 zeroed_storage)
    as (p1 & obj & Hcreate & Hobj & _ & _ & _ & _ & Hnodup & _ & _ & _ & Htex & Hnz & _).
  - reflexivity.
  - exact handle_4096_not_null.
  - exact empty_heap_fresh.
  - reflexivity.
  - exact compact_driver_fresh.
  - exists p1, obj. split; [exact Hcreate|]. split; [exact Hobj|].
    split; [exact Hnodup|]. split; [exact Htex|exact Hnz].
Defined.

Lemma create_releases_names_found_in_storage_witness :
  exists (p1 : @Process R) obj cs,
    foam_renderer_create compact_driver recycling_allocator 800 600 empty_process
      = Some (4096, p1) /\
    object_at p1 4096 = Some obj /\
    calls_between (outside (empty_process (F:=R))) (outside p1) cs /\
    In (glDelete Texture 1 8) cs.
Proof.
  destruct (create_releases_names_found_in_storage (F:=R) compact_driver recycling_allocator
              empty_process 800 600 4096 stale_storage)
    as (p1 & obj & cs & Hcreate & Hobj & Hcalls & _ & Htex & _).
  - reflexivity.
  - exact handle_4096_not_null.
  - exact empty_heap_fresh.
  - reflexivity.
  - exact compact_driver_fresh.
  - unfold stale_storage. eval_members. lia.
  - exists p1, obj, cs. split; [exact Hcreate|]. split; [exact Hobj|].
    split; [exact Hcalls|exact Htex].
Defined.

Lemma create_then_destroy_leaves_nothing_witness :
  exists p1 p2 : @Process R,
    foam_renderer_create compact_driver bump_allocator 800 600 empty_process
      = Some (4096, p1) /\
    foam_renderer_destroy 4096 p1 = Some (tt, p2) /\
    heap p2 = heap (empty_process (F:=R)) /\
    gl_objects (outside p2) = gl_objects (outside (empty_process (F:=R))).
Proof.
  destruct (create_then_destroy_leaves_nothing (F:=R) compact_driver bump_allocator
              empty_process 800 600 4096 zeroed_storage)
    as (p1 & p2 & Hcreate & Hdestroy & Hheap & _ & Hobjs).
  - reflexivity.
  - exact handle_4096_not_null.
  - exact empty_heap_fresh.
  - reflexivity.
  - exact compact_driver_fresh.
  - exists p1, p2. split; [exact Hcreate|]. split; [exact Hdestroy|].
    split; [exact Hheap|]. apply Hobjs. reflexivity.
Defined.

Lemma destroy_releases_everything_witness :
  exists p' : @Process R,
    foam_renderer_destroy 4096 triangle_process = Some (tt, p') /\
    object_at p' 4096 = None /\
    foam_renderer_destroy 4096 p' = None.
Proof.
  destruct (destroy_releases_everything (F:=R) compact_driver triangle_process 4096
              triangle_object)
    as (p' & Hdestroy & Hgone & _ & _ & _ & _ & _ & _ & _ & Htwice & _).
  - exact handle_4096_not_null.
  - reflexivity.
  - exists p'. split; [exact Hdestroy|]. split; [exact Hgone|exact Htwice].
Defined.

Lemma create_with_failed_initialisation_witness :
  exists (p1 : @Process R) obj,
    foam_renderer_create headless_driver bump_allocator 800 600 empty_process
      = Some (4096, p1) /\
    object_at p1 4096 = Some obj /\
    held_list obj = held_list zeroed_storage /\
    cerr (outside p1)
    = cerr (outside (empty_process (F:=R))) ++ ["Failed to initialize GLFW"%string].
Proof.
  destruct (create_with_failed_initialisation (F:=R) headless_driver bump_allocator
              empty_process 800 600 4096 zeroed_storage "Failed to initialize GLFW")
    as (p1 & obj & p2 & Hcreate & Hobj & _ & _ & Hheld & _ & _ & Hcerr & _).
  - reflexivity.
  - exact handle_4096_not_null.
  - exact empty_heap_fresh.
  - reflexivity.
  - exists p1, obj. split; [exact Hcreate|]. split; [exact Hobj|].
    split; [exact Hheld|exact Hcerr].
Defined.

Lemma resize_then_render_witness :
  exists (p1 : @Process R) obj1 p2,
    foam_renderer_resize compact_driver 4096 1024 768 triangle_process = Some (tt, p1) /\
    object_at p1 4096 = Some obj1 /\
    (width obj1, height obj1) = (1024, 768) /\
    foam_renderer_render compact_driver 4096 p1 = Some (texture obj1, p2).
Proof.
  destruct (resize_then_render (F:=R) compact_driver triangle_process 4096 triangle_object
              1024 768)
    as (p1 & obj1 & p2 & rest & Hresize & Hobj1 & Hsize & _ & _ & _ & Hrender & _).
  - exact handle_4096_not_null.
  - reflexivity.
  - exists p1, obj1, p2. split; [exact Hresize|]. split; [exact Hobj1|].
    split; [exact Hsize|exact Hrender].
Defined.

Lemma resize_keeps_object_count_witness :
  exists m' : @Machine R,
    resize compact_driver 1024 768 fresh_machine = Some (tt, m') /\
    size (gl_objects (world m')) = (size (gl_objects (world (fresh_machine (F:=R)))) + 3)%nat.
Proof.
  destruct (resize_keeps_object_count (F:=R) compact_driver fresh_machine 1024 768
              compact_driver_fresh)
    as (m' & Hresize & _ & _ & _ & _ & Hzero & _).
  exists m'. split; [exact Hresize|]. apply Hzero. reflexivity.
Defined.

Lemma uploads_run_in_context_made_current_last_witness :
  exists p1 p2 : @Process R,
    foam_renderer_render compact_driver 4096 two_renderers
    = Some (texture left_object, p1) /\
    foam_renderer_update_mesh 8192 (Some triangle_verts) 3 (Some [0; 1; 2]) 3 None
      (Some red) 1 p1 = Some (tt, p2) /\
    made_current None (gl_calls (outside p2)) = Some 11 /\
    window (right_object (F:=R)) = 22.
Proof.
  destruct (uploads_run_in_context_made_current_last (F:=R) compact_driver two_renderers
              4096 8192 left_object right_object
              (Some triangle_verts) 3 (Some [0; 1; 2]) 3 None (Some red) 1 1024 768)
    as (p1 & p2 & _ & _ & _ & _ & _ & Hrender & _ & Hupdate & _ & _ & _ & Hcur & _).
  - exact handle_4096_not_null.
  - unfold nullptr. lia.
  - reflexivity.
  - reflexivity.
  - exact triangle_with_cell_valid.
  - exists p1, p2. split; [exact Hrender|]. split; [exact Hupdate|].
    split; [exact Hcur|reflexivity].
Defined.

Lemma update_mesh_then_render_witness :
  exists (p1 : @Process R) obj1 p2,
    foam_renderer_update_mesh 4096 (Some triangle_verts) 3 (Some [0; 1; 2]) 3 None
      (Some red) 1 triangle_process = Some (tt, p1) /\
    object_at p1 4096 = Some obj1 /\
    foam_renderer_render compact_driver 4096 p1 = Some (texture triangle_object, p2) /\
    filter (fun c => is_upload c = true) (render_calls compact_driver obj1) = [].
Proof.
  destruct (update_mesh_then_render (F:=R) compact_driver triangle_process 4096
              triangle_object (Some triangle_verts) 3 (Some [0; 1; 2]) 3 None (Some red) 1)
    as (p1 & obj1 & p2 & Hupdate & Hobj1 & Hrender & _ & _ & Hupload & _).
  - exact handle_4096_not_null.
  - reflexivity.
  - exact triangle_with_cell_valid.
  - lia.
  - lia.
  - exists p1, obj1, p2. split; [exact Hupdate|]. split; [exact Hobj1|].
    split; [exact Hrender|exact Hupload].
Defined.

(* a mode change and a resize on the triangle, on any float type *)
Lemma triangle_mode_resize_run {F : Type} `{Float32 F} :
  exists p1 : @Process F,
    run_calls compact_driver 4096
      [call_set_mode REPRESENTATION_WIREFRAME DATA_MODE_CELL; call_resize 1024 768]
      triangle_process = Some (tt, p1).
Proof. eexists. vm_compute. reflexivity. Qed.

Lemma ready_resize_run {F : Type} `{Float32 F} :
  exists p1 : @Process F,
    run_calls compact_driver 4096 [call_resize 1024 768; call_get_texture] ready_process
      = Some (tt, p1).
Proof. eexists. vm_compute. reflexivity. Qed.

Lemma pipeline_lives_across_calls_witness :
  exists (p1 : @Process R) obj1,
    run_calls compact_driver 4096
      [call_set_mode REPRESENTATION_WIREFRAME DATA_MODE_CELL; call_resize 1024 768]
      triangle_process = Some (tt, p1) /\
    object_at p1 4096 = Some obj1 /\
    pipeline obj1 = pipeline triangle_object.
Proof.
  destruct (triangle_mode_resize_run (F:=R)) as [p1 Hrun].
  destruct (pipeline_lives_across_calls (F:=R) compact_driver
              [call_set_mode REPRESENTATION_WIREFRAME DATA_MODE_CELL; call_resize 1024 768]
              triangle_process p1 4096 triangle_object)
    as (obj1 & Hobj1 & Hpipe & _).
  - exact handle_4096_not_null.
  - reflexivity.
  - exact Hrun.
  - exists p1, obj1. split; [exact Hrun|]. split; [exact Hobj1|exact Hpipe].
Defined.

Lemma render_target_lives_across_calls_witness :
  exists (p1 : @Process R) obj1,
    run_calls compact_driver 4096 [call_resize 1024 768; call_get_texture] ready_process
      = Some (tt, p1) /\
    object_at p1 4096 = Some obj1 /\
    size (gl_objects (outside p1)) = size (gl_objects (outside (ready_process (F:=R)))).
Proof.
  destruct (ready_resize_run (F:=R)) as [p1 Hrun].
  destruct (render_target_lives_across_calls (F:=R) compact_driver
              [call_resize 1024 768; call_get_texture]
              ready_process p1 4096 ready_object)
    as (obj1 & Hobj1 & _ & Hsize & _).
  - exact compact_driver_fresh.
  - exact handle_4096_not_null.
  - reflexivity.
  - unfold target_live, ready_object, ready_process.
    cbn [outside gl_objects fbo texture rbo set_fbo set_texture set_rbo].
    rewrite !elem_of_union, !elem_of_singleton. split; [lia|tauto].
  - unfold ready_object. cbn [texture set_rbo set_texture]. lia.
  - exact Hrun.
  - exists p1, obj1. split; [exact Hrun|]. split; [exact Hobj1|exact Hsize].
Defined.
